(** * BallMaster: kick detection and the top-results leaderboard

    A shallow embedding of the algorithmic core of the BallMaster Python
    sources ([utils.py], [top_results.py] and the [/results] endpoint of
    [api_server.py]) together with the properties stated about it.

    Numbers.  Python [int]s are [Z].  Python [float]s are rationals ([Q]).
    In the score of the leaderboard, which is rounded to two decimals and so
    depends on the last bit of its operands, and in the duration of a
    series, the difference of two timestamps, every operation is rounded to
    the nearest [float] as Python does ([Py.double]).  In the detector and
    the frame loop the arithmetic is the exact one: the statements about
    them use the code's own expressions and comparisons, and none turns on
    a rounding error.  Equality of rationals is [==] ([Qeq]); boolean tests
    go through [Qle_bool] and [Qltb] below, so they never depend on how a
    rational is written. *)

From Stdlib Require Import String ZArith QArith Qround Qpower Qabs.
From Stdlib Require Import Bool List Lia Lqa.
From Stdlib Require Import Permutation Sorted.
Import ListNotations.

Set Implicit Arguments.

(** ** Python built-ins used by the sources *)

Module Py.

Open Scope Q_scope.

(** [x < y] on floats. *)
Definition Qltb (x y : Q) : bool := negb (Qle_bool y x).

(** [max(a, b)]: the first argument unless the second is strictly larger. *)
Definition max (a b : Q) : Q := if Qltb a b then b else a.

(** [min(a, b)]: the first argument unless the second is strictly smaller. *)
Definition min (a b : Q) : Q := if Qltb b a then b else a.

(** [abs(x)]. *)
Definition abs (x : Q) : Q := if Qltb x 0 then - x else x.

(** Rounding to the nearest integer, ties to the even neighbour. *)
Definition round_half_even (q : Q) : Z :=
  let f := Qfloor q in
  match Qcompare (q - inject_Z f) (1 # 2) with
  | Lt => f
  | Gt => (f + 1)%Z
  | Eq => if Z.even f then f else (f + 1)%Z
  end.

(** The exponent [e] with [2^e <= |q| < 2^(e+1)], for [q] other than 0:
    the difference of the bit lengths of numerator and denominator, or one
    less. *)
Definition binade (q : Q) : Z :=
  let k := (Z.log2 (Z.abs (Qnum q)) - Z.log2 (Zpos (Qden q)))%Z in
  if Qle_bool (2 ^ k) (Qabs q) then k else (k - 1)%Z.

(** The [float] nearest to [q]: 53 significant bits, ties to the even
    significand (IEEE 754 binary64, the result of every [float] operation
    of Python).  The exponent is not bounded: overflow to [inf] and the
    subnormal numbers below [2^-1022] are outside the model. *)
Definition double (q : Q) : Q :=
  if Qeq_bool q 0 then 0
  else
    let ulp := 2 ^ (binade q - 52) in
    inject_Z (round_half_even (q / ulp)) * ulp.

(** [float(n)], the conversion an [int] operand undergoes next to a
    [float] one. *)
Definition float (n : Z) : Q := double (inject_Z n).

(** [round(x, ndigits)] for [ndigits >= 0]: the exact value of the [float]
    [x] is rounded to [ndigits] decimals, ties to even, and the decimal
    obtained is read back as a [float]. *)
Definition round (x : Q) (ndigits : nat) : Q :=
  let scale := inject_Z (10 ^ Z.of_nat ndigits) in
  double (inject_Z (round_half_even (x * scale)) / scale).

(** [l[-1]]; [None] stands for the [IndexError] of an empty list. *)
Definition last_item {A : Type} (l : list A) : option A :=
  match rev l with
  | [] => None
  | x :: _ => Some x
  end.

(** [(l[-2], l[-1])]; [None] when the list has fewer than two items. *)
Definition last_two {A : Type} (l : list A) : option (A * A) :=
  match rev l with
  | y :: x :: _ => Some (x, y)
  | _ => None
  end.

(** [l[:limit]]: a negative [limit] counts from the end of the list. *)
Definition slice_to {A : Type} (l : list A) (limit : Z) : list A :=
  if (0 <=? limit)%Z then firstn (Z.to_nat limit) l
  else firstn (length l - Z.to_nat (- limit)) l.

(** [l.pop(0)]. *)
Definition pop_front {A : Type} (l : list A) : list A := tl l.

(** [len(l)]. *)
Definition len {A : Type} (l : list A) : Z := Z.of_nat (length l).

(** [max(l)] and [min(l)] on the non-empty list [x :: l], for the order
    [ltb]: the first of the greatest (smallest) items. *)
Definition max_list {A : Type} (ltb : A -> A -> bool) (x : A) (l : list A) : A :=
  fold_left (fun m y => if ltb m y then y else m) l x.

Definition min_list {A : Type} (ltb : A -> A -> bool) (x : A) (l : list A) : A :=
  fold_left (fun m y => if ltb y m then y else m) l x.

(** [sum(l)] on floats and on ints. *)
Definition sum (l : list Q) : Q := fold_left Qplus l 0.

Definition sum_int (l : list Z) : Z := fold_left Z.add l 0%Z.

End Py.

(** ** top_results.py *)

Module TopResults.

Open Scope Q_scope.

Record TopResult : Type := mkTopResult {
  video_name : string;
  total_kicks : Z;
  total_series : Z;
  best_series_kicks : Z;
  best_series_duration : Q;
  processing_time : Q;
  timestamp : string;
  score : Q
}.

(** The manager object together with the durable record it writes.
    [storage_file] lists the [results] array of every write made so far,
    oldest first: its last item is the current content of the file, and two
    managers made the same number of writes iff the lists have the same
    length. *)
Record TopResultsManager : Type := mkManager {
  max_results : Z;
  results : list TopResult;
  storage_file : list (list TopResult)
}.

Definition set_results (self : TopResultsManager) (l : list TopResult)
  : TopResultsManager :=
  {| max_results := max_results self;
     results := l;
     storage_file := storage_file self |}.

(** [list.sort(key=lambda x: x.score, reverse=True)] is a stable sort in
    descending order of the key.  It is modelled by the stable insertion
    sort: each item, taken from left to right, goes behind every item
    already placed whose score is at least its own. *)
Fixpoint insert_by_score (x : TopResult) (l : list TopResult) : list TopResult :=
  match l with
  | [] => [x]
  | y :: l' =>
      if Py.Qltb (score y) (score x) then x :: y :: l'
      else y :: insert_by_score x l'
  end.

Definition sort_by_score_desc (l : list TopResult) : list TopResult :=
  fold_left (fun acc x => insert_by_score x acc) l [].

Definition _sort_results (self : TopResultsManager) : TopResultsManager :=
  set_results self (sort_by_score_desc (results self)).

(** [_save_results]: one more write of the current results. *)
Definition _save_results (self : TopResultsManager) : TopResultsManager :=
  {| max_results := max_results self;
     results := results self;
     storage_file := storage_file self ++ [results self] |}.

(** [__init__] followed by [_load_results]: the results of the record when
    the file exists, sorted; the empty list otherwise. *)
Definition __init__ (file : list (list TopResult)) (max : Z) : TopResultsManager :=
  match Py.last_item file with
  | Some saved =>
      _sort_results {| max_results := max; results := saved; storage_file := file |}
  | None => {| max_results := max; results := []; storage_file := file |}
  end.

(** [_calculate_score], with the intermediate names of the source.  The
    products of two [int]s are exact; an [int] meeting a [float] is
    converted by [Py.float]; every [float] operation is rounded by
    [Py.double], the literal [0.1] included. *)
Definition _calculate_score (self : TopResultsManager)
    (total_kicks total_series best_series_kicks : Z)
    (best_series_duration processing_time : Q) : Q :=
  let base_score := (total_kicks * 10)%Z in
  let series_bonus :=
    Py.double (Py.float (best_series_kicks * 20)
               + Py.double (best_series_duration * 5)) in
  let efficiency_bonus :=
    Py.double (Py.double (Py.float total_kicks / Py.max processing_time 1) * 50) in
  let time_penalty := Py.double (processing_time * Py.double 0.1) in
  Py.round
    (Py.double (Py.double (Py.double (Py.float base_score + series_bonus)
                           + efficiency_bonus)
                - time_penalty)) 2.




(** The entry [add_result] builds; [now] is the reading of
    [datetime.now().isoformat()]. *)
Definition new_result (self : TopResultsManager) (now : string)
    (video_name : string) (total_kicks total_series best_series_kicks : Z)
    (best_series_duration processing_time : Q) : TopResult :=
  {| video_name := video_name;
     total_kicks := total_kicks;
     total_series := total_series;
     best_series_kicks := best_series_kicks;
     best_series_duration := best_series_duration;
     processing_time := processing_time;
     timestamp := now;
     score := _calculate_score self total_kicks total_series best_series_kicks
                best_series_duration processing_time |}.

(** [add_result].  [None] is the [IndexError] raised by [self.results[-1]]
    on an empty list. *)
Definition add_result (self : TopResultsManager) (now : string)
    (video_name : string) (total_kicks total_series best_series_kicks : Z)
    (best_series_duration processing_time : Q)
  : option (bool * TopResultsManager) :=
  let new := new_result self now video_name total_kicks total_series
               best_series_kicks best_series_duration processing_time in
  if (Py.len (results self) <? max_results self)%Z then
    Some (true, _save_results (_sort_results
                  (set_results self (results self ++ [new]))))
  else
    match Py.last_item (results self) with
    | None => None
    | Some worst =>
        if Py.Qltb (score worst) (score new) then
          Some (true, _save_results (_sort_results
                        (set_results self (removelast (results self) ++ [new]))))
        else Some (false, self)
    end.

(** Descending order of the scores, every pair compared. *)
Definition sorted_desc (l : list TopResult) : Prop :=
  StronglySorted (fun a b => score b <= score a) l.

(** The leaderboard invariant: bounded and sorted. *)
Definition bounded_sorted (self : TopResultsManager) : Prop :=
  (Py.len (results self) <= max_results self)%Z /\ sorted_desc (results self).

(** The states of a manager of capacity [max] over the life of its file:
    created on a missing file, changed by completed [add_result] calls, and
    created again on the file it wrote. *)
Inductive reachable (max : Z) : TopResultsManager -> Prop :=
| reach_fresh : reachable max (__init__ [] max)
| reach_add self now name tk ts bsk bsd pt accepted self' :
    reachable max self ->
    add_result self now name tk ts bsk bsd pt = Some (accepted, self') ->
    reachable max self'
| reach_restart self :
    reachable max self ->
    reachable max (__init__ (storage_file self) max).

(** [get_top_results]. *)
Definition get_top_results (self : TopResultsManager) (limit : option Z)
  : list TopResult :=
  let limit := match limit with None => max_results self | Some n => n end in
  Py.slice_to (results self) limit.

End TopResults.

(** ** api_server.py: the [/results] endpoint *)

Module ApiServer.

Import TopResults.

(** What [ResponseFormatter] sends back: the listed results with status
    200, or an error with its HTTP status. *)
Inductive Response : Type :=
| success_response (results_data : list TopResult)
| error_response (status : Z).

(** Truth value of [request.args.get('limit', type=int)]: [None] (absent or
    not an integer) and [0] are false. *)
Definition truthy (limit : option Z) : bool :=
  match limit with
  | None => false
  | Some n => negb (n =? 0)%Z
  end.

(** [get_results]: [if limit and (limit < 1 or limit > 30)] answers 400,
    otherwise the entries of [get_top_results(limit)] are returned. *)
Definition get_results (top_results : TopResultsManager) (limit : option Z)
  : Response :=
  let out_of_range :=
    match limit with
    | None => false
    | Some n => (n <? 1)%Z || (30 <? n)%Z
    end in
  if truthy limit && out_of_range then error_response 400
  else success_response (get_top_results top_results limit).

(** The [stats] dictionary of [get_stats]: the short form sent for an
    empty leaderboard (all four numbers are 0), or the full form. *)
Inductive StatsData : Type :=
| stats_empty
| stats_full (total_results : Z) (average_score max_score min_score : Q)
    (average_kicks : Q) (max_kicks : Z) (last_update : string).

(** [get_stats], up to the response wrapper. *)
Definition get_stats (top_results : TopResultsManager) : StatsData :=
  match get_top_results top_results None with
  | [] => stats_empty
  | first :: rest =>
      let results := first :: rest in
      let n := inject_Z (Py.len results) in
      stats_full (Py.len results)
        (Py.round (Py.sum (map score results) / n) 2)
        (Py.max_list Py.Qltb (score first) (map score rest))
        (Py.min_list Py.Qltb (score first) (map score rest))
        (Py.round (inject_Z (Py.sum_int (map total_kicks results)) / n) 2)
        (Py.max_list Z.ltb (total_kicks first) (map total_kicks rest))
        (timestamp first)
  end.

End ApiServer.

(** ** utils.py *)

Module Utils.

Open Scope Q_scope.

Definition Point : Type := (Q * Q)%type.

Record BallKick : Type := mkBallKick {
  frame_number : Z;
  timestamp : Q;
  ball_position : Point;
  kick_type : string;
  confidence : Q
}.

Record JugglingSeries : Type := mkJugglingSeries {
  start_frame : Z;
  end_frame : Z;
  kicks_count : Z;
  duration : Q
}.

(** [VideoAnalysis] without its two formatted strings ([summary] and
    [timestamp]).  [analysis_kicks] and [video_duration] are the fields
    [kicks] and [duration] of the source. *)
Record VideoAnalysis : Type := mkVideoAnalysis {
  video_name : string;
  total_kicks : Z;
  total_series : Z;
  analysis_kicks : list BallKick;
  series : list JugglingSeries;
  fps : Q;
  video_duration : Q;
  processing_time : Q
}.

(** The attributes of a [BallKickAnalyzer], in the order [__init__] sets
    them.  The two detection models are external: a frame is represented by
    what they return on it (see [Frame]). *)
Record BallKickAnalyzer : Type := mkAnalyzer {
  kick_distance_threshold : Q;
  velocity_threshold : Q;
  min_kick_interval : Z;
  ground_threshold : Q;
  trajectory_change_threshold : Q;
  velocity_history_size : Z;
  min_confidence_threshold : Q;
  ball_history : list Point;
  velocity_history : list Point;
  kicks : list BallKick;
  current_series_kicks : Z;
  in_juggling_series : bool;
  frame_skip : Z;
  last_ball_position : option Point;
  ball_movement_threshold : Q
}.

(** [BallKickAnalyzer.__init__]. *)
Definition __init__ : BallKickAnalyzer :=
  {| kick_distance_threshold := 400;
     velocity_threshold := 8;
     min_kick_interval := 8;
     ground_threshold := 0.85;
     trajectory_change_threshold := 25;
     velocity_history_size := 5;
     min_confidence_threshold := 0.6;
     ball_history := [];
     velocity_history := [];
     kicks := [];
     current_series_kicks := 0;
     in_juggling_series := false;
     frame_skip := 4;
     last_ball_position := None;
     ball_movement_threshold := 10 |}.

(** Assignments to the attributes that change after construction. *)
Definition set_series (self : BallKickAnalyzer) (count : Z) (active : bool)
  : BallKickAnalyzer :=
  {| kick_distance_threshold := kick_distance_threshold self;
     velocity_threshold := velocity_threshold self;
     min_kick_interval := min_kick_interval self;
     ground_threshold := ground_threshold self;
     trajectory_change_threshold := trajectory_change_threshold self;
     velocity_history_size := velocity_history_size self;
     min_confidence_threshold := min_confidence_threshold self;
     ball_history := ball_history self;
     velocity_history := velocity_history self;
     kicks := kicks self;
     current_series_kicks := count;
     in_juggling_series := active;
     frame_skip := frame_skip self;
     last_ball_position := last_ball_position self;
     ball_movement_threshold := ball_movement_threshold self |}.

Definition set_histories (self : BallKickAnalyzer) (bh vh : list Point)
  : BallKickAnalyzer :=
  {| kick_distance_threshold := kick_distance_threshold self;
     velocity_threshold := velocity_threshold self;
     min_kick_interval := min_kick_interval self;
     ground_threshold := ground_threshold self;
     trajectory_change_threshold := trajectory_change_threshold self;
     velocity_history_size := velocity_history_size self;
     min_confidence_threshold := min_confidence_threshold self;
     ball_history := bh;
     velocity_history := vh;
     kicks := kicks self;
     current_series_kicks := current_series_kicks self;
     in_juggling_series := in_juggling_series self;
     frame_skip := frame_skip self;
     last_ball_position := last_ball_position self;
     ball_movement_threshold := ball_movement_threshold self |}.

Definition set_kicks (self : BallKickAnalyzer) (ks : list BallKick)
  : BallKickAnalyzer :=
  {| kick_distance_threshold := kick_distance_threshold self;
     velocity_threshold := velocity_threshold self;
     min_kick_interval := min_kick_interval self;
     ground_threshold := ground_threshold self;
     trajectory_change_threshold := trajectory_change_threshold self;
     velocity_history_size := velocity_history_size self;
     min_confidence_threshold := min_confidence_threshold self;
     ball_history := ball_history self;
     velocity_history := velocity_history self;
     kicks := ks;
     current_series_kicks := current_series_kicks self;
     in_juggling_series := in_juggling_series self;
     frame_skip := frame_skip self;
     last_ball_position := last_ball_position self;
     ball_movement_threshold := ball_movement_threshold self |}.

Definition set_last_ball_position (self : BallKickAnalyzer) (p : option Point)
  : BallKickAnalyzer :=
  {| kick_distance_threshold := kick_distance_threshold self;
     velocity_threshold := velocity_threshold self;
     min_kick_interval := min_kick_interval self;
     ground_threshold := ground_threshold self;
     trajectory_change_threshold := trajectory_change_threshold self;
     velocity_history_size := velocity_history_size self;
     min_confidence_threshold := min_confidence_threshold self;
     ball_history := ball_history self;
     velocity_history := velocity_history self;
     kicks := kicks self;
     current_series_kicks := current_series_kicks self;
     in_juggling_series := in_juggling_series self;
     frame_skip := frame_skip self;
     last_ball_position := p;
     ball_movement_threshold := ball_movement_threshold self |}.

(** Distances.  [scipy]'s [euclidean] and the [** 0.5] of the movement test
    are square roots that the sources only ever compare: with a threshold or
    with each other.  The model keeps the squared distance and decides those
    comparisons on squares, which is the same test on exact numbers. *)
Definition sq_distance (p q : Point) : Q :=
  (fst p - fst q) * (fst p - fst q) + (snd p - snd q) * (snd p - snd q).

(** [sqrt(d2) < t]. *)
Definition sqrt_lt (d2 t : Q) : bool := Py.Qltb 0 t && Py.Qltb d2 (t * t).

(** [min_distance < t] where [min_distance] starts at [float('inf')]
    ([None]) and otherwise holds a squared distance. *)
Definition distance_lt (min_distance : option Q) (t : Q) : bool :=
  match min_distance with
  | None => false
  | Some d2 => sqrt_lt d2 t
  end.

(** The loop of [detect_kick] over [feet_positions]: the pair
    [(min_distance, closest_foot)] after it. *)
Definition closest_foot_scan (ball_pos : Point) (feet_positions : list Point)
  : option Q * option Point :=
  fold_left
    (fun acc foot_pos =>
       let distance := sq_distance ball_pos foot_pos in
       let closer :=
         match fst acc with
         | None => true
         | Some m => Py.Qltb distance m
         end in
       if closer then (Some distance, Some foot_pos) else acc)
    feet_positions (None, None).

Definition calculate_ball_velocity (self : BallKickAnalyzer) : Point :=
  match Py.last_two (ball_history self) with
  | None => (0, 0)
  | Some (pos1, pos2) => (fst pos2 - fst pos1, snd pos2 - snd pos1)
  end.

Definition is_ball_near_ground (self : BallKickAnalyzer) (ball_pos : Point)
    (frame_height : Z) : bool :=
  let ground_y := inject_Z frame_height * ground_threshold self in
  Qle_bool ground_y (snd ball_pos).

(** The [BallKick] returned by the two emitting branches of [detect_kick]. *)
Definition up_kick (frame_number : Z) (timestamp : Q) (ball_pos : Point)
    (confidence : Q) : BallKick :=
  {| frame_number := frame_number; timestamp := timestamp;
     ball_position := ball_pos; kick_type := "up"; confidence := confidence |}.

Definition ground_kick (frame_number : Z) (timestamp : Q) (ball_pos : Point)
  : BallKick :=
  {| frame_number := frame_number; timestamp := timestamp;
     ball_position := ball_pos; kick_type := "ground"; confidence := 0.9 |}.

(** The confidence of an up-kick, as computed in [detect_kick] from its
    locals [trajectory_change], [velocity_y] and [min_distance]. *)
Definition kick_confidence (self : BallKickAnalyzer) (trajectory_change velocity_y : Q)
    (min_distance : option Q) : Q :=
  let near := distance_lt min_distance (kick_distance_threshold self) in
  let distance_bonus := if near then 1.0 else 0.7 in
  let trajectory_score := Py.min 1.0 (trajectory_change / 45.0) in
  let velocity_score := Py.min 1.0 (Py.abs velocity_y / 20.0) in
  let distance_score := if near then 1.0 else 0.5 in
  (trajectory_score * 0.4 + velocity_score * 0.4 + distance_score * 0.2)
  * distance_bonus.

(** The local variables of [_analyze_juggling_series]. *)
Record SeriesScan : Type := mkSeriesScan {
  scanned : list JugglingSeries;
  current_series_start : option Z;
  current_kicks : Z;
  current_series_start_timestamp : option Q
}.

Definition scan_start : SeriesScan :=
  {| scanned := []; current_series_start := None; current_kicks := 0;
     current_series_start_timestamp := None |}.

(** One turn of the loop of [_analyze_juggling_series].  The duration is
    the [float] difference of the two timestamps.  [None] is the
    [TypeError] of [kick.timestamp - None]. *)
Definition scan_kick (st : SeriesScan) (kick : BallKick) : option SeriesScan :=
  if String.eqb (kick_type kick) "up" then
    let st1 :=
      match current_series_start st with
      | None =>
          {| scanned := scanned st;
             current_series_start := Some (frame_number kick);
             current_kicks := current_kicks st;
             current_series_start_timestamp := Some (timestamp kick) |}
      | Some _ => st
      end in
    Some {| scanned := scanned st1;
            current_series_start := current_series_start st1;
            current_kicks := (current_kicks st1 + 1)%Z;
            current_series_start_timestamp := current_series_start_timestamp st1 |}
  else if String.eqb (kick_type kick) "ground" then
    match current_series_start st with
    | Some start =>
        match current_series_start_timestamp st with
        | None => None
        | Some start_timestamp =>
            let duration := Py.double (timestamp kick - start_timestamp) in
            Some {| scanned := scanned st ++
                      [ {| start_frame := start;
                           end_frame := frame_number kick;
                           kicks_count := current_kicks st;
                           duration := duration |} ];
                    current_series_start := None;
                    current_kicks := 0;
                    current_series_start_timestamp := None |}
        end
    | None => Some st
    end
  else Some st.

Fixpoint scan_kicks (st : SeriesScan) (ks : list BallKick) : option SeriesScan :=
  match ks with
  | [] => Some st
  | kick :: rest =>
      match scan_kick st kick with
      | None => None
      | Some st' => scan_kicks st' rest
      end
  end.

(** [_analyze_juggling_series]: the loop over [self.kicks] and the
    [return series]. *)
Definition _analyze_juggling_series (self : BallKickAnalyzer)
  : option (list JugglingSeries) :=
  option_map scanned (scan_kicks scan_start (kicks self)).

(** No series is open after the kicks [ks]: there is none, or the last one
    is a ground event. *)
Definition ends_closed (ks : list BallKick) : Prop :=
  ks = [] \/ exists p g, ks = p ++ [g] /\ kick_type g = "ground"%string.

(** The start frame and the start timestamp are set and cleared together. *)
Definition consistent (st : SeriesScan) : Prop :=
  current_series_start st = None <-> current_series_start_timestamp st = None.

(** No kick was emitted in the debounce window that ends at [frame]. *)
Definition debounce_clear (self : BallKickAnalyzer) (frame : Z) : Prop :=
  forall last,
    Py.last_item (kicks self) = Some last ->
    (min_kick_interval self <= frame - frame_number last)%Z.

Section Detector.

(** [math.degrees(math.atan2(y, x))], a function of the [math] library: the
    detector is modelled for any such function. *)
Variable atan2_degrees : Q -> Q -> Q.

Definition calculate_trajectory_change (self : BallKickAnalyzer) : Q :=
  if (Py.len (velocity_history self) <? 3)%Z then 0
  else
    match Py.last_two (velocity_history self) with
    | None => 0
    | Some (v2, v3) =>
        let angle1 := atan2_degrees (snd v2) (fst v2) in
        let angle2 := atan2_degrees (snd v3) (fst v3) in
        let angle_change := Py.abs (angle2 - angle1) in
        if Py.Qltb 180 angle_change then 360 - angle_change else angle_change
    end.

(** The last test of [detect_kick], reached when the foot test or the
    up-kick test fails. *)
Definition ground_check (self : BallKickAnalyzer) (ball_pos : Point)
    (frame_number : Z) (timestamp : Q) (frame_height : Z)
  : option BallKick * BallKickAnalyzer :=
  if is_ball_near_ground self ball_pos frame_height && in_juggling_series self
  then (Some (ground_kick frame_number timestamp ball_pos),
        set_series self (current_series_kicks self) false)
  else (None, self).

(** [detect_kick]: the returned kick ([None] for Python's [None]) and the
    analyzer after the call. *)
Definition detect_kick (self : BallKickAnalyzer) (ball_pos : Point)
    (feet_positions : list Point) (frame_number : Z) (timestamp : Q)
    (frame_height : Z) : option BallKick * BallKickAnalyzer :=
  let (min_distance, closest_foot) := closest_foot_scan ball_pos feet_positions in
  if (distance_lt min_distance (kick_distance_threshold self)
      && match closest_foot with Some _ => true | None => false end)
     || (0 <? Py.len feet_positions)%Z
  then
    let velocity_y := snd (calculate_ball_velocity self) in
    let repeated :=
      match Py.last_item (kicks self) with
      | None => false
      | Some last =>
          (frame_number - Utils.frame_number last <? min_kick_interval self)%Z
      end in
    if repeated then (None, self)
    else
      let trajectory_change := calculate_trajectory_change self in
      if Py.Qltb (trajectory_change_threshold self) trajectory_change
         && Py.Qltb (velocity_threshold self) (Py.abs velocity_y)
         && Py.Qltb velocity_y 0
      then
        let self1 :=
          if in_juggling_series self then self else set_series self 0 true in
        let self2 :=
          set_series self1 (current_series_kicks self1 + 1)
            (in_juggling_series self1) in
        let confidence :=
          kick_confidence self trajectory_change velocity_y min_distance in
        if Qle_bool (min_confidence_threshold self) confidence
        then (Some (up_kick frame_number timestamp ball_pos confidence), self2)
        else (None, self2)
      else ground_check self ball_pos frame_number timestamp frame_height
  else ground_check self ball_pos frame_number timestamp frame_height.

(** What the two external detectors return on one decoded frame:
    [detect_ball] gives [(x, y, confidence)] or [None], [detect_feet] the
    visible toes. *)
Record Frame : Type := mkFrame {
  ball_detection : option (Q * Q * Q);
  feet : list Point
}.

(** What [cv2.VideoCapture] gives for a video file. *)
Record Video : Type := mkVideo {
  file_name : string;
  cap_fps : Q;
  cap_frame_count : Z;
  cap_frame_height : Z;
  cap_frames : list Frame
}.

(** The progress report that closes the loop body: when the new
    [frame_number] is a multiple of 30 the share
    [frame_number / total_frames] is computed.  [None] is the
    [ZeroDivisionError] of a video whose frame count reads 0. *)
Definition report_progress (total_frames frame_number : Z)
    (self : BallKickAnalyzer) : option BallKickAnalyzer :=
  if (frame_number mod 30 =? 0)%Z then
    if (total_frames =? 0)%Z then None else Some self
  else Some self.

(** The body of the [while] loop of [analyze_video] for the frame read as
    number [frame_number].  The three [continue]s leave the state as it is;
    a frame processed to the end is followed by [frame_number += 1] and the
    progress report.  [None] is a [ZeroDivisionError]: that of
    [frame_number % 0], or that of the progress report. *)
Definition process_frame (self : BallKickAnalyzer) (fps : Q)
    (total_frames frame_height : Z) (frame_number : Z) (frame : Frame)
  : option BallKickAnalyzer :=
  let timestamp := inject_Z frame_number / fps in
  if (frame_skip self =? 0)%Z then None
  else if negb (frame_number mod frame_skip self =? 0)%Z then Some self
  else
    match ball_detection frame with
    | None => Some self
    | Some (x, y, _) =>
        let ball_pos := (x, y) in
        let slow :=
          match last_ball_position self with
          | None => false
          | Some last =>
              sqrt_lt (sq_distance ball_pos last) (ball_movement_threshold self)
          end in
        if slow then Some self
        else
          let self1 := set_last_ball_position self (Some ball_pos) in
          let bh := ball_history self1 ++ [ball_pos] in
          let bh := if (10 <? Py.len bh)%Z then Py.pop_front bh else bh in
          let self2 := set_histories self1 bh (velocity_history self1) in
          let velocity := calculate_ball_velocity self2 in
          let vh := velocity_history self2 ++ [velocity] in
          let vh :=
            if (velocity_history_size self2 <? Py.len vh)%Z
            then Py.pop_front vh else vh in
          let self3 := set_histories self2 (ball_history self2) vh in
          let feet_positions := feet frame in
          report_progress total_frames (frame_number + 1)
            (if (3 <=? Py.len (velocity_history self3))%Z then
               match detect_kick self3 ball_pos feet_positions frame_number
                       timestamp frame_height with
               | (Some kick, self4) => set_kicks self4 (kicks self4 ++ [kick])
               | (None, self4) => self4
               end
             else self3)
    end.

(** The [while] loop: the frames are read in order and numbered from
    [frame_number]. *)
Fixpoint frame_loop (self : BallKickAnalyzer) (fps : Q)
    (total_frames frame_height : Z) (frame_number : Z) (frames : list Frame)
  : option BallKickAnalyzer :=
  match frames with
  | [] => Some self
  | frame :: rest =>
      match process_frame self fps total_frames frame_height frame_number frame with
      | None => None
      | Some self' =>
          frame_loop self' fps total_frames frame_height (frame_number + 1) rest
      end
  end.

(** The frame read as number [frame_number] is processed to the end, none
    of the three [continue]s being taken, and the progress report that
    follows computes its share: the new [frame_number] is a multiple of
    30. *)
Definition reaches_report (self : BallKickAnalyzer) (frame_number : Z)
    (frame : Frame) : bool :=
  (frame_number mod frame_skip self =? 0)%Z
  && match ball_detection frame with
     | None => false
     | Some (x, y, _) =>
         match last_ball_position self with
         | None => true
         | Some last =>
             negb (sqrt_lt (sq_distance (x, y) last)
                     (ball_movement_threshold self))
         end
     end
  && ((frame_number + 1) mod 30 =? 0)%Z.



(** The parameters set by [__init__] are the same in both analyzers. *)
Definition same_parameters (self self' : BallKickAnalyzer) : Prop :=
  kick_distance_threshold self' = kick_distance_threshold self
  /\ velocity_threshold self' = velocity_threshold self
  /\ min_kick_interval self' = min_kick_interval self
  /\ ground_threshold self' = ground_threshold self
  /\ trajectory_change_threshold self' = trajectory_change_threshold self
  /\ velocity_history_size self' = velocity_history_size self
  /\ min_confidence_threshold self' = min_confidence_threshold self
  /\ frame_skip self' = frame_skip self
  /\ ball_movement_threshold self' = ball_movement_threshold self.

(** The frame rate [analyze_video] works with. *)
Definition video_fps (video : Video) : Q :=
  if Qle_bool (cap_fps video) 0 then 30.0 else cap_fps video.

(** The five assignments that open a run of [analyze_video]. *)
Definition reset_run (self : BallKickAnalyzer) : BallKickAnalyzer :=
  set_series (set_kicks (set_histories self [] []) []) 0 false.

Definition count_up (ks : list BallKick) : Z :=
  Py.len (filter (fun k => String.eqb (kick_type k) "up") ks).

(** The kicks counted by the segmenter: those of the closed series plus
    those of the open one make up the up-kicks scanned so far. *)
Definition accounted (done : list BallKick) (st : SeriesScan) : Prop :=
  (Py.sum_int (map kicks_count (scanned st)) + current_kicks st
   = count_up done)%Z
  /\ Forall (fun s => (1 <= kicks_count s)%Z) (scanned st)
  /\ (current_series_start st = None -> current_kicks st = 0%Z)
  /\ (current_series_start st <> None -> (1 <= current_kicks st)%Z).


(** [BallKickAnalyzer.analyze_video]: the analysis and the analyzer after
    the run.  [start_time] and [end_time] are the two readings of
    [time.time()].  [None] is an exception leaving the method. *)
Definition analyze_video (self : BallKickAnalyzer) (video : Video)
    (start_time end_time : Q) : option (VideoAnalysis * BallKickAnalyzer) :=
  let fps := if Qle_bool (cap_fps video) 0 then 30.0 else cap_fps video in
  let total_frames := cap_frame_count video in
  let duration := inject_Z total_frames / fps in
  let frame_height := cap_frame_height video in
  match frame_loop (reset_run self) fps total_frames frame_height 0
          (cap_frames video) with
  | None => None
  | Some self' =>
      match _analyze_juggling_series self' with
      | None => None
      | Some series =>
          let total_kicks := count_up (kicks self') in
          let processing_time := end_time - start_time in
          Some ({| video_name := file_name video;
                   total_kicks := total_kicks;
                   total_series := Py.len series;
                   analysis_kicks := kicks self';
                   series := series;
                   fps := fps;
                   video_duration := duration;
                   processing_time := processing_time |}, self')
      end
  end.

End Detector.

End Utils.

(** ** The functions that rank an analysed video *)

Module Ranking.

Import TopResults Utils.
Open Scope Q_scope.

(** The loop of [VideoAnalyzer.analyze_video_file] over [all_results]: the
    entry named [name] with the latest timestamp, the first of them when
    several share it.  Timestamps are compared as strings. *)
Definition find_current_result (all_results : list TopResult) (name : string)
  : option TopResult :=
  fold_left
    (fun current_result result =>
       if String.eqb (TopResults.video_name result) name then
         match current_result with
         | None => Some result
         | Some current =>
             if String.ltb (TopResults.timestamp current)
                  (TopResults.timestamp result)
             then Some result else Some current
         end
       else current_result)
    all_results None.

(** [found] is what the search for [name] should give on the entries
    [seen]: nothing when none carries the name, otherwise one of those that
    do, with no other of them timestamped later. *)
Definition latest_named (name : string) (seen : list TopResult)
    (found : option TopResult) : Prop :=
  match found with
  | None => forall e, In e seen -> TopResults.video_name e <> name
  | Some current =>
      In current seen /\ TopResults.video_name current = name
      /\ forall e, In e seen -> TopResults.video_name e = name ->
           String.ltb (TopResults.timestamp current) (TopResults.timestamp e)
           = false
  end.

(** What [analyze_video_file] answers, without the fields that describe the
    copy of the file: the entry it reports with its [in_top_30] flag, the
    answer "not added", or the answer of the [except] branch. *)
Inductive FileAnalysis : Type :=
| analysis_ok (current_result : TopResult) (in_top_30 : bool)
| analysis_not_added
| analysis_failed.

Section WithAngles.

Variable atan2_degrees : Q -> Q -> Q.

(** The module-level [analyze_video] of [utils.py]: a new analyzer runs the
    video and the outcome is offered to the leaderboard.  The result is what
    [add_result] returns, with the leaderboard after the call; [None] is an
    exception. *)
Definition analyze_video (top_results : TopResultsManager) (video : Video)
    (start_time end_time : Q) (now : string)
  : option (bool * TopResultsManager) :=
  match Utils.analyze_video atan2_degrees Utils.__init__ video start_time end_time
  with
  | None => None
  | Some (analysis_result, _) =>
      let best_series_kicks :=
        match map kicks_count (series analysis_result) with
        | [] => 0%Z
        | x :: l => Py.max_list Z.ltb x l
        end in
      let best_series_duration :=
        match map duration (series analysis_result) with
        | [] => 0
        | x :: l => Py.max_list Py.Qltb x l
        end in
      add_result top_results now (Utils.video_name analysis_result)
        (Utils.total_kicks analysis_result) (Utils.total_series analysis_result)
        best_series_kicks best_series_duration
        (Utils.processing_time analysis_result)
  end.

(** [VideoAnalyzer.analyze_video_file], with the leaderboard after it. *)
Definition analyze_video_file (top_results : TopResultsManager) (video : Video)
    (start_time end_time : Q) (now : string)
  : FileAnalysis * TopResultsManager :=
  match analyze_video top_results video start_time end_time now with
  | None => (analysis_failed, top_results)
  | Some (_, top_results') =>
      let all_results := get_top_results top_results' None in
      match find_current_result all_results (file_name video) with
      | Some current_result =>
          let is_in_top_30 :=
            existsb (fun r => String.eqb (TopResults.video_name r)
                                (TopResults.video_name current_result))
              all_results in
          (analysis_ok current_result is_in_top_30, top_results')
      | None => (analysis_not_added, top_results')
      end
  end.

End WithAngles.

End Ranking.

(** ** Sample inputs *)

Module Samples.

Import Utils.
Open Scope Q_scope.

(** The horizontal speed [-17.320508075688772] as the double it is. *)
Definition vx_150 : Q := - (2437644803610613 # 140737488355328).

(** A stand-in for [math.degrees(math.atan2(y, x))] on the directions the
    samples use.  On the axes and the diagonals the library returns exactly
    the value listed here, and for the vector [(vx_150, -10)] it returns
    [-150.0].  Any other direction is answered by the diagonal of its
    quadrant; no sample relies on that. *)
Definition atan2_degrees (y x : Q) : Q :=
  if Qeq_bool x vx_150 && Qeq_bool y (-10) then -150
  else
    match Qcompare y 0, Qcompare x 0 with
    | Eq, Lt => 180
    | Eq, _ => 0
    | Gt, Eq => 90
    | Lt, Eq => -90
    | Gt, Gt => 45
    | Gt, Lt => 135
    | Lt, Gt => -45
    | Lt, Lt => -135
    end.

(** A frame the stride of the loop never looks at. *)
Definition unread : Frame := {| ball_detection := None; feet := [] |}.

(** A processed frame with the ball at [(x, y)], followed by the three
    frames skipped by [frame_skip = 4]. *)
Definition shot (x y : Q) (feet_positions : list Point) : list Frame :=
  [ {| ball_detection := Some (x, y, 0.9); feet := feet_positions |};
    unread; unread; unread ].

Definition clip (name : string) (frames : list Frame) : Video :=
  {| file_name := name; cap_fps := 30; cap_frame_count := Z.of_nat (length frames);
     cap_frame_height := 1080; cap_frames := frames |}.

(** The ball rolls right, then leaves upwards at 10 px per frame with the
    only visible foot 880 px away, then is seen on the ground. *)
Definition faint_kick_video : Video :=
  clip "faint.mp4"
    (shot 100 500 [(1000, 500)] ++ shot 120 500 [(1000, 500)]
     ++ shot 120 490 [(1000, 490)] ++ shot 120 1000 [(1000, 1000)]).

(** The same flight with a foot 110 px from the ball at the kick, and no
    foot visible when the ball is on the ground one processed frame later. *)
Definition early_ground_video : Video :=
  clip "early.mp4"
    (shot 100 500 [(100, 600)] ++ shot 120 500 [(120, 600)]
     ++ shot 120 490 [(120, 600)] ++ shot 120 1000 []).

(** As [early_ground_video], the foot still visible on the last frame. *)
Definition early_ground_feet_video : Video :=
  clip "early_feet.mp4"
    (shot 100 500 [(100, 600)] ++ shot 120 500 [(120, 600)]
     ++ shot 120 490 [(120, 600)] ++ shot 120 1000 [(120, 1000)]).

(** Two kicks eight frames apart, a foot 110 px below the ball each time. *)
Definition double_kick_video : Video :=
  clip "double.mp4"
    (shot 100 500 [(100, 600)] ++ shot 120 500 [(120, 600)]
     ++ shot 120 490 [(120, 600)] ++ shot 140 490 [(140, 600)]
     ++ shot 140 480 [(140, 590)]).

(** The ball moves left at 20 px per frame, then up-left along
    [(vx_150, -10)]: a turn of 30 degrees, the nearest foot 350 px below. *)
Definition turn30_state : BallKickAnalyzer :=
  set_histories __init__
    [(84, 500); (64, 500); (64 + vx_150, 490)]
    [(0, 0); (-20, 0); (vx_150, -10)].

Definition turn30_ball : Point := (64 + vx_150, 490).

Definition turn30_feet : list Point := [(64 + vx_150, 840)].

Definition turn30_video : Video :=
  clip "turn30.mp4"
    (shot 84 500 [(84, 850)] ++ shot 64 500 [(64, 850)]
     ++ shot (64 + vx_150) 490 turn30_feet).

(** The analyzer of [faint_kick_video] when [detect_kick] is called on its
    third processed frame. *)
Definition faint_state : BallKickAnalyzer :=
  set_last_ball_position
    (set_histories __init__
       [(100, 500); (120, 500); (120, 490)]
       [(0, 0); (20, 0); (0, -10)])
    (Some (120, 490)).

(** A clip whose first ball position lies 1.5 px from the last ball
    position of [early_ground_feet_video]; it holds one kick, on its third
    processed frame. *)
Definition second_video : Video :=
  clip "second.mp4"
    (shot 121 999 [(121, 1000)] ++ shot 141 999 [(141, 1000)]
     ++ shot 141 989 [(141, 1000)]).

(** A small leaderboard: room for two, holding scores 100 and 50. *)
Definition entry (name : string) (s : Q) : TopResults.TopResult :=
  {| TopResults.video_name := name; TopResults.total_kicks := 0;
     TopResults.total_series := 0; TopResults.best_series_kicks := 0;
     TopResults.best_series_duration := 0; TopResults.processing_time := 0;
     TopResults.timestamp := "2024-01-01T00:00:00"; TopResults.score := s |}.

Definition full_board : TopResults.TopResultsManager :=
  {| TopResults.max_results := 2;
     TopResults.results := [entry "a.mp4" 100; entry "b.mp4" 50];
     TopResults.storage_file := [[entry "a.mp4" 100; entry "b.mp4" 50]] |}.

(** The flight of [early_ground_video] with no foot found on any frame. *)
Definition no_feet_video : Video :=
  clip "no_feet.mp4"
    (shot 100 500 [] ++ shot 120 500 [] ++ shot 120 490 [] ++ shot 120 1000 []).

(** An analyzer whose velocity window holds two samples. *)
Definition short_window_analyzer : BallKickAnalyzer :=
  {| kick_distance_threshold := 400; velocity_threshold := 8;
     min_kick_interval := 8; ground_threshold := 0.85;
     trajectory_change_threshold := 25; velocity_history_size := 2;
     min_confidence_threshold := 0.6; ball_history := [];
     velocity_history := []; kicks := []; current_series_kicks := 0;
     in_juggling_series := false; frame_skip := 4;
     last_ball_position := None; ball_movement_threshold := 10 |}.


(** An analyzer that reads every frame. *)
Definition every_frame_analyzer : BallKickAnalyzer :=
  {| kick_distance_threshold := 400; velocity_threshold := 8;
     min_kick_interval := 8; ground_threshold := 0.85;
     trajectory_change_threshold := 25; velocity_history_size := 5;
     min_confidence_threshold := 0.6; ball_history := [];
     velocity_history := []; kicks := []; current_series_kicks := 0;
     in_juggling_series := false; frame_skip := 1;
     last_ball_position := None; ball_movement_threshold := 10 |}.

(** Thirty frames, the ball seen on the last one only, in a container that
    reports a frame count of 0. *)
Definition uncounted_video : Video :=
  {| file_name := "stream.mp4"; cap_fps := 30; cap_frame_count := 0;
     cap_frame_height := 1080;
     cap_frames :=
       repeat unread 29
       ++ [{| ball_detection := Some (100, 500, 0.9); feet := [] |}] |}.

(** The same leaderboard before its second entry. *)
Definition open_board : TopResults.TopResultsManager :=
  {| TopResults.max_results := 2;
     TopResults.results := [entry "a.mp4" 100];
     TopResults.storage_file := [[entry "a.mp4" 100]] |}.

End Samples.

(** * Properties *)

Unset Implicit Arguments.

(** ** Arithmetic of the built-ins *)

Module PyFacts.

Open Scope Q_scope.

Lemma Qltb_lt (x y : Q) : Py.Qltb x y = true <-> x < y.
Proof.
  unfold Py.Qltb. rewrite negb_true_iff.
  split; intro H.
  - apply Qnot_le_lt. intro Hle. apply Qle_bool_iff in Hle. congruence.
  - destruct (Qle_bool y x) eqn:E; [|reflexivity].
    apply Qle_bool_iff in E. exfalso. exact (Qlt_not_le _ _ H E).
Qed.

Lemma Qltb_ge (x y : Q) : Py.Qltb x y = false <-> y <= x.
Proof.
  unfold Py.Qltb. rewrite negb_false_iff. apply Qle_bool_iff.
Qed.

Lemma Qltb_comp (x x' y y' : Q) :
  x == x' -> y == y' -> Py.Qltb x y = Py.Qltb x' y'.
Proof.
  intros Hx Hy. unfold Py.Qltb. now rewrite Hx, Hy.
Qed.


Lemma min_comp (a a' b b' : Q) :
  a == a' -> b == b' -> Py.min a b == Py.min a' b'.
Proof.
  intros Ha Hb. unfold Py.min. rewrite (Qltb_comp b b' a a' Hb Ha).
  now destruct (Py.Qltb b' a').
Qed.

Lemma abs_comp (x x' : Q) : x == x' -> Py.abs x == Py.abs x'.
Proof.
  intro H. unfold Py.abs. rewrite (Qltb_comp x x' 0 0 H (Qeq_refl 0)).
  destruct (Py.Qltb x' 0); now rewrite H.
Qed.

(** *** Rounding to an integer *)

Lemma round_half_even_comp (x y : Q) :
  x == y -> Py.round_half_even x = Py.round_half_even y.
Proof.
  intro H. unfold Py.round_half_even.
  rewrite (Qfloor_comp _ _ H).
  assert (E : x - inject_Z (Qfloor y) == y - inject_Z (Qfloor y)) by now rewrite H.
  now rewrite (Qcompare_comp _ _ E _ _ (Qeq_refl (1 # 2))).
Qed.

Lemma round_half_even_bounds (q : Q) :
  (Qfloor q <= Py.round_half_even q <= Qfloor q + 1)%Z.
Proof.
  unfold Py.round_half_even.
  destruct (Qcompare (q - inject_Z (Qfloor q)) (1 # 2)); try lia.
  destruct (Z.even (Qfloor q)); lia.
Qed.

Lemma round_half_even_mono (x y : Q) :
  x <= y -> (Py.round_half_even x <= Py.round_half_even y)%Z.
Proof.
  intro H. pose proof (Qfloor_resp_le _ _ H) as Hf.
  destruct (Z.eq_dec (Qfloor x) (Qfloor y)) as [E|E].
  - unfold Py.round_half_even. rewrite E.
    destruct (Qcompare_spec (x - inject_Z (Qfloor y)) (1 # 2)) as [Hx|Hx|Hx];
    destruct (Qcompare_spec (y - inject_Z (Qfloor y)) (1 # 2)) as [Hy|Hy|Hy];
    try lia; try (destruct (Z.even (Qfloor y)); lia); exfalso; lra.
  - pose proof (round_half_even_bounds x). pose proof (round_half_even_bounds y).
    lia.
Qed.


Lemma round_half_even_Z (n : Z) : Py.round_half_even (inject_Z n) = n.
Proof.
  unfold Py.round_half_even. rewrite Qfloor_Z.
  destruct (Qcompare_spec (inject_Z n - inject_Z n) (1 # 2)) as [H|H|H].
  - exfalso. lra.
  - reflexivity.
  - exfalso. lra.
Qed.

(** *** Powers of two *)

Lemma pow2_pos (e : Z) : 0 < 2 ^ e.
Proof. apply Qpower_0_lt. reflexivity. Qed.

Lemma pow2_succ (e : Z) : 2 ^ (e + 1) == 2 * 2 ^ e.
Proof.
  rewrite Qpower_plus by discriminate. change (2 ^ 1) with (2 * 1).
  ring.
Qed.

Lemma pow2_le (a b : Z) : (a <= b)%Z -> 2 ^ a <= 2 ^ b.
Proof. intro H. apply Qpower_le_compat_l; [exact H | discriminate]. Qed.

Lemma pow2_Z (n : Z) : (0 <= n)%Z -> 2 ^ n == inject_Z (2 ^ n).
Proof. intro H. rewrite Zpower_Qpower by exact H. reflexivity. Qed.

Lemma div_le_div (a b c d : Q) :
  0 < b -> 0 < d -> a * d <= c * b -> a / b <= c / d.
Proof.
  intros Hb Hd H. apply Qle_shift_div_r; [exact Hb|].
  assert (E : c / d * b == (c * b) / d) by (field; lra).
  rewrite E. apply Qle_shift_div_l; assumption.
Qed.

Lemma div_lt_div (a b c d : Q) :
  0 < b -> 0 < d -> a * d < c * b -> a / b < c / d.
Proof.
  intros Hb Hd H. apply Qlt_shift_div_r; [exact Hb|].
  assert (E : c / d * b == (c * b) / d) by (field; lra).
  rewrite E. apply Qlt_shift_div_l; assumption.
Qed.

(** *** The Py.binade *)

Lemma Qabs_make (q : Q) : Qabs q == inject_Z (Z.abs (Qnum q)) / inject_Z (Zpos (Qden q)).
Proof.
  destruct q as [a d]. unfold Qabs. simpl Qnum. simpl Qden.
  rewrite (Qmake_Qdiv (Z.abs a) d). reflexivity.
Qed.

Lemma binade_log2 (q : Q) :
  ~ q == 0 ->
  let k := (Z.log2 (Z.abs (Qnum q)) - Z.log2 (Zpos (Qden q)))%Z in
  2 ^ (k - 1) <= Qabs q /\ Qabs q < 2 ^ (k + 1).
Proof.
  intros Hq k.
  assert (Ha : (0 < Z.abs (Qnum q))%Z).
  { destruct q as [a d]. unfold Qeq in Hq. simpl in Hq. simpl. lia. }
  assert (Hd : (0 < Zpos (Qden q))%Z) by lia.
  pose proof (Z.log2_spec _ Ha) as [Ha1 Ha2].
  pose proof (Z.log2_spec _ Hd) as [Hd1 Hd2].
  pose proof (Z.log2_nonneg (Z.abs (Qnum q))) as Hla.
  pose proof (Z.log2_nonneg (Zpos (Qden q))) as Hld.
  set (la := Z.log2 (Z.abs (Qnum q))) in *.
  set (ld := Z.log2 (Zpos (Qden q))) in *.
  set (a := Z.abs (Qnum q)) in *. set (d := Zpos (Qden q)) in *.
  assert (Hdq : 0 < inject_Z d) by (change 0 with (inject_Z 0); rewrite <- Zlt_Qlt; lia).
  rewrite (Qabs_make q). fold a. fold d.
  split.
  - replace (k - 1)%Z with (la - Z.succ ld)%Z by (unfold k; lia).
    rewrite Qpower_minus by discriminate.
    rewrite (pow2_Z la) by lia. rewrite (pow2_Z (Z.succ ld)) by lia.
    apply div_le_div; [|exact Hdq|].
    + change 0 with (inject_Z 0). rewrite <- Zlt_Qlt. lia.
    + rewrite <- !inject_Z_mult. rewrite <- Zle_Qle. nia.
  - replace (k + 1)%Z with (Z.succ la - ld)%Z by (unfold k; lia).
    rewrite Qpower_minus by discriminate.
    rewrite (pow2_Z (Z.succ la)) by lia. rewrite (pow2_Z ld) by lia.
    apply div_lt_div; [exact Hdq| |].
    + change 0 with (inject_Z 0). rewrite <- Zlt_Qlt. lia.
    + rewrite <- !inject_Z_mult. rewrite <- Zlt_Qlt. nia.
Qed.

(** [Py.binade q] is the exponent of the power of two just below [|q|]. *)
Lemma binade_spec (q : Q) :
  ~ q == 0 -> 2 ^ Py.binade q <= Qabs q /\ Qabs q < 2 ^ (Py.binade q + 1).
Proof.
  intro Hq. destruct (binade_log2 q Hq) as [Hl Hu].
  unfold Py.binade.
  set (k := (Z.log2 (Z.abs (Qnum q)) - Z.log2 (Zpos (Qden q)))%Z) in *.
  destruct (Qle_bool (2 ^ k) (Qabs q)) eqn:E.
  - apply Qle_bool_iff in E. split; assumption.
  - split; [exact Hl|].
    replace (k - 1 + 1)%Z with k by lia.
    apply Qnot_le_lt. intro H. apply Qle_bool_iff in H. congruence.
Qed.




Lemma Qeq_bool_false (x y : Q) : ~ x == y -> Qeq_bool x y = false.
Proof.
  intro H. destruct (Qeq_bool x y) eqn:E; [|reflexivity].
  apply Qeq_bool_iff in E. contradiction.
Qed.

Lemma pow2_52 (b : Z) : 2 ^ b == 4503599627370496 * 2 ^ (b - 52).
Proof.
  rewrite Qpower_minus by discriminate.
  assert (E : 2 ^ 52 == 4503599627370496) by reflexivity.
  rewrite E. set (p := 2 ^ b). field.
Qed.


Lemma double_0 (x : Q) : x == 0 -> Py.double x = 0.
Proof. intro H. unfold Py.double. apply Qeq_bool_iff in H. now rewrite H. Qed.

(** A positive number rounds into the closure of its Py.binade. *)
Lemma double_pos (x : Q) :
  0 < x -> 2 ^ Py.binade x <= Py.double x <= 2 ^ (Py.binade x + 1).
Proof.
  intro H0. assert (Hx : ~ x == 0) by lra.
  destruct (binade_spec x Hx) as [Bl Bu].
  rewrite Qabs_pos in Bl, Bu by lra.
  unfold Py.double. rewrite (Qeq_bool_false x 0) by exact Hx.
  pose proof (pow2_pos (Py.binade x - 52)) as Hp.
  pose proof (pow2_52 (Py.binade x)) as E52.
  pose proof (pow2_succ (Py.binade x)) as Es.
  set (ulp := 2 ^ (Py.binade x - 52)) in *.
  assert (Hz1 : inject_Z 4503599627370496 <= x / ulp).
  { apply Qle_shift_div_l; [exact Hp|].
    change (inject_Z 4503599627370496) with 4503599627370496. lra. }
  assert (Hz2 : x / ulp <= inject_Z 9007199254740992).
  { apply Qle_shift_div_r; [exact Hp|].
    change (inject_Z 9007199254740992) with 9007199254740992. lra. }
  apply round_half_even_mono in Hz1, Hz2. rewrite round_half_even_Z in Hz1, Hz2.
  rewrite Zle_Qle in Hz1, Hz2.
  change (inject_Z 4503599627370496) with 4503599627370496 in Hz1.
  change (inject_Z 9007199254740992) with 9007199254740992 in Hz2.
  set (m := inject_Z (Py.round_half_even (x / ulp))) in *.
  assert (H1 : 4503599627370496 * ulp <= m * ulp)
    by (apply Qmult_le_compat_r; lra).
  assert (H2 : m * ulp <= 9007199254740992 * ulp)
    by (apply Qmult_le_compat_r; lra).
  lra.
Qed.

Lemma double_neg (x : Q) :
  x < 0 -> - 2 ^ (Py.binade x + 1) <= Py.double x <= - 2 ^ Py.binade x.
Proof.
  intro H0. assert (Hx : ~ x == 0) by lra.
  destruct (binade_spec x Hx) as [Bl Bu].
  rewrite Qabs_neg in Bl, Bu by lra.
  unfold Py.double. rewrite (Qeq_bool_false x 0) by exact Hx.
  pose proof (pow2_pos (Py.binade x - 52)) as Hp.
  pose proof (pow2_52 (Py.binade x)) as E52.
  pose proof (pow2_succ (Py.binade x)) as Es.
  set (ulp := 2 ^ (Py.binade x - 52)) in *.
  assert (Hz1 : x / ulp <= inject_Z (- 4503599627370496)).
  { apply Qle_shift_div_r; [exact Hp|].
    change (inject_Z (- 4503599627370496)) with (- 4503599627370496). lra. }
  assert (Hz2 : inject_Z (- 9007199254740992) <= x / ulp).
  { apply Qle_shift_div_l; [exact Hp|].
    change (inject_Z (- 9007199254740992)) with (- 9007199254740992). lra. }
  apply round_half_even_mono in Hz1, Hz2. rewrite round_half_even_Z in Hz1, Hz2.
  rewrite Zle_Qle in Hz1, Hz2.
  change (inject_Z (- 4503599627370496)) with (- 4503599627370496) in Hz1.
  change (inject_Z (- 9007199254740992)) with (- 9007199254740992) in Hz2.
  set (m := inject_Z (Py.round_half_even (x / ulp))) in *.
  assert (H1 : m * ulp <= - 4503599627370496 * ulp)
    by (apply Qmult_le_compat_r; lra).
  assert (H2 : - 9007199254740992 * ulp <= m * ulp)
    by (apply Qmult_le_compat_r; lra).
  lra.
Qed.

Lemma double_same_binade (x y : Q) :
  ~ x == 0 -> ~ y == 0 -> Py.binade x = Py.binade y -> x <= y -> Py.double x <= Py.double y.
Proof.
  intros Hx Hy E H. unfold Py.double.
  rewrite (Qeq_bool_false x 0) by exact Hx.
  rewrite (Qeq_bool_false y 0) by exact Hy.
  rewrite E. pose proof (pow2_pos (Py.binade y - 52)) as Hp.
  set (ulp := 2 ^ (Py.binade y - 52)) in *.
  apply Qmult_le_compat_r; [|lra].
  rewrite <- Zle_Qle. apply round_half_even_mono.
  apply Qmult_le_compat_r; [exact H|].
  apply Qinv_le_0_compat. lra.
Qed.

(** Rounding to [Py.float] keeps the order. *)
Lemma double_mono (x y : Q) : x <= y -> Py.double x <= Py.double y.
Proof.
  intro H.
  destruct (Qlt_le_dec 0 x) as [Hx|Hx].
  - (* both positive *)
    assert (Hy : 0 < y) by lra.
    assert (Nx : ~ x == 0) by lra. assert (Ny : ~ y == 0) by lra.
    destruct (binade_spec x Nx) as [Xl Xu]. destruct (binade_spec y Ny) as [Yl Yu].
    rewrite Qabs_pos in Xl, Xu, Yl, Yu by lra.
    pose proof (double_pos x Hx) as [_ Dx]. pose proof (double_pos y Hy) as [Dy _].
    destruct (Z_lt_le_dec (Py.binade x) (Py.binade y)) as [B|B].
    + assert (2 ^ (Py.binade x + 1) <= 2 ^ Py.binade y) by (apply pow2_le; lia). lra.
    + destruct (Z_lt_le_dec (Py.binade y) (Py.binade x)) as [B'|B'].
      * exfalso.
        assert (2 ^ (Py.binade y + 1) <= 2 ^ Py.binade x) by (apply pow2_le; lia). lra.
      * apply double_same_binade; try assumption. lia.
  - destruct (Qlt_le_dec 0 y) as [Hy|Hy].
    + (* x <= 0 < y *)
      pose proof (double_pos y Hy) as [Dy _]. pose proof (pow2_pos (Py.binade y)).
      destruct (Qlt_le_dec x 0) as [Hx'|Hx'].
      * pose proof (double_neg x Hx') as [_ Dx]. pose proof (pow2_pos (Py.binade x)). lra.
      * rewrite (double_0 x) by lra. lra.
    + destruct (Qlt_le_dec y 0) as [Hy'|Hy'].
      * (* both negative *)
        assert (Hx' : x < 0) by lra.
        assert (Nx : ~ x == 0) by lra. assert (Ny : ~ y == 0) by lra.
        destruct (binade_spec x Nx) as [Xl Xu]. destruct (binade_spec y Ny) as [Yl Yu].
        rewrite Qabs_neg in Xl, Xu, Yl, Yu by lra.
        pose proof (double_neg x Hx') as [_ Dx]. pose proof (double_neg y Hy') as [Dy _].
        destruct (Z_lt_le_dec (Py.binade y) (Py.binade x)) as [B|B].
        -- assert (2 ^ (Py.binade y + 1) <= 2 ^ Py.binade x) by (apply pow2_le; lia). lra.
        -- destruct (Z_lt_le_dec (Py.binade x) (Py.binade y)) as [B'|B'].
           ++ exfalso.
              assert (2 ^ (Py.binade x + 1) <= 2 ^ Py.binade y) by (apply pow2_le; lia). lra.
           ++ apply double_same_binade; try assumption. lia.
      * (* y == 0 *)
        rewrite (double_0 y) by lra.
        destruct (Qlt_le_dec x 0) as [Hx'|Hx'].
        -- pose proof (double_neg x Hx') as [_ Dx]. pose proof (pow2_pos (Py.binade x)). lra.
        -- rewrite (double_0 x) by lra. lra.
Qed.

(** *** [round] *)

(** Equal rationals round to the same representation. *)
Lemma round_comp (x y : Q) (n : nat) : x == y -> Py.round x n = Py.round y n.
Proof.
  intro H. unfold Py.round.
  rewrite (round_half_even_comp (x * inject_Z (10 ^ Z.of_nat n))
             (y * inject_Z (10 ^ Z.of_nat n))); [reflexivity|].
  now rewrite H.
Qed.

Lemma round_mono (x y : Q) (n : nat) : x <= y -> Py.round x n <= Py.round y n.
Proof.
  intro H. unfold Py.round. apply double_mono.
  set (scale := inject_Z (10 ^ Z.of_nat n)).
  assert (Hs : 0 < scale).
  { unfold scale. change 0 with (inject_Z 0). rewrite <- Zlt_Qlt.
    apply Z.pow_pos_nonneg; lia. }
  apply Qmult_le_compat_r.
  - rewrite <- Zle_Qle. apply round_half_even_mono.
    apply Qmult_le_compat_r; [exact H | now apply Qlt_le_weak].
  - apply Qinv_le_0_compat. now apply Qlt_le_weak.
Qed.

Lemma max_one_pos (pt : Q) : 1 <= Py.max pt 1.
Proof.
  unfold Py.max. destruct (Py.Qltb pt 1) eqn:E.
  - apply Qle_refl.
  - now apply Qltb_ge in E.
Qed.




Lemma double_nonneg (x : Q) : 0 <= x -> 0 <= Py.double x.
Proof.
  intro H. apply double_mono in H. now rewrite (double_0 0) in H by reflexivity.
Qed.

Lemma last_item_snoc (A : Type) (l : list A) (x : A) :
  Py.last_item (l ++ [x]) = Some x.
Proof.
  unfold Py.last_item. now rewrite rev_app_distr.
Qed.

Lemma last_item_nil_inv (A : Type) (l : list A) :
  Py.last_item l = None -> l = [].
Proof.
  unfold Py.last_item. intro H.
  destruct (rev l) eqn:E; [|discriminate].
  rewrite <- (rev_involutive l), E. reflexivity.
Qed.

Lemma last_item_some_inv (A : Type) (l : list A) (x : A) :
  Py.last_item l = Some x -> exists l', l = l' ++ [x].
Proof.
  unfold Py.last_item. intro H.
  destruct (rev l) as [|y r] eqn:E; [discriminate|].
  injection H as ->. exists (rev r).
  rewrite <- (rev_involutive l), E. reflexivity.
Qed.

End PyFacts.

(** ** The leaderboard *)

Module TopResultsFacts.

Import TopResults PyFacts.
Open Scope Q_scope.

(** *** The sort *)

Lemma insert_perm (x : TopResult) (l : list TopResult) :
  Permutation (l ++ [x]) (insert_by_score x l).
Proof.
  induction l as [|y l IH]; simpl.
  - apply Permutation_refl.
  - destruct (Py.Qltb (score y) (score x)).
    + change (y :: l ++ [x]) with ((y :: l) ++ [x]).
      apply Permutation_sym, Permutation_cons_append.
    + now apply perm_skip.
Qed.

(** On a sorted list the new item lands behind the items that score at least
    as much and in front of those that score less. *)
Lemma insert_split (x : TopResult) (l : list TopResult) :
  sorted_desc l ->
  exists front back,
    l = front ++ back /\ insert_by_score x l = front ++ x :: back
    /\ Forall (fun e => score x <= score e) front
    /\ Forall (fun e => score e < score x) back.
Proof.
  induction l as [|y l IH]; intro Hs.
  - exists [], []. simpl. repeat split; constructor.
  - apply StronglySorted_inv in Hs. destruct Hs as [Hl Hy]. simpl.
    destruct (Py.Qltb (score y) (score x)) eqn:E.
    + apply Qltb_lt in E.
      exists [], (y :: l). simpl. repeat split; try constructor; trivial.
      eapply Forall_impl; [|exact Hy]. simpl. intros e He.
      eapply Qle_lt_trans; eauto.
    + apply Qltb_ge in E.
      destruct (IH Hl) as (front & back & -> & Hins & Hf & Hb).
      exists (y :: front), back. simpl. rewrite Hins.
      repeat split; trivial. now constructor.
Qed.

Lemma insert_sorted (x : TopResult) (l : list TopResult) :
  sorted_desc l -> sorted_desc (insert_by_score x l).
Proof.
  unfold sorted_desc.
  induction l as [|y l IH]; intro Hs; simpl.
  - repeat constructor.
  - pose proof Hs as Hs'. apply StronglySorted_inv in Hs'. destruct Hs' as [Hl Hy].
    destruct (Py.Qltb (score y) (score x)) eqn:E.
    + apply Qltb_lt in E. constructor; [exact Hs|].
      constructor; [now apply Qlt_le_weak|].
      eapply Forall_impl; [|exact Hy]. simpl. intros e He.
      apply Qlt_le_weak. eapply Qle_lt_trans; eauto.
    + apply Qltb_ge in E. constructor; [now apply IH|].
      eapply Permutation_Forall; [apply insert_perm|].
      apply Forall_app. split; [exact Hy | now repeat constructor].
Qed.

Lemma fold_insert_sorted (l acc : list TopResult) :
  sorted_desc acc ->
  sorted_desc (fold_left (fun a x => insert_by_score x a) l acc).
Proof.
  revert acc. induction l as [|x l IH]; intros acc Hs; simpl; [exact Hs|].
  apply IH. now apply insert_sorted.
Qed.

Lemma fold_insert_perm (l acc : list TopResult) :
  Permutation (acc ++ l) (fold_left (fun a x => insert_by_score x a) l acc).
Proof.
  revert acc. induction l as [|x l IH]; intro acc; simpl.
  - now rewrite app_nil_r.
  - eapply Permutation_trans; [|apply IH].
    change (x :: l) with ([x] ++ l). rewrite app_assoc.
    apply Permutation_app_tail. apply insert_perm.
Qed.

Lemma sort_sorted (l : list TopResult) : sorted_desc (sort_by_score_desc l).
Proof. apply fold_insert_sorted. constructor. Qed.

Lemma sort_perm (l : list TopResult) : Permutation l (sort_by_score_desc l).
Proof. apply (fold_insert_perm l []). Qed.

Lemma sort_length (l : list TopResult) :
  length (sort_by_score_desc l) = length l.
Proof. symmetry. apply Permutation_length, sort_perm. Qed.

Lemma sort_snoc (l : list TopResult) (x : TopResult) :
  sort_by_score_desc (l ++ [x]) = insert_by_score x (sort_by_score_desc l).
Proof. unfold sort_by_score_desc. now rewrite fold_left_app. Qed.

Lemma insert_last (x : TopResult) (l : list TopResult) :
  Forall (fun e => score x <= score e) l -> insert_by_score x l = l ++ [x].
Proof.
  induction 1 as [|y l Hy Hl IH]; simpl; [reflexivity|].
  apply Qltb_ge in Hy. rewrite Hy. now rewrite IH.
Qed.

Lemma sorted_desc_app_inv (l1 l2 : list TopResult) :
  sorted_desc (l1 ++ l2) ->
  sorted_desc l1 /\ sorted_desc l2
  /\ Forall (fun a => Forall (fun b => score b <= score a) l2) l1.
Proof.
  unfold sorted_desc. induction l1 as [|a l1 IH]; simpl; intro H.
  - repeat split; trivial; constructor.
  - apply StronglySorted_inv in H. destruct H as [H Ha].
    destruct (IH H) as (H1 & H2 & H12).
    apply Forall_app in Ha. destruct Ha as [Ha1 Ha2].
    repeat split; trivial; now constructor.
Qed.

Lemma fold_insert_id (l acc : list TopResult) :
  sorted_desc (acc ++ l) ->
  fold_left (fun a x => insert_by_score x a) l acc = acc ++ l.
Proof.
  revert acc. induction l as [|x l IH]; intros acc Hs; simpl.
  - now rewrite app_nil_r.
  - assert (E : insert_by_score x acc = acc ++ [x]).
    { apply insert_last. apply sorted_desc_app_inv in Hs.
      destruct Hs as (_ & _ & H).
      eapply Forall_impl; [|exact H]. simpl. intros a Ha.
      now apply Forall_inv in Ha. }
    rewrite E, IH; rewrite <- app_assoc; [reflexivity | exact Hs].
Qed.

(** Sorting a sorted list changes nothing. *)
Lemma sort_id (l : list TopResult) : sorted_desc l -> sort_by_score_desc l = l.
Proof. intro H. apply (fold_insert_id l [] H). Qed.

(** Stability: the entries of any one score keep their order. *)
Lemma fold_insert_stable (q : Q) (l acc : list TopResult) :
  sorted_desc acc ->
  filter (fun e => Qeq_bool (score e) q)
         (fold_left (fun a x => insert_by_score x a) l acc)
  = filter (fun e => Qeq_bool (score e) q) (acc ++ l).
Proof.
  revert acc. induction l as [|x l IH]; intros acc Hs; simpl.
  - now rewrite app_nil_r.
  - rewrite IH by now apply insert_sorted.
    destruct (insert_split x _ Hs) as (front & back & -> & -> & _ & Hb).
    repeat (rewrite filter_app; simpl).
    destruct (Qeq_bool (score x) q) eqn:E; [|reflexivity].
    apply Qeq_bool_iff in E.
    assert (Hnil : filter (fun e => Qeq_bool (score e) q) back = []).
    { clear Hs. induction Hb as [|b back Hb _ IHb]; simpl; [reflexivity|].
      assert (Qeq_bool (score b) q = false) as ->; [|exact IHb].
      destruct (Qeq_bool (score b) q) eqn:E'; [|reflexivity].
      apply Qeq_bool_iff in E'. rewrite E', <- E in Hb.
      exfalso. exact (Qlt_irrefl _ Hb). }
    rewrite Hnil, app_nil_r, <- app_assoc. reflexivity.
Qed.

Lemma sort_stable (q : Q) (l : list TopResult) :
  filter (fun e => Qeq_bool (score e) q) (sort_by_score_desc l)
  = filter (fun e => Qeq_bool (score e) q) l.
Proof. apply (fold_insert_stable q l []). constructor. Qed.

(** *** The score *)






(** *** Admission *)

Lemma add_result_room (self : TopResultsManager) now name tk ts bsk bsd pt :
  (Py.len (results self) < max_results self)%Z ->
  add_result self now name tk ts bsk bsd pt
  = Some (true,
          _save_results (_sort_results (set_results self
            (results self ++ [new_result self now name tk ts bsk bsd pt])))).
Proof.
  intro H. unfold add_result. apply Z.ltb_lt in H. now rewrite H.
Qed.

Lemma add_result_full (self : TopResultsManager) now name tk ts bsk bsd pt
    (rest : list TopResult) (worst : TopResult) :
  (max_results self <= Py.len (results self))%Z ->
  results self = rest ++ [worst] ->
  add_result self now name tk ts bsk bsd pt
  = if Py.Qltb (score worst) (score (new_result self now name tk ts bsk bsd pt))
    then Some (true,
               _save_results (_sort_results (set_results self
                 (rest ++ [new_result self now name tk ts bsk bsd pt]))))
    else Some (false, self).
Proof.
  intros H E. unfold add_result. apply Z.ltb_ge in H. rewrite H.
  rewrite E, last_item_snoc, removelast_last. reflexivity.
Qed.

Lemma sorted_last_lowest (rest : list TopResult) (worst : TopResult) :
  sorted_desc (rest ++ [worst]) ->
  Forall (fun e => score worst <= score e) (rest ++ [worst]).
Proof.
  intro H. apply sorted_desc_app_inv in H. destruct H as (_ & _ & H).
  apply Forall_app. split.
  - eapply Forall_impl; [|exact H]. simpl. intros a Ha.
    now apply Forall_inv in Ha.
  - constructor; [apply Qle_refl | constructor].
Qed.

(** C5. With room left the new entry is appended and accepted whatever its
    score.  On a full leaderboard the last entry is the lowest-scoring one,
    and the new entry takes its place exactly when its score is strictly
    greater; otherwise (equal scores included) the call answers [False] and
    leaves the manager and the file as they were.  Every acceptance makes
    exactly one write, of the new results. *)
Theorem add_result_admission :
  forall (self : TopResultsManager) (now name : string) (tk ts bsk : Z)
         (bsd pt : Q),
    sorted_desc (results self) ->
    let new := new_result self now name tk ts bsk bsd pt in
    ((Py.len (results self) < max_results self)%Z ->
     exists self',
       add_result self now name tk ts bsk bsd pt = Some (true, self')
       /\ Permutation (results self ++ [new]) (results self')
       /\ storage_file self' = storage_file self ++ [results self'])
    /\ ((max_results self <= Py.len (results self))%Z ->
        forall rest worst,
          results self = rest ++ [worst] ->
          Forall (fun e => score worst <= score e) (results self)
          /\ (score worst < score new ->
              exists self',
                add_result self now name tk ts bsk bsd pt = Some (true, self')
                /\ Permutation (rest ++ [new]) (results self')
                /\ storage_file self' = storage_file self ++ [results self'])
          /\ (score new <= score worst ->
              add_result self now name tk ts bsk bsd pt = Some (false, self))).
Proof.
  intros self now name tk ts bsk bsd pt Hs new. split.
  - intro H. eexists. split; [now apply add_result_room|].
    simpl. split; [apply sort_perm | reflexivity].
  - intros H rest worst E. split; [|split].
    + rewrite E in *. now apply sorted_last_lowest.
    + intro Hlt. eexists. split.
      * rewrite (add_result_full self now name tk ts bsk bsd pt rest worst H E).
        apply Qltb_lt in Hlt. fold new. rewrite Hlt. reflexivity.
      * simpl. split; [apply sort_perm | reflexivity].
    + intro Hle.
      rewrite (add_result_full self now name tk ts bsk bsd pt rest worst H E).
      apply Qltb_ge in Hle. fold new. now rewrite Hle.
Qed.

Lemma add_result_admission_witness :
  (exists self',
     add_result Samples.open_board "t1" "b.mp4" 0 0 0 1 0 = Some (true, self')
     /\ Forall2 Qeq (map score (results self')) [100; 5])
  /\ add_result Samples.full_board "t2" "c.mp4" 0 0 2 2 0
     = Some (false, Samples.full_board)
  /\ (exists self',
        add_result Samples.full_board "t3" "d.mp4" 1 0 0 3 0 = Some (true, self')
        /\ Forall2 Qeq (map score (results self')) [100; 75]).
Proof.
  assert (Hfull : sorted_desc (results Samples.full_board)).
  { repeat constructor. vm_compute. discriminate. }
  assert (Hopen : sorted_desc (results Samples.open_board)).
  { repeat constructor. }
  split; [|split].
  - destruct (add_result_admission Samples.open_board "t1" "b.mp4" 0 0 0 1 0 Hopen)
      as [Hroom _].
    destruct Hroom as (self' & Hadd & _); [vm_compute; reflexivity|].
    exists self'. split; [exact Hadd|].
    vm_compute in Hadd. injection Hadd as <-.
    repeat constructor; vm_compute; reflexivity.
  - destruct (add_result_admission Samples.full_board "t2" "c.mp4" 0 0 2 2 0 Hfull)
      as [_ Hcap].
    destruct (Hcap ltac:(vm_compute; discriminate)
                [Samples.entry "a.mp4" 100] (Samples.entry "b.mp4" 50) eq_refl)
      as (_ & _ & Hrej).
    apply Hrej. vm_compute. discriminate.
  - destruct (add_result_admission Samples.full_board "t3" "d.mp4" 1 0 0 3 0 Hfull)
      as [_ Hcap].
    destruct (Hcap ltac:(vm_compute; discriminate)
                [Samples.entry "a.mp4" 100] (Samples.entry "b.mp4" 50) eq_refl)
      as (_ & Hacc & _).
    destruct Hacc as (self' & Hadd & _); [vm_compute; reflexivity|].
    exists self'. split; [exact Hadd|].
    vm_compute in Hadd. injection Hadd as <-.
    repeat constructor; vm_compute; reflexivity.
Defined.

(** *** The invariant *)

(** What a completed [add_result] does to a bounded, sorted leaderboard. *)
Lemma add_result_step (self self' : TopResultsManager) now name tk ts bsk bsd pt
    (accepted : bool) :
  bounded_sorted self ->
  add_result self now name tk ts bsk bsd pt = Some (accepted, self') ->
  max_results self' = max_results self
  /\ bounded_sorted self'
  /\ (accepted = true ->
      storage_file self' = storage_file self ++ [results self']
      /\ exists front back,
           (results self = front ++ back
            \/ exists worst, results self = front ++ back ++ [worst])
           /\ results self'
              = front ++ new_result self now name tk ts bsk bsd pt :: back
           /\ Forall (fun e =>
                score (new_result self now name tk ts bsk bsd pt) <= score e) front
           /\ Forall (fun e =>
                score e < score (new_result self now name tk ts bsk bsd pt)) back)
  /\ (accepted = false -> self' = self).
Proof.
  intros [Hlen Hs] Hadd.
  set (new := new_result self now name tk ts bsk bsd pt) in *.
  destruct (Z.lt_ge_cases (Py.len (results self)) (max_results self)) as [Hroom|Hcap].
  - rewrite (add_result_room self now name tk ts bsk bsd pt Hroom) in Hadd.
    injection Hadd as <- <-. fold new. unfold bounded_sorted.
    cbn [results max_results storage_file _save_results _sort_results set_results].
    rewrite sort_snoc, (sort_id _ Hs).
    destruct (insert_split new _ Hs) as (front & back & E & Hins & Hf & Hb).
    split; [reflexivity|]. split; [|split]; [| |discriminate].
    + split; [|now apply insert_sorted].
      simpl. unfold Py.len in *.
      rewrite <- (Permutation_length (insert_perm new (results self))).
      rewrite length_app. simpl. lia.
    + intros _. split; [reflexivity|].
      exists front, back. rewrite Hins. repeat split; trivial. now left.
  - destruct (Py.last_item (results self)) as [worst|] eqn:El.
    + apply last_item_some_inv in El. destruct El as [rest El].
      rewrite (add_result_full self now name tk ts bsk bsd pt rest worst Hcap El)
        in Hadd.
      fold new in Hadd.
      assert (Hrest : sorted_desc rest).
      { rewrite El in Hs. apply sorted_desc_app_inv in Hs. exact (proj1 Hs). }
      destruct (Py.Qltb (score worst) (score new)); injection Hadd as <- <-.
      * unfold bounded_sorted.
        cbn [results max_results storage_file _save_results _sort_results
             set_results].
        rewrite sort_snoc, (sort_id _ Hrest).
        destruct (insert_split new _ Hrest) as (front & back & E & Hins & Hf & Hb).
        split; [reflexivity|]. split; [|split]; [| |discriminate].
        -- split; [|now apply insert_sorted].
           simpl. unfold Py.len in *.
           rewrite <- (Permutation_length (insert_perm new rest)).
           rewrite El in Hlen. rewrite !length_app in *. simpl in *. lia.
        -- intros _. split; [reflexivity|].
           exists front, back. rewrite Hins. repeat split; trivial.
           right. exists worst. rewrite El, E, <- app_assoc. reflexivity.
      * split; [reflexivity|]. split; [now split|].
        split; [discriminate | reflexivity].
    + unfold add_result in Hadd. apply Z.ltb_ge in Hcap.
      rewrite Hcap, El in Hadd. discriminate.
Qed.

Lemma reachable_inv (max : Z) (self : TopResultsManager) :
  (0 <= max)%Z ->
  reachable max self ->
  max_results self = max /\ bounded_sorted self
  /\ (Py.last_item (storage_file self) = Some (results self)
      \/ (storage_file self = [] /\ results self = [])).
Proof.
  intros Hmax H. induction H as [|self now name tk ts bsk bsd pt acc self' H IH Hadd
                                  |self H IH].
  - simpl. split; [reflexivity|]. split; [|now right].
    split; [exact Hmax | constructor].
  - destruct IH as (Em & Hb & Hst).
    destruct (add_result_step self self' now name tk ts bsk bsd pt acc Hb Hadd)
      as (Em' & Hb' & Hacc & Hrej).
    split; [congruence|]. split; [exact Hb'|].
    destruct acc.
    + destruct (Hacc eq_refl) as [-> _]. left. apply last_item_snoc.
    + now rewrite (Hrej eq_refl).
  - destruct IH as (Em & [Hlen Hs] & Hst).
    unfold __init__. destruct Hst as [Hst | [E1 E2]].
    + rewrite Hst. unfold _sort_results, set_results, bounded_sorted.
      cbn [results max_results storage_file]. rewrite (sort_id _ Hs).
      split; [reflexivity|]. split; [|now left].
      split; [now rewrite <- Em | exact Hs].
    + rewrite E1. simpl. split; [reflexivity|].
      split; [split; [exact Hmax | constructor] | now right].
Qed.

(** C6. In every state a manager can reach, the leaderboard holds at most
    [max_results] entries, sorted by descending score; a completed
    [add_result] call, accepted or not, leaves it so.  An accepted entry
    stands behind every kept entry of greater or equal score and in front of
    those of smaller score, the kept entries in their previous order: ties
    stay in insertion order.  A rejected call changes nothing. *)
Theorem leaderboard_bounded_sorted :
  forall (max : Z) (self : TopResultsManager),
    (0 <= max)%Z ->
    reachable max self ->
    bounded_sorted self
    /\ forall now name tk ts bsk bsd pt accepted self',
         add_result self now name tk ts bsk bsd pt = Some (accepted, self') ->
         bounded_sorted self'
         /\ (accepted = true ->
             exists front back,
               (results self = front ++ back
                \/ exists worst, results self = front ++ back ++ [worst])
               /\ results self'
                  = front ++ new_result self now name tk ts bsk bsd pt :: back
               /\ Forall (fun e =>
                    score (new_result self now name tk ts bsk bsd pt) <= score e)
                    front
               /\ Forall (fun e =>
                    score e < score (new_result self now name tk ts bsk bsd pt))
                    back)
         /\ (accepted = false -> self' = self).
Proof.
  intros max self Hmax Hreach.
  destruct (reachable_inv max self Hmax Hreach) as (_ & Hb & _).
  split; [exact Hb|].
  intros now name tk ts bsk bsd pt accepted self' Hadd.
  destruct (add_result_step self self' now name tk ts bsk bsd pt accepted Hb Hadd)
    as (_ & Hb' & Hacc & Hrej).
  split; [exact Hb'|]. split; [|exact Hrej].
  intro Ht. now destruct (Hacc Ht).
Qed.

(** A manager with room for two, after three results scoring 75, 75 and
    50 in that order, then restarted on its own file. *)
Lemma leaderboard_bounded_sorted_witness :
  exists self,
    reachable 2 self
    /\ map video_name (results self) = ["first.mp4"; "second.mp4"]%string
    /\ bounded_sorted self
    /\ add_result self "t4" "fourth.mp4" 1 0 0 3 0 = Some (false, self).
Proof.
  pose (s0 := __init__ [] 2).
  destruct (add_result s0 "t1" "first.mp4" 1 0 0 3 0) as [[a1 s1]|] eqn:E1;
    [|vm_compute in E1; discriminate].
  destruct (add_result s1 "t2" "second.mp4" 1 0 0 3 0) as [[a2 s2]|] eqn:E2;
    [|vm_compute in E1; injection E1 as <- <-; vm_compute in E2; discriminate].
  destruct (add_result s2 "t3" "third.mp4" 0 0 2 2 0) as [[a3 s3]|] eqn:E3;
    [|vm_compute in E1; injection E1 as <- <-;
      vm_compute in E2; injection E2 as <- <-;
      vm_compute in E3; discriminate].
  assert (R3 : reachable 2 (__init__ (storage_file s3) 2)).
  { apply reach_restart.
    eapply reach_add; [|exact E3].
    eapply reach_add; [|exact E2].
    eapply reach_add; [|exact E1].
    apply reach_fresh. }
  exists (__init__ (storage_file s3) 2).
  destruct (leaderboard_bounded_sorted 2 _ ltac:(lia) R3) as [Hb _].
  split; [exact R3|].
  vm_compute in E1; injection E1 as <- <-.
  vm_compute in E2; injection E2 as <- <-.
  vm_compute in E3; injection E3 as <- <-.
  split; [reflexivity|]. split; [exact Hb | reflexivity].
Defined.

End TopResultsFacts.

(** ** The [/results] endpoint *)

Module ApiServerFacts.

Import TopResults ApiServer.

Lemma get_results_out_of_range (top : TopResultsManager) (n : Z) :
  n <> 0%Z -> (n < 1 \/ 30 < n)%Z ->
  get_results top (Some n) = error_response 400.
Proof.
  intros Hn Hr. unfold get_results, truthy.
  apply Z.eqb_neq in Hn. rewrite Hn. simpl.
  destruct Hr as [Hr|Hr].
  - apply Z.ltb_lt in Hr. now rewrite Hr.
  - apply Z.ltb_lt in Hr. rewrite Hr. now rewrite orb_true_r.
Qed.

(** C4, at the failing input.  The endpoint guards the range with
    [if limit and (...)]: a limit of [0] is false in that test, skips it,
    and is answered with a successful, empty listing; a limit of [31] is
    answered with status 400, like every other non-zero limit outside
    1..30.  [get_top_results] itself accepts any limit. *)
Theorem get_results_limit_zero_succeeds :
  forall top : TopResultsManager,
    get_results top (Some 0%Z) = success_response []
    /\ get_results top (Some 31%Z) = error_response 400
    /\ get_top_results top (Some 31%Z) = firstn 31 (results top).
Proof.
  intro top. split; [|split].
  - reflexivity.
  - apply get_results_out_of_range; lia.
  - reflexivity.
Qed.

End ApiServerFacts.

(** ** The series segmenter *)

Module SeriesFacts.

Import Utils PyFacts.
Open Scope Q_scope.

Lemma scan_kick_total (st : SeriesScan) (k : BallKick) :
  consistent st ->
  exists st', scan_kick st k = Some st' /\ consistent st'.
Proof.
  unfold consistent, scan_kick. intro Hc.
  destruct (String.eqb (kick_type k) "up").
  - eexists. split; [reflexivity|].
    destruct (current_series_start st) eqn:Ef; simpl.
    + now rewrite Ef.
    + split; discriminate.
  - destruct (String.eqb (kick_type k) "ground").
    + destruct (current_series_start st) as [f|] eqn:Ef.
      * destruct (current_series_start_timestamp st) as [t|] eqn:Et.
        -- eexists. split; [reflexivity|]. simpl. tauto.
        -- exfalso. destruct Hc as [_ Hc]. specialize (Hc eq_refl). discriminate.
      * eexists. split; [reflexivity|]. now rewrite Ef.
    + eexists. split; [reflexivity | exact Hc].
Qed.

Lemma scan_kicks_total (ks : list BallKick) (st : SeriesScan) :
  consistent st ->
  exists st', scan_kicks st ks = Some st' /\ consistent st'.
Proof.
  revert st. induction ks as [|k ks IH]; intros st Hc; simpl.
  - now exists st.
  - destruct (scan_kick_total st k Hc) as (st1 & -> & Hc1). now apply IH.
Qed.

Lemma scan_kicks_app (ks1 ks2 : list BallKick) (st : SeriesScan) :
  scan_kicks st (ks1 ++ ks2)
  = match scan_kicks st ks1 with
    | None => None
    | Some st' => scan_kicks st' ks2
    end.
Proof.
  revert st. induction ks1 as [|k ks1 IH]; intro st; simpl; [reflexivity|].
  destruct (scan_kick st k); [apply IH | reflexivity].
Qed.

Lemma scan_up (st : SeriesScan) (k : BallKick) :
  kick_type k = "up"%string ->
  scan_kick st k
  = Some {| scanned := scanned st;
            current_series_start :=
              match current_series_start st with
              | None => Some (frame_number k)
              | Some f => Some f
              end;
            current_kicks := (current_kicks st + 1)%Z;
            current_series_start_timestamp :=
              match current_series_start st with
              | None => Some (timestamp k)
              | Some _ => current_series_start_timestamp st
              end |}.
Proof.
  intro Hk. unfold scan_kick. rewrite Hk. simpl.
  destruct (current_series_start st) eqn:E; simpl; rewrite ?E; reflexivity.
Qed.

(** A run of up-kicks closes nothing: it opens a series at its first kick
    when none is open, and counts. *)
Lemma scan_ups (ups : list BallKick) (st : SeriesScan) :
  Forall (fun k => kick_type k = "up"%string) ups ->
  exists st',
    scan_kicks st ups = Some st' /\ scanned st' = scanned st
    /\ current_kicks st' = (current_kicks st + Z.of_nat (length ups))%Z
    /\ current_series_start st'
       = match current_series_start st with
         | Some f => Some f
         | None => option_map frame_number (hd_error ups)
         end
    /\ current_series_start_timestamp st'
       = match current_series_start st, hd_error ups with
         | None, Some u => Some (timestamp u)
         | _, _ => current_series_start_timestamp st
         end.
Proof.
  intro H. revert st. induction H as [|u ups Hu _ IH]; intro st.
  - exists st. simpl. repeat split; [lia | |]; now destruct (current_series_start st).
  - simpl scan_kicks. rewrite (scan_up st u Hu).
    match goal with
    | |- context [scan_kicks ?s ups] =>
        destruct (IH s) as (st' & E & Hsc & Hk & Hst & Hts)
    end.
    exists st'. split; [exact E|]. split; [exact Hsc|]. split; [|split].
    + rewrite Hk. cbn [current_kicks length]. lia.
    + rewrite Hst. cbn [current_series_start hd_error option_map].
      now destruct (current_series_start st).
    + rewrite Hts. cbn [current_series_start current_series_start_timestamp hd_error].
      now destruct (current_series_start st).
Qed.

Lemma scan_ground_open (st : SeriesScan) (k : BallKick) (f : Z) (t : Q) :
  kick_type k = "ground"%string ->
  current_series_start st = Some f ->
  current_series_start_timestamp st = Some t ->
  scan_kick st k
  = Some {| scanned := scanned st ++
              [ {| start_frame := f; end_frame := frame_number k;
                   kicks_count := current_kicks st;
                   duration := Py.double (timestamp k - t) |} ];
            current_series_start := None;
            current_kicks := 0;
            current_series_start_timestamp := None |}.
Proof.
  intros Hk Hf Ht. unfold scan_kick. rewrite Hk, Hf, Ht. reflexivity.
Qed.

Lemma scan_ground_closed (st : SeriesScan) (k : BallKick) :
  kick_type k = "ground"%string ->
  current_series_start st = None ->
  scan_kick st k = Some st.
Proof.
  intros Hk Hf. unfold scan_kick. rewrite Hk, Hf. reflexivity.
Qed.

(** The open count is 0 whenever no series is open. *)
Lemma scan_kick_idle (st st' : SeriesScan) (k : BallKick) :
  scan_kick st k = Some st' ->
  (current_series_start st = None -> current_kicks st = 0%Z) ->
  current_series_start st' = None -> current_kicks st' = 0%Z.
Proof.
  unfold scan_kick. intros H Hidle.
  destruct (String.eqb (kick_type k) "up").
  - injection H as <-.
    destruct (current_series_start st) eqn:E; cbn [current_series_start];
      intro H0; congruence.
  - destruct (String.eqb (kick_type k) "ground").
    + destruct (current_series_start st) as [f|] eqn:Ef.
      * destruct (current_series_start_timestamp st); [|discriminate].
        injection H as <-. reflexivity.
      * injection H as <-. intros _. exact (Hidle eq_refl).
    + injection H as <-. exact Hidle.
Qed.

Lemma scan_kicks_idle (ks : list BallKick) :
  forall st st',
    scan_kicks st ks = Some st' ->
    (current_series_start st = None -> current_kicks st = 0%Z) ->
    current_series_start st' = None -> current_kicks st' = 0%Z.
Proof.
  induction ks as [|k ks IH]; intros st st' H Hidle; simpl in H.
  - now injection H as <-.
  - destruct (scan_kick st k) as [st1|] eqn:E; [|discriminate].
    apply (IH st1 st' H). now apply (scan_kick_idle st st1 k).
Qed.

(** After kicks that end closed the segmenter holds no open series. *)
Lemma scan_ends_closed (ks : list BallKick) :
  ends_closed ks ->
  exists st,
    scan_kicks scan_start ks = Some st
    /\ current_series_start st = None
    /\ current_series_start_timestamp st = None
    /\ current_kicks st = 0%Z.
Proof.
  assert (Hstart : consistent scan_start) by (unfold consistent; simpl; tauto).
  intros [->|(p & g & -> & Hg)].
  - exists scan_start. now repeat split.
  - rewrite scan_kicks_app.
    destruct (scan_kicks_total p scan_start Hstart) as (st0 & E0 & Hc0).
    rewrite E0. cbn [scan_kicks].
    pose proof (scan_kicks_idle p scan_start st0 E0 (fun _ => eq_refl)) as Hidle.
    destruct (current_series_start st0) as [f|] eqn:Ef.
    + destruct (current_series_start_timestamp st0) as [t|] eqn:Et.
      * rewrite (scan_ground_open st0 g f t Hg Ef Et).
        eexists. split; [reflexivity|]. now repeat split.
      * exfalso. destruct Hc0 as [_ Hc0]. specialize (Hc0 Et). congruence.
    + rewrite (scan_ground_closed st0 g Hg Ef).
      exists st0. split; [reflexivity|]. split; [exact Ef|].
      split; [now apply Hc0 | now apply Hidle].
Qed.

(** Kicks other than ground events close no series. *)
Lemma scan_no_ground (ks : list BallKick) :
  forall st st',
    Forall (fun k => kick_type k <> "ground"%string) ks ->
    scan_kicks st ks = Some st' -> scanned st' = scanned st.
Proof.
  induction ks as [|k ks IH]; intros st st' Hks H; simpl in H.
  - now injection H as <-.
  - apply Forall_cons_iff in Hks. destruct Hks as [Hk Hks].
    destruct (scan_kick st k) as [st1|] eqn:E; [|discriminate].
    rewrite (IH st1 st' Hks H).
    unfold scan_kick in E.
    destruct (String.eqb (kick_type k) "up").
    + injection E as <-. cbn [scanned].
      now destruct (current_series_start st).
    + destruct (String.eqb (kick_type k) "ground") eqn:Eg.
      * apply String.eqb_eq in Eg. contradiction.
      * now injection E as <-.
Qed.

(** C8. [_analyze_juggling_series] is a fold over the kicks that never
    fails.  Its steps: with no series open an up-kick records its frame and
    timestamp as the start; every up-kick adds one to the open count; a
    ground event on an open series appends
    [JugglingSeries(start_frame, end_frame = its frame, kicks_count = the
    open count, duration = its timestamp - the start timestamp)] and clears
    the open state; with no series open it changes nothing.  Its result:
    no kicks give no series; after kicks that end closed, a run of up-kicks
    [u, ups] followed by a ground event [g] adds exactly the series from
    the frame of [u] to the frame of [g] that counts the kicks of the run
    and lasts from the timestamp of [u] to that of [g]; a ground event with
    no series open adds nothing; and up-kicks left open at the end of the
    input add no series. *)
Theorem series_segmenter_fold :
  forall (self : BallKickAnalyzer) (st : SeriesScan) (k : BallKick),
    _analyze_juggling_series self
    = option_map scanned (scan_kicks scan_start (kicks self))
    /\ (exists found, _analyze_juggling_series self = Some found)
    /\ (kick_type k = "up"%string ->
        exists st',
          scan_kick st k = Some st'
          /\ scanned st' = scanned st
          /\ current_kicks st' = (current_kicks st + 1)%Z
          /\ (current_series_start st = None ->
              current_series_start st' = Some (frame_number k)
              /\ current_series_start_timestamp st' = Some (timestamp k))
          /\ (current_series_start st <> None ->
              current_series_start st' = current_series_start st
              /\ current_series_start_timestamp st'
                 = current_series_start_timestamp st))
    /\ (kick_type k = "ground"%string ->
        forall f t,
          current_series_start st = Some f ->
          current_series_start_timestamp st = Some t ->
          scan_kick st k
          = Some {| scanned := scanned st ++
                      [ {| start_frame := f; end_frame := frame_number k;
                           kicks_count := current_kicks st;
                           duration := Py.double (timestamp k - t) |} ];
                    current_series_start := None;
                    current_kicks := 0;
                    current_series_start_timestamp := None |})
    /\ (kick_type k = "ground"%string ->
        current_series_start st = None ->
        scan_kick st k = Some st)
    /\ _analyze_juggling_series (set_kicks self []) = Some []
    /\ (forall prefix u ups g,
          ends_closed prefix ->
          kick_type u = "up"%string ->
          Forall (fun k => kick_type k = "up"%string) ups ->
          kick_type g = "ground"%string ->
          _analyze_juggling_series (set_kicks self (prefix ++ u :: ups ++ [g]))
          = option_map
              (fun found =>
                 found ++
                 [ {| start_frame := frame_number u;
                      end_frame := frame_number g;
                      kicks_count := Py.len (u :: ups);
                      duration := Py.double (timestamp g - timestamp u) |} ])
              (_analyze_juggling_series (set_kicks self prefix)))
    /\ (forall prefix g,
          ends_closed prefix ->
          kick_type g = "ground"%string ->
          _analyze_juggling_series (set_kicks self (prefix ++ [g]))
          = _analyze_juggling_series (set_kicks self prefix))
    /\ (forall ks ups,
          Forall (fun u => kick_type u = "up"%string) ups ->
          _analyze_juggling_series (set_kicks self (ks ++ ups))
          = _analyze_juggling_series (set_kicks self ks)).
Proof.
  intros self st k.
  assert (Hstart : consistent scan_start) by (unfold consistent; simpl; tauto).
  split; [reflexivity|].
  split; [|split; [|split; [|split; [|split; [|split; [|split]]]]]].
  - unfold _analyze_juggling_series.
    destruct (scan_kicks_total (kicks self) scan_start Hstart) as (st' & -> & _).
    now eexists.
  - intro Hk. eexists. split; [apply (scan_up st k Hk)|].
    cbn [scanned current_kicks current_series_start
         current_series_start_timestamp].
    split; [reflexivity|]. split; [reflexivity|]. split.
    + intros ->. now split.
    + intro Hn. destruct (current_series_start st); [now split | congruence].
  - intros Hk f t. now apply scan_ground_open.
  - now apply scan_ground_closed.
  - reflexivity.
  - intros prefix u ups g Hc Hu Hups Hg. unfold _analyze_juggling_series.
    cbn [kicks set_kicks]. rewrite scan_kicks_app.
    destruct (scan_ends_closed prefix Hc) as (st1 & -> & Hs & Hts & Hk).
    cbn [option_map].
    change (u :: ups ++ [g]) with ((u :: ups) ++ [g]). rewrite scan_kicks_app.
    destruct (scan_ups (u :: ups) st1 (Forall_cons u Hu Hups))
      as (st2 & -> & Hsc & Hkk & Hst & Htss).
    rewrite Hs in Hst, Htss. cbn [hd_error option_map] in Hst, Htss.
    cbn [scan_kicks].
    rewrite (scan_ground_open st2 g (frame_number u) (timestamp u) Hg Hst Htss).
    cbn [option_map scanned]. rewrite Hsc, Hkk, Hk. reflexivity.
  - intros prefix g Hc Hg. unfold _analyze_juggling_series.
    cbn [kicks set_kicks]. rewrite scan_kicks_app.
    destruct (scan_ends_closed prefix Hc) as (st1 & -> & Hs & _).
    cbn [scan_kicks]. now rewrite (scan_ground_closed st1 g Hg Hs).
  - intros ks ups Hups. unfold _analyze_juggling_series.
    cbn [kicks set_kicks]. rewrite scan_kicks_app.
    destruct (scan_kicks_total ks scan_start Hstart) as (st1 & -> & _).
    destruct (scan_ups ups st1 Hups) as (st2 & -> & Hsc & _).
    simpl. now rewrite Hsc.
Qed.

Lemma series_segmenter_fold_witness :
  let u8 := up_kick 8 (8 # 32) (120, 490) 0.8 in
  let u20 := up_kick 20 (20 # 32) (130, 480) 0.7 in
  let g32 := ground_kick 32 (32 # 32) (130, 1000) in
  let g40 := ground_kick 40 (40 # 32) (130, 1000) in
  let u48 := up_kick 48 (48 # 32) (130, 470) 0.7 in
  let opened :=
    {| scanned := []; current_series_start := Some 8%Z; current_kicks := 2;
       current_series_start_timestamp := Some (8 # 32) |} in
  let first :=
    {| start_frame := 8; end_frame := 32; kicks_count := 2;
       duration := Py.double ((32 # 32) - (8 # 32)) |} in
  (exists st', scan_kick scan_start u8 = Some st'
               /\ current_series_start st' = Some 8%Z
               /\ current_kicks st' = 1%Z)
  /\ scan_kick opened g32
     = Some {| scanned := [first];
               current_series_start := None; current_kicks := 0;
               current_series_start_timestamp := None |}
  /\ scan_kick scan_start g32 = Some scan_start
  /\ _analyze_juggling_series (set_kicks __init__ [u8; u20; g32])
     = Some [first]
  /\ _analyze_juggling_series (set_kicks __init__ [u8; u20; g32; g40])
     = Some [first]
  /\ _analyze_juggling_series (set_kicks __init__ [u8; u20; g32; g40; u48])
     = Some [first]
  /\ duration first == 3 # 4.
Proof.
  intros u8 u20 g32 g40 u48 opened first.
  destruct (series_segmenter_fold __init__ scan_start u8)
    as (_ & _ & Hup & _ & _ & Hnil & Hrun & Hidle & Hopen).
  destruct (series_segmenter_fold __init__ opened g32) as (_ & _ & _ & Hclose & _).
  destruct (series_segmenter_fold __init__ scan_start g32)
    as (_ & _ & _ & _ & Hnoop & _).
  assert (H1 : _analyze_juggling_series (set_kicks __init__ [u8; u20; g32])
               = Some [first]).
  { pose proof (Hrun [] u8 [u20] g32 (or_introl eq_refl) eq_refl
                  ltac:(repeat constructor) eq_refl) as H.
    rewrite Hnil in H. exact H. }
  assert (H2 : _analyze_juggling_series (set_kicks __init__ [u8; u20; g32; g40])
               = Some [first]).
  { rewrite <- H1.
    refine (Hidle [u8; u20; g32] g40 _ eq_refl).
    right. exists [u8; u20], g32. now split. }
  split; [|split; [|split; [|split; [|split; [|split]]]]].
  - destruct (Hup eq_refl) as (st' & E & _ & Hk & Hnew & _).
    destruct (Hnew eq_refl) as [Hf _].
    exists st'. split; [exact E|]. split; [exact Hf | exact Hk].
  - exact (Hclose eq_refl 8%Z (8 # 32) eq_refl eq_refl).
  - exact (Hnoop eq_refl eq_refl).
  - exact H1.
  - exact H2.
  - rewrite <- H2.
    refine (Hopen [u8; u20; g32; g40] [u48] _). repeat constructor.
  - vm_compute. reflexivity.
Defined.

End SeriesFacts.

(** ** The kick detector *)

Module DetectorFacts.

Import Utils PyFacts.
Open Scope Q_scope.

Lemma set_series_same (self : BallKickAnalyzer) :
  set_series self (current_series_kicks self) (in_juggling_series self) = self.
Proof. now destruct self. Qed.

Lemma set_series_twice (self : BallKickAnalyzer) (c c' : Z) (a a' : bool) :
  set_series (set_series self c a) c' a' = set_series self c' a'.
Proof. reflexivity. Qed.

Lemma len_pos_not_nil (A : Type) (l : list A) :
  (0 <? Py.len l)%Z = true <-> l <> [].
Proof.
  unfold Py.len. destruct l; simpl; split; intro H; try congruence.
  - discriminate.
  - reflexivity.
Qed.

Section WithAngles.

Variable atan2_degrees : Q -> Q -> Q.

Abbreviation detect_kick := (Utils.detect_kick atan2_degrees).
Abbreviation calculate_trajectory_change :=
  (Utils.calculate_trajectory_change atan2_degrees).

Lemma ground_check_inv self b n t h r self' :
  ground_check self b n t h = (r, self') ->
  (exists c a, self' = set_series self c a)
  /\ forall k, r = Some k ->
       k = ground_kick n t b
       /\ in_juggling_series self = true /\ in_juggling_series self' = false.
Proof.
  unfold ground_check. intro H.
  destruct (is_ball_near_ground self b h && in_juggling_series self) eqn:E;
    injection H as <- <-.
  - split; [now eexists; eexists|].
    intros k Hk. injection Hk as <-.
    apply andb_true_iff in E. now destruct E.
  - split; [|discriminate].
    exists (current_series_kicks self), (in_juggling_series self).
    symmetry. apply set_series_same.
Qed.

(** The foot test of [detect_kick] passes exactly when a foot is visible. *)
Lemma foot_test_iff (self : BallKickAnalyzer) b feet_positions :
  (distance_lt (fst (closest_foot_scan b feet_positions))
     (kick_distance_threshold self)
   && match snd (closest_foot_scan b feet_positions) with
      | Some _ => true
      | None => false
      end
   || (0 <? Py.len feet_positions)%Z) = true
  <-> feet_positions <> [].
Proof.
  split.
  - intros H E. subst feet_positions. discriminate.
  - intro H. apply len_pos_not_nil in H. rewrite H. apply orb_true_r.
Qed.

(** The two ways through [detect_kick]. *)
Lemma detect_kick_no_feet self b n t h :
  detect_kick self b [] n t h = ground_check self b n t h.
Proof. reflexivity. Qed.

Lemma detect_kick_feet self b feet_positions n t h :
  feet_positions <> [] ->
  detect_kick self b feet_positions n t h
  = let min_distance := fst (closest_foot_scan b feet_positions) in
    let velocity_y := snd (calculate_ball_velocity self) in
    let repeated :=
      match Py.last_item (kicks self) with
      | None => false
      | Some last => (n - frame_number last <? min_kick_interval self)%Z
      end in
    if repeated then (None, self)
    else
      let trajectory_change := calculate_trajectory_change self in
      if Py.Qltb (trajectory_change_threshold self) trajectory_change
         && Py.Qltb (velocity_threshold self) (Py.abs velocity_y)
         && Py.Qltb velocity_y 0
      then
        let confidence :=
          kick_confidence self trajectory_change velocity_y min_distance in
        let self2 :=
          set_series self
            ((if in_juggling_series self then current_series_kicks self else 0) + 1)
            true in
        if Qle_bool (min_confidence_threshold self) confidence
        then (Some (up_kick n t b confidence), self2)
        else (None, self2)
      else ground_check self b n t h.
Proof.
  intro Hfeet. unfold Utils.detect_kick.
  pose proof (proj2 (foot_test_iff self b feet_positions) Hfeet) as Hg.
  destruct (closest_foot_scan b feet_positions) as [min_distance closest_foot].
  cbn [fst snd] in *. rewrite Hg. cbv zeta.
  destruct (match Py.last_item (kicks self) with
            | Some last => (n - frame_number last <? min_kick_interval self)%Z
            | None => false
            end); [reflexivity|].
  destruct (Py.Qltb (trajectory_change_threshold self) (calculate_trajectory_change self)
            && Py.Qltb (velocity_threshold self)
                 (Py.abs (snd (calculate_ball_velocity self)))
            && Py.Qltb (snd (calculate_ball_velocity self)) 0); [|reflexivity].
  destruct (in_juggling_series self) eqn:E.
  - rewrite E. reflexivity.
  - reflexivity.
Qed.

Lemma repeated_false_clear (self : BallKickAnalyzer) (n : Z) :
  match Py.last_item (kicks self) with
  | None => false
  | Some last => (n - frame_number last <? min_kick_interval self)%Z
  end = false <-> debounce_clear self n.
Proof.
  unfold debounce_clear.
  destruct (Py.last_item (kicks self)) as [last|].
  - rewrite Z.ltb_ge. split.
    + intros H l E. now injection E as <-.
    + intro H. now apply H.
  - split; [discriminate | reflexivity].
Qed.

(** What a call of [detect_kick] can return and change. *)
Lemma detect_kick_inv self b feet_positions n t h r self' :
  detect_kick self b feet_positions n t h = (r, self') ->
  (exists c a, self' = set_series self c a)
  /\ forall k, r = Some k ->
       frame_number k = n
       /\ (kick_type k = "up"%string \/ k = ground_kick n t b)
       /\ (kick_type k = "up"%string \/ feet_positions <> [] ->
           debounce_clear self n).
Proof.
  intro H. destruct feet_positions as [|foot feet_positions].
  - rewrite detect_kick_no_feet in H.
    destruct (ground_check_inv _ _ _ _ _ _ _ H) as [Hs Hk].
    split; [exact Hs|]. intros k Ek. destruct (Hk k Ek) as (-> & _).
    split; [reflexivity|]. split; [now right|].
    intros [Hup | Hne]; [discriminate Hup | congruence].
  - rewrite detect_kick_feet in H by discriminate. cbv zeta in H.
    destruct (match Py.last_item (kicks self) with
              | Some last => (n - frame_number last <? min_kick_interval self)%Z
              | None => false
              end) eqn:Erep.
    + injection H as <- <-. split; [|discriminate].
      eexists; eexists. symmetry. apply set_series_same.
    + apply repeated_false_clear in Erep.
      match type of H with (if ?g then _ else _) = _ => destruct g end.
      * match type of H with (if ?g then _ else _) = _ => destruct g end;
          injection H as <- <-; (split; [now eexists; eexists|]);
          [|discriminate].
        intros k Ek. injection Ek as <-.
        split; [reflexivity|]. split; [now left|]. now intros _.
      * destruct (ground_check_inv _ _ _ _ _ _ _ H) as [Hs Hk].
        split; [exact Hs|]. intros k Ek. destruct (Hk k Ek) as (-> & _).
        split; [reflexivity|]. split; [now right|]. now intros _.
Qed.

(** C9. A call whose motion test passes (turn above
    [trajectory_change_threshold], vertical speed above
    [velocity_threshold], moving up) with a confidence below
    [min_confidence_threshold] returns [None] and has already set
    [in_juggling_series] and counted the kick in [current_series_kicks]:
    the detector is inside a series although no up-kick was emitted. *)
Theorem detect_kick_silent_series_start :
  forall (self : BallKickAnalyzer) (b : Point) (feet_positions : list Point)
         (n : Z) (t : Q) (h : Z),
    feet_positions <> [] ->
    debounce_clear self n ->
    trajectory_change_threshold self < calculate_trajectory_change self ->
    velocity_threshold self < Py.abs (snd (calculate_ball_velocity self)) ->
    snd (calculate_ball_velocity self) < 0 ->
    kick_confidence self (calculate_trajectory_change self)
      (snd (calculate_ball_velocity self))
      (fst (closest_foot_scan b feet_positions))
    < min_confidence_threshold self ->
    exists self',
      detect_kick self b feet_positions n t h = (None, self')
      /\ in_juggling_series self' = true
      /\ current_series_kicks self'
         = ((if in_juggling_series self then current_series_kicks self else 0) + 1)%Z
      /\ kicks self' = kicks self.
Proof.
  intros self b feet_positions n t h Hfeet Hclear Htc Hv Hup Hconf.
  rewrite (detect_kick_feet self b feet_positions n t h Hfeet). cbv zeta.
  apply repeated_false_clear in Hclear. rewrite Hclear.
  apply Qltb_lt in Htc, Hv, Hup. rewrite Htc, Hv, Hup. cbn [andb].
  assert (Hlow : Qle_bool (min_confidence_threshold self)
            (kick_confidence self (calculate_trajectory_change self)
               (snd (calculate_ball_velocity self))
               (fst (closest_foot_scan b feet_positions))) = false).
  { apply Qltb_lt in Hconf. unfold Py.Qltb in Hconf.
    now apply negb_true_iff in Hconf. }
  rewrite Hlow. eexists. split; [reflexivity|]. now repeat split.
Qed.

(** The confidence of a 30 degree turn at 10 px per frame, 350 px from
    the nearest foot, under the thresholds of [__init__]. *)
Lemma kick_confidence_turn30 (self : BallKickAnalyzer) (tc vy d : Q) :
  kick_distance_threshold self == 400 ->
  tc == 30 -> vy == -10 -> d == 350 * 350 ->
  kick_confidence self tc vy (Some d) == 2 # 3.
Proof.
  intros Hthr Htc Hvy Hd. unfold kick_confidence, distance_lt, sqrt_lt.
  assert (H0 : Py.Qltb 0 (kick_distance_threshold self) = true).
  { apply Qltb_lt. rewrite Hthr. reflexivity. }
  assert (H1 : Py.Qltb d (kick_distance_threshold self * kick_distance_threshold self)
               = true).
  { apply Qltb_lt. rewrite Hthr, Hd. reflexivity. }
  rewrite H0, H1. cbn [andb].
  assert (Et : tc / 45.0 == 30 / 45.0) by now rewrite Htc.
  assert (Ev : Py.abs vy / 20.0 == Py.abs (-10) / 20.0)
    by now rewrite (abs_comp vy (-10) Hvy).
  rewrite (min_comp 1.0 1.0 _ _ (Qeq_refl 1.0) Et).
  rewrite (min_comp 1.0 1.0 _ _ (Qeq_refl 1.0) Ev).
  vm_compute. reflexivity.
Qed.

(** C3, as the code has it.  For a trajectory change of 30 degrees, a
    vertical velocity of -10 and the nearest foot at 350 px (inside the
    400 px threshold) the confidence is
    [(0.4*(30/45) + 0.4*(10/20) + 0.2*1.0)*1.0 = 2/3], about 0.6667, which is
    not below the 0.6 threshold: [detect_kick] emits an up-kick with that
    confidence. *)
Theorem detect_kick_turn30_emits_up :
  forall (self : BallKickAnalyzer) (b : Point) (feet_positions : list Point)
         (n : Z) (t : Q) (h : Z) (d : Q),
    kick_distance_threshold self == 400 ->
    velocity_threshold self == 8 ->
    trajectory_change_threshold self == 25 ->
    min_confidence_threshold self == 0.6 ->
    feet_positions <> [] ->
    debounce_clear self n ->
    calculate_trajectory_change self == 30 ->
    snd (calculate_ball_velocity self) == -10 ->
    fst (closest_foot_scan b feet_positions) = Some d ->
    d == 350 * 350 ->
    exists c self',
      detect_kick self b feet_positions n t h = (Some (up_kick n t b c), self')
      /\ c == 2 # 3
      /\ min_confidence_threshold self <= c.
Proof.
  intros self b feet_positions n t h d Hd Hv Ht Hc Hfeet Hclear Htc Hvy Hmin Hdist.
  pose proof (kick_confidence_turn30 self _ _ d Hd Htc Hvy Hdist) as Hconf.
  rewrite (detect_kick_feet self b feet_positions n t h Hfeet). cbv zeta.
  apply repeated_false_clear in Hclear. rewrite Hclear, Hmin.
  assert (H1 : Py.Qltb (trajectory_change_threshold self)
                 (calculate_trajectory_change self) = true).
  { apply Qltb_lt. rewrite Ht, Htc. reflexivity. }
  assert (H2 : Py.Qltb (velocity_threshold self)
                 (Py.abs (snd (calculate_ball_velocity self))) = true).
  { apply Qltb_lt. rewrite Hv, (abs_comp _ _ Hvy). reflexivity. }
  assert (H3 : Py.Qltb (snd (calculate_ball_velocity self)) 0 = true).
  { apply Qltb_lt. rewrite Hvy. reflexivity. }
  assert (H4 : min_confidence_threshold self
               <= kick_confidence self (calculate_trajectory_change self)
                    (snd (calculate_ball_velocity self)) (Some d)).
  { rewrite Hc, Hconf. vm_compute. discriminate. }
  rewrite H1, H2, H3. cbn [andb].
  pose proof H4 as H5. apply Qle_bool_iff in H5. rewrite H5.
  eexists. eexists. split; [reflexivity|]. split; [exact Hconf | exact H4].
Qed.

End WithAngles.

Lemma detect_kick_silent_series_start_witness :
  in_juggling_series Samples.faint_state = false
  /\ exists self',
       Utils.detect_kick Samples.atan2_degrees Samples.faint_state
         (120, 490) [(1000, 490)] 8 (8 # 30) 1080 = (None, self')
       /\ in_juggling_series self' = true
       /\ current_series_kicks self' = 1%Z.
Proof.
  split; [reflexivity|].
  destruct (detect_kick_silent_series_start Samples.atan2_degrees
              Samples.faint_state (120, 490) [(1000, 490)] 8 (8 # 30) 1080)
    as (self' & E & Hs & Hc & _).
  - discriminate.
  - intros last Hl. discriminate Hl.
  - vm_compute. reflexivity.
  - vm_compute. reflexivity.
  - vm_compute. reflexivity.
  - vm_compute. reflexivity.
  - exists self'. split; [exact E|]. split; [exact Hs | exact Hc].
Defined.

Lemma detect_kick_turn30_emits_up_witness :
  exists c self',
    Utils.detect_kick Samples.atan2_degrees Samples.turn30_state
      Samples.turn30_ball Samples.turn30_feet 8 (8 # 30) 1080
    = (Some (up_kick 8 (8 # 30) Samples.turn30_ball c), self')
    /\ c == 2 # 3.
Proof.
  destruct (detect_kick_turn30_emits_up Samples.atan2_degrees
              Samples.turn30_state Samples.turn30_ball Samples.turn30_feet
              8 (8 # 30) 1080
              (sq_distance Samples.turn30_ball (64 + Samples.vx_150, 840)))
    as (c & self' & E & Hc & _).
  - reflexivity.
  - reflexivity.
  - reflexivity.
  - reflexivity.
  - discriminate.
  - intros last Hl. discriminate Hl.
  - vm_compute. reflexivity.
  - vm_compute. reflexivity.
  - reflexivity.
  - vm_compute. reflexivity.
  - exists c, self'. split; [exact E | exact Hc].
Defined.

(** C3 as stated fails: at a 30 degree turn, vertical velocity -10 and a
    foot at 350 px the confidence is 2/3, neither 0.4667 nor below 0.6, and
    the call returns an up-kick; the clip with these positions ends with one
    up-kick on its frame 8. *)
Lemma turn30_is_emitted :
  Utils.calculate_trajectory_change Samples.atan2_degrees Samples.turn30_state
  == 30
  /\ snd (calculate_ball_velocity Samples.turn30_state) == -10
  /\ (exists d,
        fst (closest_foot_scan Samples.turn30_ball Samples.turn30_feet) = Some d
        /\ d == 350 * 350
        /\ kick_confidence Samples.turn30_state 30 (-10) (Some d) == 2 # 3
        /\ ~ kick_confidence Samples.turn30_state 30 (-10) (Some d) == 0.4667
        /\ ~ kick_confidence Samples.turn30_state 30 (-10) (Some d) < 0.6)
  /\ option_map kick_type
       (fst (Utils.detect_kick Samples.atan2_degrees Samples.turn30_state
               Samples.turn30_ball Samples.turn30_feet 8 (8 # 30) 1080))
     = Some "up"%string
  /\ option_map
       (fun r => map (fun k => (frame_number k, kick_type k))
                   (analysis_kicks (fst r)))
       (analyze_video Samples.atan2_degrees __init__ Samples.turn30_video 0 1)
     = Some [(8%Z, "up"%string)].
Proof.
  split; [vm_compute; reflexivity|].
  split; [vm_compute; reflexivity|].
  split.
  - eexists. split; [reflexivity|].
    split; [vm_compute; reflexivity|].
    split; [vm_compute; reflexivity|].
    split; intro H; vm_compute in H; discriminate.
  - split; vm_compute; reflexivity.
Qed.

(** C1, at the failing input.  In [faint_kick_video] the third processed
    frame passes the motion test with confidence 0.49: no up-kick is
    returned, but [in_juggling_series] is set.  The next processed frame
    finds the ball on the ground and emits a ground event: the only event of
    the run, with no up-kick before it, and no series. *)
Theorem faint_kick_ground_without_up :
  option_map
    (fun r => (map (fun k => (frame_number k, kick_type k))
                 (analysis_kicks (fst r)),
               total_kicks (fst r), series (fst r)))
    (analyze_video Samples.atan2_degrees __init__ Samples.faint_kick_video 0 1)
  = Some ([(12%Z, "ground"%string)], 0%Z, []).
Proof. vm_compute. reflexivity. Qed.


End DetectorFacts.

(** ** The frame loop *)

Module RunFacts.

Import Utils PyFacts DetectorFacts.
Open Scope Q_scope.

Lemma last_item_pop_front (A : Type) (l : list A) :
  (1 < length l)%nat -> Py.last_item (Py.pop_front l) = Py.last_item l.
Proof.
  destruct l as [|x [|y l]]; simpl; try lia. intros _.
  destruct (last_item_some_inv _ (y :: l) (last (y :: l) y)) as [l' E].
  - rewrite (app_removelast_last y (l := y :: l)) at 1 by discriminate.
    apply last_item_snoc.
  - unfold Py.pop_front. cbn [tl]. rewrite E.
    change (x :: l' ++ [last (y :: l) y]) with ((x :: l') ++ [last (y :: l) y]).
    now rewrite !last_item_snoc.
Qed.


(** The progress report changes nothing when it does not fail. *)
Lemma report_progress_some (total n : Z) (self self' : BallKickAnalyzer) :
  report_progress total n self = Some self' -> self = self'.
Proof.
  unfold report_progress. intro H.
  destruct (n mod 30 =? 0)%Z; [destruct (total =? 0)%Z; [discriminate|]|];
    now injection H.
Qed.

Section WithAngles.

Variable atan2_degrees : Q -> Q -> Q.

Abbreviation process_frame := (Utils.process_frame atan2_degrees).
Abbreviation frame_loop := (Utils.frame_loop atan2_degrees).
Abbreviation analyze_video := (Utils.analyze_video atan2_degrees).

(** What one turn of the loop can change: the parameters never, the kicks
    by at most one emitted at this frame number, and the remembered ball
    position only together with the ball history. *)
Lemma process_frame_inv self fps tf h n frame self' :
  process_frame self fps tf h n frame = Some self' ->
  min_kick_interval self' = min_kick_interval self
  /\ (kicks self' = kicks self
      \/ exists k,
           kicks self' = kicks self ++ [k] /\ frame_number k = n
           /\ (kick_type k = "up"%string \/ feet frame <> [] ->
               debounce_clear self n))
  /\ ((ball_history self' = ball_history self
       /\ last_ball_position self' = last_ball_position self)
      \/ (last_ball_position self' = Py.last_item (ball_history self')
          /\ ball_history self' <> [])).
Proof.
  unfold Utils.process_frame. intro H.
  destruct (frame_skip self =? 0)%Z; [discriminate|].
  destruct (negb (n mod frame_skip self =? 0)%Z);
    [injection H as <-; repeat split; auto|].
  destruct (ball_detection frame) as [[[x y] conf]|];
    [|injection H as <-; repeat split; auto].
  destruct (match last_ball_position self with
            | Some last => sqrt_lt (sq_distance (x, y) last)
                             (ball_movement_threshold self)
            | None => false
            end); [injection H as <-; repeat split; auto|].
  cbv zeta in H.
  set (bh0 := ball_history (set_last_ball_position self (Some (x, y))) ++ [(x, y)]) in *.
  set (bh := if (10 <? Py.len bh0)%Z then Py.pop_front bh0 else bh0) in *.
  assert (Hbh : Py.last_item bh = Some (x, y) /\ bh <> []).
  { assert (H0 : Py.last_item bh0 = Some (x, y)) by apply last_item_snoc.
    unfold bh. destruct (10 <? Py.len bh0)%Z eqn:E.
    - apply Z.ltb_lt in E. unfold Py.len in E.
      rewrite last_item_pop_front by lia. split; [exact H0|].
      destruct bh0 as [|a [|b bh1]]; simpl in *; try lia. discriminate.
    - split; [exact H0|]. unfold bh0. now destruct (ball_history _). }
  destruct Hbh as [Hlast Hne].
  apply report_progress_some in H.
  match type of H with
  | (if ?c then _ else _) = _ => destruct c
  end.
  - match type of H with
    | match ?d with _ => _ end = _ => destruct d as [r self4] eqn:Ed
    end.
    destruct (detect_kick_inv _ _ _ _ _ _ _ _ _ Ed) as [(c & a & ->) Hk].
    destruct r as [k|]; subst self'.
    + destruct (Hk k eq_refl) as (Hn & _ & Hdeb).
      split; [reflexivity|]. split.
      * right. exists k. split; [reflexivity|]. split; [exact Hn|].
        intro Hg. exact (Hdeb Hg).
      * right. split; [symmetry; exact Hlast | exact Hne].
    + split; [reflexivity|]. split; [now left|].
      right. split; [symmetry; exact Hlast | exact Hne].
  - subst self'. split; [reflexivity|]. split; [now left|].
    right. split; [symmetry; exact Hlast | exact Hne].
Qed.




Lemma frame_loop_tracks frames :
  forall self self' fps tf h n (p0 : option Point),
    frame_loop self fps tf h n frames = Some self' ->
    (ball_history self = [] /\ last_ball_position self = p0)
    \/ (last_ball_position self = Py.last_item (ball_history self)
        /\ ball_history self <> []) ->
    (ball_history self' = [] /\ last_ball_position self' = p0)
    \/ (last_ball_position self' = Py.last_item (ball_history self')
        /\ ball_history self' <> []).
Proof.
  induction frames as [|frame frames IH]; intros self self' fps tf h n p0 Hloop Ht.
  - simpl in Hloop. now injection Hloop as <-.
  - simpl in Hloop.
    destruct (process_frame self fps tf h n frame) as [self1|] eqn:Estep;
      [|discriminate].
    apply (IH self1 self' fps tf h (n + 1)%Z p0 Hloop).
    destruct (process_frame_inv _ _ _ _ _ _ _ Estep) as (_ & _ & [[Eb El]|Hr]).
    + rewrite Eb, El. exact Ht.
    + now right.
Qed.

(** C10. A run of [analyze_video] starts from the five reset attributes
    whatever they held, so its result does not depend on them.
    [last_ball_position] is not among them: when it holds a position, a
    first frame whose ball lies within [ball_movement_threshold] of it is
    skipped, where an analyzer without a remembered position processes that
    frame; and the position a run leaves behind is the one of the last frame
    it processed (the one it started with, if it processed none). *)
Theorem analyze_video_keeps_last_ball_position :
  forall (self : BallKickAnalyzer) (video : Video) (t0 t1 : Q),
    (forall bh vh ks c a,
       analyze_video (set_series (set_kicks (set_histories self bh vh) ks) c a)
         video t0 t1
       = analyze_video self video t0 t1)
    /\ (forall fps tf h p x y conf feet_positions rest,
          last_ball_position self = Some p ->
          frame_skip self <> 0%Z ->
          sqrt_lt (sq_distance (x, y) p) (ball_movement_threshold self) = true ->
          frame_loop (reset_run self) fps tf h 0
            ({| ball_detection := Some (x, y, conf); feet := feet_positions |}
               :: rest)
          = frame_loop (reset_run self) fps tf h 1 rest)
    /\ (forall fps tf h x y conf feet_positions,
          last_ball_position self = None ->
          frame_skip self <> 0%Z ->
          exists self1,
            process_frame (reset_run self) fps tf h 0
              {| ball_detection := Some (x, y, conf); feet := feet_positions |}
            = Some self1
            /\ ball_history self1 = [(x, y)]
            /\ last_ball_position self1 = Some (x, y))
    /\ (forall analysis self',
          analyze_video self video t0 t1 = Some (analysis, self') ->
          (ball_history self' = []
           /\ last_ball_position self' = last_ball_position self)
          \/ (last_ball_position self' = Py.last_item (ball_history self')
              /\ ball_history self' <> [])).
Proof.
  intros self video t0 t1. split; [|split; [|split]].
  - intros bh vh ks c a. reflexivity.
  - intros fps tf h p x y conf feet_positions rest Hp Hskip Hnear.
    cbn [Utils.frame_loop]. unfold Utils.process_frame.
    cbn [frame_skip last_ball_position ball_movement_threshold reset_run
         set_series set_kicks set_histories ball_detection].
    apply Z.eqb_neq in Hskip. rewrite Hskip, Hp, Hnear.
    rewrite Zmod_0_l. reflexivity.
  - intros fps tf h x y conf feet_positions Hp Hskip.
    unfold Utils.process_frame.
    cbn [frame_skip last_ball_position ball_movement_threshold reset_run
         set_series set_kicks set_histories ball_detection].
    apply Z.eqb_neq in Hskip. rewrite Hskip, Hp. rewrite Zmod_0_l.
    cbn. destruct (velocity_history_size self <? 1)%Z; cbn;
      eexists; split; try reflexivity; now split.
  - intros analysis self' Hrun.
    unfold Utils.analyze_video in Hrun.
    match type of Hrun with
    | match ?l with _ => _ end = _ => destruct l as [self1|] eqn:Eloop
    end; [|discriminate].
    destruct (_analyze_juggling_series self1); [|discriminate].
    injection Hrun as _ <-.
    apply (frame_loop_tracks _ _ _ _ _ _ _ (last_ball_position self) Eloop).
    left. split; reflexivity.
Qed.

End WithAngles.


(** The analyzer that has run [early_ground_feet_video]. *)
Lemma analyze_video_keeps_last_ball_position_witness :
  exists used,
    option_map snd
      (Utils.analyze_video Samples.atan2_degrees __init__
         Samples.early_ground_feet_video 0 1) = Some used
    /\ last_ball_position used = Some (120, 1000)
    /\ Utils.frame_loop Samples.atan2_degrees (reset_run used) 30
         (cap_frame_count Samples.second_video) 1080 0
         (cap_frames Samples.second_video)
       = Utils.frame_loop Samples.atan2_degrees (reset_run used) 30
           (cap_frame_count Samples.second_video) 1080 1
           (tl (cap_frames Samples.second_video))
    /\ option_map (fun r => total_kicks (fst r))
         (Utils.analyze_video Samples.atan2_degrees used Samples.second_video 0 1)
       = Some 0%Z
    /\ option_map (fun r => total_kicks (fst r))
         (Utils.analyze_video Samples.atan2_degrees __init__
            Samples.second_video 0 1)
       = Some 1%Z.
Proof.
  destruct (Utils.analyze_video Samples.atan2_degrees __init__
              Samples.early_ground_feet_video 0 1) as [[analysis used]|] eqn:E;
    [|vm_compute in E; discriminate].
  exists used. split; [reflexivity|].
  destruct (analyze_video_keeps_last_ball_position Samples.atan2_degrees
              used Samples.second_video 0 1) as (_ & Hskip & _ & _).
  vm_compute in E. injection E as _ <-.
  split; [reflexivity|]. split.
  - apply (Hskip 30 (cap_frame_count Samples.second_video) 1080%Z
             (120, 1000) 121 999 0.9).
    + reflexivity.
    + discriminate.
    + vm_compute. reflexivity.
  - split; vm_compute; reflexivity.
Defined.

End RunFacts.

(** * Further properties *)

(** ** The leaderboard *)

Module LeaderboardFacts.

Import TopResults ApiServer PyFacts TopResultsFacts.
Open Scope Q_scope.

(** *** Rounding and the score *)

Lemma max_one_mono (pt pt' : Q) : pt <= pt' -> Py.max pt 1 <= Py.max pt' 1.
Proof.
  intro H. unfold Py.max.
  destruct (Py.Qltb pt 1) eqn:E; destruct (Py.Qltb pt' 1) eqn:E';
    try apply Qltb_lt in E; try apply Qltb_ge in E;
    try apply Qltb_lt in E'; try apply Qltb_ge in E'; lra.
Qed.

Lemma div_mono (a a' m m' : Q) :
  0 <= a -> a <= a' -> 1 <= m' -> m' <= m -> a / m <= a' / m'.
Proof.
  intros Ha Haa Hm' Hm.
  assert (Hpos : 0 < m) by lra. assert (Hpos' : 0 < m') by lra.
  apply Qle_shift_div_r; [exact Hpos|].
  assert (Hq : 0 <= a' / m').
  { apply Qle_shift_div_l; [exact Hpos' | lra]. }
  assert (E : a' == a' / m' * m') by (field; lra).
  assert (a' / m' * m' <= a' / m' * m).
  { rewrite !(Qmult_comm (a' / m')). apply Qmult_le_compat_r; assumption. }
  lra.
Qed.

(** X1. The score never drops when a result has more kicks, a longer best
    series (in kicks or in seconds) or a shorter processing time, everything
    else equal or better; [total_kicks] is a count, so not negative. *)
Theorem score_monotone :
  forall (self self' : TopResultsManager) (tk tk' ts ts' bsk bsk' : Z)
         (bsd bsd' pt pt' : Q),
    (0 <= tk)%Z -> (tk <= tk')%Z -> (bsk <= bsk')%Z ->
    bsd <= bsd' -> pt' <= pt ->
    _calculate_score self tk ts bsk bsd pt
    <= _calculate_score self' tk' ts' bsk' bsd' pt'.
Proof.
  intros self self' tk tk' ts ts' bsk bsk' bsd bsd' pt pt' H0 Htk Hbsk Hbsd Hpt.
  unfold _calculate_score, Py.float. apply round_mono.
  (* every operation keeps the order, and so does its rounding *)
  assert (Ha : Py.double (inject_Z (tk * 10)) <= Py.double (inject_Z (tk' * 10)))
    by (apply double_mono; rewrite <- Zle_Qle; lia).
  assert (Hb : Py.double (inject_Z (bsk * 20)) <= Py.double (inject_Z (bsk' * 20)))
    by (apply double_mono; rewrite <- Zle_Qle; lia).
  assert (Hc : Py.double (bsd * 5) <= Py.double (bsd' * 5))
    by (apply double_mono; lra).
  assert (Ht0 : 0 <= Py.double (inject_Z tk)).
  { apply double_nonneg. change 0 with (inject_Z 0). now rewrite <- Zle_Qle. }
  assert (Ht : Py.double (inject_Z tk) <= Py.double (inject_Z tk'))
    by (apply double_mono; now rewrite <- Zle_Qle).
  assert (Hq : Py.double (Py.double (inject_Z tk) / Py.max pt 1)
               <= Py.double (Py.double (inject_Z tk') / Py.max pt' 1)).
  { apply double_mono. apply div_mono; trivial.
    - apply max_one_pos.
    - now apply max_one_mono. }
  assert (Hp : Py.double (pt' * Py.double 0.1) <= Py.double (pt * Py.double 0.1)).
  { apply double_mono. apply Qmult_le_compat_r; [exact Hpt|].
    apply double_nonneg. discriminate. }
  set (a := Py.double (inject_Z (tk * 10))) in *.
  set (a' := Py.double (inject_Z (tk' * 10))) in *.
  set (b := Py.double (inject_Z (bsk * 20))) in *.
  set (b' := Py.double (inject_Z (bsk' * 20))) in *.
  set (c := Py.double (bsd * 5)) in *. set (c' := Py.double (bsd' * 5)) in *.
  set (q := Py.double (Py.double (inject_Z tk) / Py.max pt 1)) in *.
  set (q' := Py.double (Py.double (inject_Z tk') / Py.max pt' 1)) in *.
  set (p := Py.double (pt * Py.double 0.1)) in *.
  set (p' := Py.double (pt' * Py.double 0.1)) in *.
  assert (Hsb : Py.double (b + c) <= Py.double (b' + c'))
    by (apply double_mono; lra).
  set (sb := Py.double (b + c)) in *. set (sb' := Py.double (b' + c')) in *.
  assert (He : Py.double (q * 50) <= Py.double (q' * 50))
    by (apply double_mono; lra).
  set (e := Py.double (q * 50)) in *. set (e' := Py.double (q' * 50)) in *.
  assert (Hs1 : Py.double (a + sb) <= Py.double (a' + sb'))
    by (apply double_mono; lra).
  set (s1 := Py.double (a + sb)) in *. set (s1' := Py.double (a' + sb')) in *.
  assert (Hs2 : Py.double (s1 + e) <= Py.double (s1' + e'))
    by (apply double_mono; lra).
  set (s2 := Py.double (s1 + e)) in *. set (s2' := Py.double (s1' + e')) in *.
  apply double_mono. lra.
Qed.

Lemma score_monotone_witness :
  _calculate_score Samples.full_board 10 2 4 3 60
  <= _calculate_score Samples.open_board 12 3 5 (7 # 2) 45.
Proof.
  apply score_monotone.
  - lia.
  - lia.
  - lia.
  - vm_compute. discriminate.
  - vm_compute. discriminate.
Defined.

(** *** [add_result] *)

(** X2. [add_result] raises (the [IndexError] of [self.results[-1]]) exactly
    on an empty leaderboard whose [max_results] is zero or negative; in
    every other state it returns. *)
Theorem add_result_raises_iff :
  forall (self : TopResultsManager) (now name : string) (tk ts bsk : Z)
         (bsd pt : Q),
    add_result self now name tk ts bsk bsd pt = None
    <-> results self = [] /\ (max_results self <= 0)%Z.
Proof.
  intros self now name tk ts bsk bsd pt. unfold add_result. split.
  - destruct (Py.len (results self) <? max_results self)%Z eqn:E; [discriminate|].
    destruct (Py.last_item (results self)) as [worst|] eqn:El.
    + destruct (Py.Qltb _ _); discriminate.
    + intros _. apply last_item_nil_inv in El. split; [exact El|].
      apply Z.ltb_ge in E. rewrite El in E. exact E.
  - intros [E Hmax]. rewrite E. cbn [Py.len length Z.of_nat].
    apply Z.ltb_ge in Hmax. rewrite Hmax. reflexivity.
Qed.

Lemma add_result_raises_iff_witness :
  add_result (TopResults.__init__ [] 0) "t" "a.mp4" 3 1 3 2 10 = None
  /\ add_result (TopResults.__init__ [] 1) "t" "a.mp4" 3 1 3 2 10 <> None.
Proof.
  split.
  - apply add_result_raises_iff. split; [reflexivity | vm_compute; discriminate].
  - intro H. apply add_result_raises_iff in H. destruct H as [_ H].
    vm_compute in H. now apply H.
Defined.

(** X3. A sorted leaderboard never shrinks and, once full, never gets
    worse: an accepted call adds one entry while there is room and keeps the
    length when full, a rejected call changes nothing, and on a full
    leaderboard every entry present after the call scores at least as much
    as the lowest entry before it. *)
Theorem add_result_never_worse :
  forall (self self' : TopResultsManager) (now name : string) (tk ts bsk : Z)
         (bsd pt : Q) (accepted : bool),
    sorted_desc (results self) ->
    add_result self now name tk ts bsk bsd pt = Some (accepted, self') ->
    Py.len (results self')
    = (if (Py.len (results self) <? max_results self)%Z
       then Py.len (results self) + 1 else Py.len (results self))%Z
    /\ (accepted = false -> self' = self)
    /\ ((max_results self <= Py.len (results self))%Z ->
        forall worst,
          Py.last_item (results self) = Some worst ->
          Forall (fun e => score worst <= score e) (results self')).
Proof.
  intros self self' now name tk ts bsk bsd pt accepted Hs Hadd.
  set (new := new_result self now name tk ts bsk bsd pt).
  destruct (Py.len (results self) <? max_results self)%Z eqn:Eroom.
  - apply Z.ltb_lt in Eroom.
    rewrite (add_result_room self now name tk ts bsk bsd pt Eroom) in Hadd.
    injection Hadd as <- <-.
    cbn [results _save_results _sort_results set_results].
    split; [|split; [discriminate | lia]].
    unfold Py.len. rewrite sort_length, length_app. simpl. lia.
  - apply Z.ltb_ge in Eroom.
    destruct (Py.last_item (results self)) as [worst|] eqn:El.
    + pose proof El as El'. apply last_item_some_inv in El'.
      destruct El' as [rest El'].
      rewrite (add_result_full self now name tk ts bsk bsd pt rest worst
                 Eroom El') in Hadd.
      fold new in Hadd.
      pose proof Hs as Hlow. rewrite El' in Hlow.
      apply sorted_last_lowest in Hlow. apply Forall_app in Hlow.
      destruct Hlow as [Hrest _].
      destruct (Py.Qltb (score worst) (score new)) eqn:Elt;
        injection Hadd as <- <-.
      * apply Qltb_lt in Elt.
        cbn [results _save_results _sort_results set_results].
        split; [|split; [discriminate|]].
        -- unfold Py.len. rewrite sort_length, El', !length_app. reflexivity.
        -- intros _ w Hw. injection Hw as <-.
           eapply Permutation_Forall; [apply sort_perm|].
           apply Forall_app. split; [exact Hrest|].
           constructor; [now apply Qlt_le_weak | constructor].
      * split; [reflexivity|]. split; [reflexivity|].
        intros _ w Hw. injection Hw as <-.
        rewrite El'. apply sorted_last_lowest. now rewrite <- El'.
    + unfold add_result in Hadd. apply Z.ltb_ge in Eroom.
      rewrite Eroom, El in Hadd. discriminate.
Qed.

Lemma add_result_never_worse_witness :
  exists self',
    add_result Samples.full_board "t3" "d.mp4" 1 0 0 3 0 = Some (true, self')
    /\ Py.len (results self') = 2%Z
    /\ Forall (fun e => 50 <= score e) (results self').
Proof.
  destruct (add_result Samples.full_board "t3" "d.mp4" 1 0 0 3 0)
    as [[accepted self']|] eqn:E; [|vm_compute in E; discriminate].
  assert (Hs : sorted_desc (results Samples.full_board)).
  { repeat constructor. vm_compute. discriminate. }
  destruct (add_result_never_worse Samples.full_board self' "t3" "d.mp4"
              1 0 0 3 0 accepted Hs E) as (Hlen & _ & Hlow).
  specialize (Hlow ltac:(vm_compute; discriminate)
                (Samples.entry "b.mp4" 50) eq_refl).
  exists self'. split.
  - vm_compute in E. injection E as <- <-. reflexivity.
  - split; [exact Hlen | exact Hlow].
Defined.

(** X4. The file always holds what the manager holds: in every reachable
    state the last written record is the current leaderboard (or nothing was
    written and the leaderboard is empty), so a manager restarted on the file
    has exactly the same results. *)
Theorem restart_restores_results :
  forall (max : Z) (self : TopResultsManager),
    (0 <= max)%Z ->
    reachable max self ->
    results (TopResults.__init__ (storage_file self) max) = results self
    /\ (Py.last_item (storage_file self) = Some (results self)
        \/ (storage_file self = [] /\ results self = [])).
Proof.
  intros max self Hmax Hreach.
  destruct (reachable_inv max self Hmax Hreach) as (_ & [_ Hs] & Hst).
  split; [|exact Hst].
  unfold TopResults.__init__. destruct Hst as [Hst | [E1 E2]].
  - rewrite Hst. cbn [results _sort_results set_results]. now apply sort_id.
  - rewrite E1, E2. reflexivity.
Qed.

Lemma restart_restores_results_witness :
  exists self,
    reachable 2 self
    /\ map TopResults.video_name (results self) = ["a.mp4"; "b.mp4"]%string
    /\ results (TopResults.__init__ (storage_file self) 2) = results self.
Proof.
  pose (s0 := TopResults.__init__ [] 2).
  destruct (add_result s0 "t1" "b.mp4" 0 0 2 2 0) as [[a1 s1]|] eqn:E1;
    [|vm_compute in E1; discriminate].
  destruct (add_result s1 "t2" "a.mp4" 1 0 0 3 0) as [[a2 s2]|] eqn:E2;
    [|vm_compute in E1; injection E1 as <- <-; vm_compute in E2; discriminate].
  assert (R : reachable 2 s2).
  { eapply reach_add; [|exact E2]. eapply reach_add; [|exact E1].
    apply reach_fresh. }
  exists s2. split; [exact R|].
  destruct (restart_restores_results 2 s2 ltac:(lia) R) as [Hr _].
  split; [|exact Hr].
  vm_compute in E1; injection E1 as <- <-.
  vm_compute in E2; injection E2 as <- <-. reflexivity.
Defined.

(** *** Reading the leaderboard *)

Lemma slice_to_prefix (A : Type) (l : list A) (limit : Z) :
  exists tail, l = Py.slice_to l limit ++ tail.
Proof.
  unfold Py.slice_to. destruct (0 <=? limit)%Z.
  - exists (skipn (Z.to_nat limit) l). symmetry. apply firstn_skipn.
  - exists (skipn (length l - Z.to_nat (- limit)) l). symmetry.
    apply firstn_skipn.
Qed.

Lemma slice_to_length (A : Type) (l : list A) (limit : Z) :
  Py.len (Py.slice_to l limit)
  = (if (0 <=? limit)%Z then Z.min limit (Py.len l)
     else Z.max 0 (Py.len l + limit))%Z.
Proof.
  unfold Py.slice_to, Py.len. destruct (0 <=? limit)%Z eqn:E.
  - apply Z.leb_le in E. rewrite length_firstn. lia.
  - apply Z.leb_gt in E. rewrite length_firstn. lia.
Qed.

(** X5. [get_top_results] returns a prefix of the leaderboard for every
    limit: the first [limit] entries (all of them when there are fewer) for
    a limit of zero or more, all but the last [-limit] for a negative one,
    and the first [max_results] by default, which is the whole leaderboard
    when it is within its bound.  On a sorted leaderboard no entry left out
    scores more than an entry returned. *)
Theorem get_top_results_prefix :
  forall (self : TopResultsManager) (limit : option Z),
    (exists tail,
       results self = get_top_results self limit ++ tail
       /\ (sorted_desc (results self) ->
           Forall (fun a => Forall (fun b => score b <= score a) tail)
             (get_top_results self limit)))
    /\ (forall n, limit = Some n ->
        Py.len (get_top_results self limit)
        = (if (0 <=? n)%Z then Z.min n (Py.len (results self))
           else Z.max 0 (Py.len (results self) + n))%Z)
    /\ (limit = None ->
        (Py.len (results self) <= max_results self)%Z ->
        get_top_results self limit = results self).
Proof.
  intros self limit. split; [|split].
  - unfold get_top_results.
    destruct (slice_to_prefix _ (results self)
                (match limit with Some n => n | None => max_results self end))
      as [tail E].
    exists tail. split; [exact E|].
    intro Hs. rewrite E in Hs. now apply sorted_desc_app_inv in Hs.
  - intros n ->. unfold get_top_results. apply slice_to_length.
  - intros -> Hb. unfold get_top_results, Py.slice_to, Py.len in *.
    destruct (0 <=? max_results self)%Z eqn:E.
    + apply firstn_all2. lia.
    + apply Z.leb_gt in E. lia.
Qed.

Lemma get_top_results_prefix_witness :
  Py.len (get_top_results Samples.full_board (Some 1%Z)) = 1%Z
  /\ Py.len (get_top_results Samples.full_board (Some (-1)%Z)) = 1%Z
  /\ get_top_results Samples.full_board None = results Samples.full_board.
Proof.
  destruct (get_top_results_prefix Samples.full_board (Some 1%Z)) as (_ & H1 & _).
  destruct (get_top_results_prefix Samples.full_board (Some (-1)%Z))
    as (_ & H2 & _).
  destruct (get_top_results_prefix Samples.full_board None) as (_ & _ & H3).
  split; [exact (H1 _ eq_refl)|]. split; [exact (H2 _ eq_refl)|].
  apply H3; [reflexivity | vm_compute; discriminate].
Defined.

(** X6. The [/results] endpoint has two answers and no other: status 400
    exactly for a non-zero limit below 1 or above 30, and otherwise (no
    limit, a limit of 0, or a limit from 1 to 30) the entries of
    [get_top_results] for that limit, which for a limit from 1 to 30 are at
    most that many. *)
Theorem get_results_answers :
  forall (top : TopResultsManager) (limit : option Z),
    (get_results top limit = error_response 400
     /\ exists n, limit = Some n /\ n <> 0%Z /\ (n < 1 \/ 30 < n)%Z)
    \/ (get_results top limit = success_response (get_top_results top limit)
        /\ (limit = None \/ limit = Some 0%Z
            \/ exists n, limit = Some n /\ (1 <= n <= 30)%Z
                         /\ (Py.len (get_top_results top limit) <= n)%Z)).
Proof.
  intros top [n|].
  - destruct (Z.eq_dec n 0) as [->|Hn].
    + right. split; [reflexivity|]. right. now left.
    + destruct (Z_lt_ge_dec n 1) as [H1|H1].
      * left. split; [apply ApiServerFacts.get_results_out_of_range; lia|].
        exists n. repeat split; trivial. now left.
      * destruct (Z_lt_ge_dec 30 n) as [H2|H2].
        -- left. split; [apply ApiServerFacts.get_results_out_of_range; lia|].
           exists n. repeat split; trivial. now right.
        -- right. split.
           ++ unfold get_results, truthy.
              assert (E1 : (n <? 1)%Z = false) by (apply Z.ltb_ge; lia).
              assert (E2 : (30 <? n)%Z = false) by (apply Z.ltb_ge; lia).
              rewrite E1, E2. cbn [orb]. now rewrite andb_false_r.
           ++ right. right. exists n. split; [reflexivity|]. split; [lia|].
              unfold get_top_results. rewrite slice_to_length.
              assert (E : (0 <=? n)%Z = true) by (apply Z.leb_le; lia).
              rewrite E. lia.
  - right. split; [reflexivity | now left].
Qed.

Lemma max_list_head (A : Type) (ltb : A -> A -> bool) (x : A) (l : list A) :
  Forall (fun y => ltb x y = false) l -> Py.max_list ltb x l = x.
Proof.
  unfold Py.max_list. induction 1 as [|y l Hy _ IH]; simpl; [reflexivity|].
  now rewrite Hy.
Qed.

Lemma min_list_lower (x : Q) (l : list Q) :
  Py.min_list Py.Qltb x l <= x
  /\ Forall (fun y => Py.min_list Py.Qltb x l <= y) l
  /\ In (Py.min_list Py.Qltb x l) (x :: l).
Proof.
  unfold Py.min_list. revert x. induction l as [|y l IH]; intro x; simpl.
  - split; [apply Qle_refl|]. split; [constructor | now left].
  - destruct (Py.Qltb y x) eqn:E.
    + apply Qltb_lt in E. destruct (IH y) as (H1 & H2 & H3).
      split; [lra|]. split; [now constructor|].
      destruct H3 as [H3|H3]; [right; now left | right; now right].
    + apply Qltb_ge in E. destruct (IH x) as (H1 & H2 & H3).
      split; [exact H1|]. split; [constructor; [lra | exact H2]|].
      destruct H3 as [H3|H3]; [now left | right; now right].
Qed.

Lemma get_top_results_default (self : TopResultsManager) :
  (Py.len (results self) <= max_results self)%Z ->
  get_top_results self None = results self.
Proof.
  intro Hb. unfold get_top_results, Py.slice_to, Py.len in *.
  destruct (0 <=? max_results self)%Z eqn:E.
  - apply firstn_all2. lia.
  - apply Z.leb_gt in E. lia.
Qed.

Lemma max_list_upper (x : Z) (l : list Z) :
  (x <= Py.max_list Z.ltb x l)%Z
  /\ Forall (fun y => (y <= Py.max_list Z.ltb x l)%Z) l.
Proof.
  unfold Py.max_list. revert x. induction l as [|y l IH]; intro x; simpl.
  - split; [lia | constructor].
  - destruct (x <? y)%Z eqn:E.
    + apply Z.ltb_lt in E. destruct (IH y) as [H1 H2].
      split; [lia|]. now constructor.
    + apply Z.ltb_ge in E. destruct (IH x) as [H1 H2].
      split; [exact H1|]. constructor; [lia | exact H2].
Qed.

Lemma last_cons_default (A : Type) (l : list A) :
  forall x d : A, last (x :: l) d = last l x.
Proof.
  induction l as [|y l IH]; intros x d; [reflexivity|].
  change (last (x :: y :: l) d) with (last (y :: l) d).
  now rewrite (IH y d), (IH y x).
Qed.

Lemma cons_as_snoc (A : Type) (x : A) (l : list A) :
  exists l' z, x :: l = l' ++ [z] /\ last l x = z.
Proof.
  destruct (exists_last (l := x :: l)) as (l' & z & E); [discriminate|].
  exists l', z. split; [exact E|].
  rewrite <- (last_cons_default _ l x x), E. apply last_last.
Qed.

(** X7. On a sorted leaderboard with at least one entry, [get_stats]
    reports the number of entries, the score of the first entry as
    [max_score], the score of the last entry as [min_score], a [max_kicks]
    that no entry exceeds, and as [last_update] the timestamp of the first,
    highest-scoring entry, whenever that entry was added. *)
Theorem get_stats_sorted :
  forall (top : TopResultsManager) (first : TopResult) (rest : list TopResult),
    bounded_sorted top ->
    results top = first :: rest ->
    exists average_score min_score average_kicks max_kicks,
      get_stats top
      = stats_full (Py.len (results top)) average_score (score first) min_score
          average_kicks max_kicks (timestamp first)
      /\ min_score == score (last rest first)
      /\ Forall (fun e => (total_kicks e <= max_kicks)%Z) (results top).
Proof.
  intros top first rest [Hlen Hs] E.
  pose proof (get_top_results_default top Hlen) as Hall.
  unfold get_stats. rewrite Hall, E.
  rewrite E in Hs. pose proof Hs as Hs'.
  apply StronglySorted_inv in Hs'. destruct Hs' as [_ Hfirst].
  eexists. eexists. eexists. eexists. split; [|split].
  - f_equal. apply max_list_head.
    apply Forall_map. eapply Forall_impl; [|exact Hfirst].
    intros e He. now apply Qltb_ge.
  - destruct (min_list_lower (score first) (map score rest)) as (H1 & H2 & H3).
    set (m := Py.min_list Py.Qltb (score first) (map score rest)) in *.
    destruct (cons_as_snoc _ first rest) as (l' & z & El & Hz).
    rewrite Hz.
    assert (Hlow : Forall (fun e => score z <= score e) (first :: rest)).
    { rewrite El. apply sorted_last_lowest. now rewrite <- El. }
    apply Qle_antisym.
    + assert (Hin : In z (first :: rest)).
      { rewrite El. apply in_or_app. right. now left. }
      destruct Hin as [<-|Hin]; [exact H1|].
      rewrite Forall_forall in H2. apply H2. now apply in_map.
    + change (In m (map score (first :: rest))) in H3.
      apply in_map_iff in H3. destruct H3 as (e & <- & He).
      rewrite Forall_forall in Hlow. now apply Hlow.
  - destruct (max_list_upper (total_kicks first) (map total_kicks rest))
      as [H1 H2].
    constructor; [exact H1|].
    rewrite Forall_map in H2. exact H2.
Qed.

Lemma get_stats_sorted_witness :
  exists average_score min_score average_kicks max_kicks,
    get_stats Samples.full_board
    = stats_full 2 average_score 100 min_score average_kicks max_kicks
        "2024-01-01T00:00:00"
    /\ min_score == 50.
Proof.
  destruct (get_stats_sorted Samples.full_board (Samples.entry "a.mp4" 100)
              [Samples.entry "b.mp4" 50])
    as (a & m & ak & mk & E & Hm & _).
  - split; [vm_compute; discriminate|].
    repeat constructor. vm_compute. discriminate.
  - reflexivity.
  - exists a, m, ak, mk. split; [exact E | exact Hm].
Defined.

(** X20. Loading sorts and keeps everything: a manager created on an
    existing file holds the entries of its last record, all of them and no
    others, in descending order of score, ties in file order; the record is
    not cut down to [max_results], so a longer record gives a leaderboard
    above its bound.  On a missing file the leaderboard is empty. *)
Theorem load_sorts_keeps_all :
  forall (file : list (list TopResult)) (max : Z),
    (file = [] -> results (TopResults.__init__ file max) = [])
    /\ (forall saved,
          Py.last_item file = Some saved ->
          sorted_desc (results (TopResults.__init__ file max))
          /\ Permutation saved (results (TopResults.__init__ file max))
          /\ Py.len (results (TopResults.__init__ file max)) = Py.len saved
          /\ (forall q,
                filter (fun e => Qeq_bool (score e) q)
                  (results (TopResults.__init__ file max))
                = filter (fun e => Qeq_bool (score e) q) saved)
          /\ storage_file (TopResults.__init__ file max) = file).
Proof.
  intros file max. split.
  - intros ->. reflexivity.
  - intros saved Hl. unfold TopResults.__init__. rewrite Hl.
    cbn [results storage_file _sort_results set_results].
    split; [apply sort_sorted|]. split; [apply sort_perm|].
    split; [unfold Py.len; now rewrite sort_length|].
    split; [intro q; apply sort_stable | reflexivity].
Qed.

Lemma load_sorts_keeps_all_witness :
  let saved := [Samples.entry "low.mp4" 10; Samples.entry "high.mp4" 90;
                Samples.entry "mid.mp4" 50] in
  map TopResults.video_name (results (TopResults.__init__ [saved] 2))
  = ["high.mp4"; "mid.mp4"; "low.mp4"]%string
  /\ Py.len (results (TopResults.__init__ [saved] 2)) = 3%Z
  /\ sorted_desc (results (TopResults.__init__ [saved] 2)).
Proof.
  intro saved.
  destruct (load_sorts_keeps_all [saved] 2) as [_ H].
  destruct (H saved eq_refl) as (Hs & _ & Hlen & _).
  split; [reflexivity|]. split; [exact Hlen | exact Hs].
Defined.

End LeaderboardFacts.

(** ** Runs of the analyzer *)

Module RunExtras.

Import Utils PyFacts DetectorFacts RunFacts.
Open Scope Q_scope.

Lemma same_parameters_refl (self : BallKickAnalyzer) : same_parameters self self.
Proof. unfold same_parameters. repeat split. Qed.

Lemma same_parameters_trans (s1 s2 s3 : BallKickAnalyzer) :
  same_parameters s1 s2 -> same_parameters s2 s3 -> same_parameters s1 s3.
Proof.
  unfold same_parameters. intros H1 H2.
  destruct H1 as (A1 & A2 & A3 & A4 & A5 & A6 & A7 & A8 & A9).
  destruct H2 as (B1 & B2 & B3 & B4 & B5 & B6 & B7 & B8 & B9).
  repeat split; congruence.
Qed.

(** X10. The confidence of an up-kick never exceeds 1; without a foot
    within [kick_distance_threshold] it never exceeds 0.63; and it is not
    negative when the trajectory change is not. *)
Theorem kick_confidence_bounds :
  forall (self : BallKickAnalyzer) (trajectory_change velocity_y : Q)
         (min_distance : option Q),
    kick_confidence self trajectory_change velocity_y min_distance <= 1
    /\ (distance_lt min_distance (kick_distance_threshold self) = false ->
        kick_confidence self trajectory_change velocity_y min_distance <= 0.63)
    /\ (0 <= trajectory_change ->
        0 <= kick_confidence self trajectory_change velocity_y min_distance).
Proof.
  intros self tc vy md. unfold kick_confidence.
  assert (Hmin : forall x, Py.min 1.0 x <= 1 /\ (0 <= x -> 0 <= Py.min 1.0 x)).
  { intro x. unfold Py.min. destruct (Py.Qltb x 1.0) eqn:E.
    - apply Qltb_lt in E. split; [lra | trivial].
    - split; [|intros _]; vm_compute; discriminate. }
  assert (Habs : 0 <= Py.abs vy / 20.0).
  { unfold Py.abs. destruct (Py.Qltb vy 0) eqn:E.
    - apply Qltb_lt in E. apply Qle_shift_div_l; [reflexivity | lra].
    - apply Qltb_ge in E. apply Qle_shift_div_l; [reflexivity | lra]. }
  destruct (Hmin (tc / 45.0)) as [Ht1 Ht0].
  destruct (Hmin (Py.abs vy / 20.0)) as [Hv1 Hv0]. specialize (Hv0 Habs).
  set (ts := Py.min 1.0 (tc / 45.0)) in *.
  set (vs := Py.min 1.0 (Py.abs vy / 20.0)) in *.
  destruct (distance_lt md (kick_distance_threshold self)).
  - split; [lra|]. split; [discriminate|].
    intro H0. assert (0 <= tc / 45.0)
      by (apply Qle_shift_div_l; [reflexivity | lra]).
    specialize (Ht0 H). lra.
  - split; [lra|]. split; [intros _; lra|].
    intro H0. assert (0 <= tc / 45.0)
      by (apply Qle_shift_div_l; [reflexivity | lra]).
    specialize (Ht0 H). lra.
Qed.

Lemma kick_confidence_bounds_witness :
  kick_confidence __init__ 90 (-20) (Some (500 * 500)) <= 0.63
  /\ 0 <= kick_confidence __init__ 90 (-20) (Some (500 * 500)).
Proof.
  destruct (kick_confidence_bounds __init__ 90 (-20) (Some (500 * 500)))
    as (_ & Hfar & Hpos).
  split; [apply Hfar; vm_compute; reflexivity|].
  apply Hpos. vm_compute. discriminate.
Defined.

Lemma kick_confidence_le_one (self : BallKickAnalyzer) (tc vy : Q)
    (md : option Q) : kick_confidence self tc vy md <= 1.
Proof.
  unfold kick_confidence.
  assert (Hmin : forall x, Py.min 1.0 x <= 1).
  { intro x. unfold Py.min. destruct (Py.Qltb x 1.0) eqn:E.
    - apply Qltb_lt in E. lra.
    - vm_compute. discriminate. }
  pose proof (Hmin (tc / 45.0)). pose proof (Hmin (Py.abs vy / 20.0)).
  set (ts := Py.min 1.0 (tc / 45.0)) in *.
  set (vs := Py.min 1.0 (Py.abs vy / 20.0)) in *.
  destruct (distance_lt md (kick_distance_threshold self)); lra.
Qed.

Section WithAngles.

Variable atan2_degrees : Q -> Q -> Q.

Abbreviation detect_kick := (Utils.detect_kick atan2_degrees).
Abbreviation calculate_trajectory_change :=
  (Utils.calculate_trajectory_change atan2_degrees).
Abbreviation process_frame := (Utils.process_frame atan2_degrees).
Abbreviation frame_loop := (Utils.frame_loop atan2_degrees).
Abbreviation analyze_video := (Utils.analyze_video atan2_degrees).

(** The kick a call of [detect_kick] returns. *)
Lemma detect_kick_some self b feet_positions n t h k self' :
  detect_kick self b feet_positions n t h = (Some k, self') ->
  (feet_positions <> []
   /\ debounce_clear self n
   /\ trajectory_change_threshold self < calculate_trajectory_change self
   /\ snd (calculate_ball_velocity self) < 0
   /\ k = up_kick n t b
            (kick_confidence self (calculate_trajectory_change self)
               (snd (calculate_ball_velocity self))
               (fst (closest_foot_scan b feet_positions)))
   /\ min_confidence_threshold self <= confidence k
   /\ self' = set_series self
                ((if in_juggling_series self then current_series_kicks self
                  else 0) + 1) true)
  \/ (k = ground_kick n t b
      /\ is_ball_near_ground self b h = true
      /\ in_juggling_series self = true
      /\ self' = set_series self (current_series_kicks self) false).
Proof.
  assert (Hground : forall r s, ground_check self b n t h = (Some r, s) ->
            r = ground_kick n t b /\ is_ball_near_ground self b h = true
            /\ in_juggling_series self = true
            /\ s = set_series self (current_series_kicks self) false).
  { unfold ground_check. intros r s H.
    destruct (is_ball_near_ground self b h && in_juggling_series self) eqn:E;
      [|discriminate].
    injection H as <- <-. apply andb_true_iff in E. now destruct E. }
  intro H. destruct feet_positions as [|foot feet_positions].
  - right. rewrite detect_kick_no_feet in H. now apply Hground.
  - rewrite detect_kick_feet in H by discriminate. cbv zeta in H.
    destruct (match Py.last_item (kicks self) with
              | Some last => (n - frame_number last <? min_kick_interval self)%Z
              | None => false
              end) eqn:Erep; [discriminate|].
    apply repeated_false_clear in Erep.
    match type of H with (if ?g then _ else _) = _ => destruct g eqn:Eg end.
    + match type of H with (if ?g then _ else _) = _ => destruct g eqn:Ec end;
        [|discriminate].
      injection H as <- <-. left.
      apply andb_true_iff in Eg. destruct Eg as [Eg E3].
      apply andb_true_iff in Eg. destruct Eg as [E1 E2].
      apply Qltb_lt in E1, E3. apply Qle_bool_iff in Ec.
      split; [discriminate|]. repeat split; trivial.
    + right. now apply Hground.
Qed.

(** What one processed frame does, piece by piece. *)
Lemma process_frame_cases self fps tf h n frame self' :
  process_frame self fps tf h n frame = Some self' ->
  frame_skip self <> 0%Z
  /\ (self' = self
      \/ exists x y conf bh vh self3,
           ball_detection frame = Some (x, y, conf)
           /\ (n mod frame_skip self = 0)%Z
           /\ self3 = set_histories (set_last_ball_position self (Some (x, y)))
                        bh vh
           /\ Py.len bh
              = (if (10 <? Py.len (ball_history self) + 1)%Z
                 then Py.len (ball_history self)
                 else Py.len (ball_history self) + 1)%Z
           /\ Py.len vh
              = (if (velocity_history_size self
                     <? Py.len (velocity_history self) + 1)%Z
                 then Py.len (velocity_history self)
                 else Py.len (velocity_history self) + 1)%Z
           /\ (((Py.len vh < 3)%Z /\ self' = self3)
               \/ ((3 <= Py.len vh)%Z
                   /\ exists r self4,
                        detect_kick self3 (x, y) (feet frame) n
                          (inject_Z n / fps) h = (r, self4)
                        /\ self' = match r with
                                   | Some k => set_kicks self4 (kicks self4 ++ [k])
                                   | None => self4
                                   end))).
Proof.
  unfold Utils.process_frame. intro H.
  destruct (frame_skip self =? 0)%Z eqn:Eskip; [discriminate|].
  apply Z.eqb_neq in Eskip. split; [exact Eskip|].
  destruct (n mod frame_skip self =? 0)%Z eqn:Emod; cbn [negb] in H;
    [|injection H as <-; now left].
  apply Z.eqb_eq in Emod.
  destruct (ball_detection frame) as [[[x y] conf]|];
    [|injection H as <-; now left].
  destruct (match last_ball_position self with
            | Some last => sqrt_lt (sq_distance (x, y) last)
                             (ball_movement_threshold self)
            | None => false
            end); [injection H as <-; now left|].
  right. cbv zeta in H.
  cbn [ball_history velocity_history velocity_history_size
       set_last_ball_position set_histories] in H.
  set (bh0 := ball_history self ++ [(x, y)]) in *.
  set (bh := if (10 <? Py.len bh0)%Z then Py.pop_front bh0 else bh0) in *.
  set (self2 := set_histories (set_last_ball_position self (Some (x, y))) bh
                  (velocity_history self)) in *.
  set (vh0 := velocity_history self ++ [calculate_ball_velocity self2]) in *.
  set (vh := if (velocity_history_size self <? Py.len vh0)%Z
             then Py.pop_front vh0 else vh0) in *.
  assert (Hbh0 : Py.len bh0 = (Py.len (ball_history self) + 1)%Z).
  { unfold bh0, Py.len. rewrite length_app. simpl. lia. }
  assert (Hvh0 : Py.len vh0 = (Py.len (velocity_history self) + 1)%Z).
  { unfold vh0, Py.len. rewrite length_app. simpl. lia. }
  assert (Hpop : forall (A : Type) (l : list A),
            (0 < Py.len l)%Z -> Py.len (Py.pop_front l) = (Py.len l - 1)%Z).
  { intros A l. unfold Py.len, Py.pop_front. destruct l; cbn [tl length]; lia. }
  exists x, y, conf, bh, vh,
    (set_histories (set_last_ball_position self (Some (x, y))) bh vh).
  split; [reflexivity|]. split; [exact Emod|]. split; [reflexivity|].
  split; [|split].
  - unfold bh. rewrite Hbh0.
    destruct (10 <? Py.len (ball_history self) + 1)%Z; [|exact Hbh0].
    rewrite Hpop; rewrite Hbh0; unfold Py.len; lia.
  - unfold vh. rewrite Hvh0.
    destruct (velocity_history_size self <? Py.len (velocity_history self) + 1)%Z;
      [|exact Hvh0].
    rewrite Hpop; rewrite Hvh0; unfold Py.len; lia.
  - change (set_histories self2 bh vh)
      with (set_histories (set_last_ball_position self (Some (x, y))) bh vh) in H.
    apply report_progress_some in H.
    destruct (3 <=? Py.len vh)%Z eqn:E3.
    + right. apply Z.leb_le in E3. split; [exact E3|].
      match type of H with
      | match ?d with _ => _ end = _ => destruct d as [r self4] eqn:Ed
      end.
      exists r, self4. split; [reflexivity|].
      destruct r; symmetry; exact H.
    + left. apply Z.leb_gt in E3. split; [exact E3|]. symmetry. exact H.
Qed.

(** The analyzer after one turn of the loop: unchanged, or with the new
    position recorded, the two series attributes as [detect_kick] left them
    and at most one more kick. *)
Lemma process_frame_shape self fps tf h n frame self' :
  process_frame self fps tf h n frame = Some self' ->
  frame_skip self <> 0%Z
  /\ (self' = self
      \/ exists x y conf bh vh c a,
           let self3 :=
             set_histories (set_last_ball_position self (Some (x, y))) bh vh in
           ball_detection frame = Some (x, y, conf)
           /\ (n mod frame_skip self = 0)%Z
           /\ Py.len bh
              = (if (10 <? Py.len (ball_history self) + 1)%Z
                 then Py.len (ball_history self)
                 else Py.len (ball_history self) + 1)%Z
           /\ Py.len vh
              = (if (velocity_history_size self
                     <? Py.len (velocity_history self) + 1)%Z
                 then Py.len (velocity_history self)
                 else Py.len (velocity_history self) + 1)%Z
           /\ (((Py.len vh < 3)%Z
                /\ c = current_series_kicks self /\ a = in_juggling_series self
                /\ self' = set_series self3 c a)
               \/ ((3 <= Py.len vh)%Z
                   /\ exists r,
                        detect_kick self3 (x, y) (feet frame) n
                          (inject_Z n / fps) h = (r, set_series self3 c a)
                        /\ self' = set_kicks (set_series self3 c a)
                                     (kicks self ++
                                      match r with
                                      | Some k => [k]
                                      | None => []
                                      end)))).
Proof.
  intro H. destruct (process_frame_cases _ _ _ _ _ _ _ H) as [Hskip Hc].
  split; [exact Hskip|].
  destruct Hc as [->|(x & y & conf & bh & vh & self3 & Hb & Hm & -> & Hbh & Hvh & Hc)];
    [now left|].
  right. destruct Hc as [[Hlt ->]|[Hge (r & self4 & Hd & ->)]].
  - exists x, y, conf, bh, vh, (current_series_kicks self),
      (in_juggling_series self).
    cbv zeta. repeat split; trivial. left. repeat split; trivial.
  - destruct (detect_kick_inv _ _ _ _ _ _ _ _ _ Hd) as [(c & a & ->) _].
    exists x, y, conf, bh, vh, c, a.
    cbv zeta. repeat split; trivial. right. split; [exact Hge|].
    exists r. split; [exact Hd|].
    destruct r; cbn [kicks set_series set_histories set_last_ball_position].
    + reflexivity.
    + now rewrite app_nil_r.
Qed.

Lemma process_frame_parameters self fps tf h n frame self' :
  process_frame self fps tf h n frame = Some self' -> same_parameters self self'.
Proof.
  intro H. destruct (process_frame_shape _ _ _ _ _ _ _ H) as [_ Hc].
  destruct Hc as [->|(x & y & conf & bh & vh & c & a & Hc)];
    [apply same_parameters_refl|].
  cbv zeta in Hc. destruct Hc as (_ & _ & _ & _ & [(_ & _ & _ & ->)|(_ & r & _ & ->)]);
    unfold same_parameters; repeat split.
Qed.

(** Induction over the frames of a run. *)
Lemma frame_loop_invariant (P : nat -> BallKickAnalyzer -> Prop)
    (frames : list Frame) (fps : Q) (tf h : Z) :
  (forall n frame self self',
     nth_error frames n = Some frame ->
     process_frame self fps tf h (Z.of_nat n) frame = Some self' ->
     P n self -> P (S n) self') ->
  forall self self',
    frame_loop self fps tf h 0 frames = Some self' ->
    P 0%nat self -> P (length frames) self'.
Proof.
  intro Hstep.
  assert (Hgen : forall rest done self self',
            frames = done ++ rest ->
            frame_loop self fps tf h (Z.of_nat (length done)) rest = Some self' ->
            P (length done) self -> P (length frames) self').
  { induction rest as [|frame rest IH]; intros done self self' E Hloop HP.
    - simpl in Hloop. injection Hloop as <-.
      now rewrite E, app_nil_r.
    - simpl in Hloop.
      destruct (process_frame self fps tf h (Z.of_nat (length done)) frame)
        as [self1|] eqn:Estep; [|discriminate].
      assert (Hnth : nth_error frames (length done) = Some frame).
      { rewrite E, nth_error_app2 by lia. now rewrite Nat.sub_diag. }
      apply (IH (done ++ [frame]) self1 self').
      + now rewrite E, <- app_assoc.
      + rewrite length_app. simpl length.
        replace (Z.of_nat (length done + 1)) with (Z.of_nat (length done) + 1)%Z
          by lia.
        exact Hloop.
      + rewrite length_app. simpl length.
        replace (length done + 1)%nat with (S (length done)) by lia.
        now apply (Hstep _ frame self). }
  intros self self' Hloop HP. now apply (Hgen frames [] self self').
Qed.

(** A run that returns went through the loop and the segmenter. *)
Lemma analyze_video_inv self video t0 t1 analysis self' :
  analyze_video self video t0 t1 = Some (analysis, self') ->
  frame_loop (reset_run self) (video_fps video) (cap_frame_count video)
    (cap_frame_height video) 0 (cap_frames video) = Some self'
  /\ analysis_kicks analysis = kicks self'
  /\ _analyze_juggling_series self' = Some (series analysis)
  /\ total_kicks analysis = count_up (kicks self')
  /\ total_series analysis = Py.len (series analysis)
  /\ fps analysis = video_fps video
  /\ Utils.video_name analysis = file_name video
  /\ Utils.processing_time analysis = t1 - t0.
Proof.
  unfold Utils.analyze_video. fold (video_fps video). intro H.
  destruct (frame_loop (reset_run self) (video_fps video)
              (cap_frame_count video) (cap_frame_height video) 0
              (cap_frames video)) as [self1|];
    [|discriminate].
  destruct (_analyze_juggling_series self1) as [found|] eqn:Es; [|discriminate].
  injection H as <- <-. repeat split; try reflexivity. exact Es.
Qed.


Lemma report_progress_none (total n : Z) (self : BallKickAnalyzer) :
  report_progress total n self = None
  <-> total = 0%Z /\ (n mod 30 =? 0)%Z = true.
Proof.
  unfold report_progress.
  destruct (n mod 30 =? 0)%Z; [|split; [discriminate | intros [_ H]; discriminate]].
  destruct (total =? 0)%Z eqn:E.
  - apply Z.eqb_eq in E. now split.
  - apply Z.eqb_neq in E. split; [discriminate | intros [H _]; contradiction].
Qed.

(** A turn of the loop fails on a zero [frame_skip], or in the progress
    report of a video whose frame count reads 0. *)
Lemma process_frame_none self fps tf h n frame :
  process_frame self fps tf h n frame = None
  <-> frame_skip self = 0%Z
      \/ (tf = 0%Z /\ reaches_report self n frame = true).
Proof.
  unfold Utils.process_frame, reaches_report.
  destruct (frame_skip self =? 0)%Z eqn:E.
  - apply Z.eqb_eq in E. split; [now left | reflexivity].
  - apply Z.eqb_neq in E.
    destruct (n mod frame_skip self =? 0)%Z; cbn [negb andb].
    2:{ split; [discriminate | intros [H|[_ H]]; [contradiction | discriminate]]. }
    destruct (ball_detection frame) as [[[x y] conf]|]; cbn [andb].
    2:{ split; [discriminate | intros [H|[_ H]]; [contradiction | discriminate]]. }
    destruct (last_ball_position self) as [last|].
    + destruct (sqrt_lt (sq_distance (x, y) last) (ball_movement_threshold self));
        cbn [negb].
      * split; [discriminate | intros [H|[_ H]]; [contradiction | discriminate]].
      * cbv zeta. rewrite report_progress_none.
        split; [intros [H1 H2]; right; now split
               | intros [H|[H1 H2]]; [contradiction | now split]].
    + cbv zeta. rewrite report_progress_none.
      split; [intros [H1 H2]; right; now split
             | intros [H|[H1 H2]]; [contradiction | now split]].
Qed.

(** The loop fails at the first turn that does. *)
Lemma frame_loop_none frames :
  forall self fps tf h n,
    frame_loop self fps tf h n frames = None
    <-> (frame_skip self = 0%Z /\ frames <> [])
        \/ (tf = 0%Z
            /\ exists done frame rest s,
                 frames = done ++ frame :: rest
                 /\ frame_loop self fps tf h n done = Some s
                 /\ reaches_report s (n + Z.of_nat (length done)) frame = true).
Proof.
  induction frames as [|frame frames IH]; intros self fps tf h n.
  - cbn [Utils.frame_loop]. split; [discriminate|].
    intros [[_ H]|(_ & done & fr & rest & s & E & _)]; [now elim H|].
    destruct done; discriminate E.
  - cbn [Utils.frame_loop].
    destruct (process_frame self fps tf h n frame) as [self1|] eqn:E.
    + assert (Hsome : ~ (frame_skip self = 0%Z
                         \/ (tf = 0%Z /\ reaches_report self n frame = true))).
      { intro H. apply (process_frame_none self fps tf h n frame) in H.
        congruence. }
      pose proof (process_frame_parameters _ _ _ _ _ _ _ E) as Hp.
      destruct Hp as (_ & _ & _ & _ & _ & _ & _ & Hskip & _).
      rewrite IH. split.
      * intros [[H _]|(Ht & done & fr & rest & s & Ef & Hl & Hr)].
        -- exfalso. apply Hsome. left. congruence.
        -- right. split; [exact Ht|].
           exists (frame :: done), fr, rest, s. split; [now rewrite Ef|].
           split.
           ++ cbn [Utils.frame_loop]. rewrite E. exact Hl.
           ++ cbn [length].
              replace (n + Z.of_nat (S (length done)))%Z
                with (n + 1 + Z.of_nat (length done))%Z by lia.
              exact Hr.
      * intros [[H _]|(Ht & done & fr & rest & s & Ef & Hl & Hr)].
        -- exfalso. apply Hsome. now left.
        -- destruct done as [|f done].
           ++ exfalso. apply Hsome. right. split; [exact Ht|].
              cbn [Utils.frame_loop] in Hl. injection Hl as <-.
              injection Ef as <- _. cbn [length] in Hr.
              now rewrite Z.add_0_r in Hr.
           ++ injection Ef as <- Ef. right. split; [exact Ht|].
              exists done, fr, rest, s. split; [exact Ef|].
              cbn [Utils.frame_loop] in Hl. rewrite E in Hl.
              split; [exact Hl|]. cbn [length] in Hr.
              replace (n + 1 + Z.of_nat (length done))%Z
                with (n + Z.of_nat (S (length done)))%Z by lia.
              exact Hr.
    + split; [|reflexivity]. intros _.
      apply process_frame_none in E. destruct E as [E|[Et Er]].
      * left. split; [exact E | discriminate].
      * right. split; [exact Et|].
        exists [], frame, frames, self. split; [reflexivity|].
        split; [reflexivity|]. cbn [length]. now rewrite Z.add_0_r.
Qed.

Lemma frame_loop_frame_skip frames :
  forall self self' fps tf h n,
    frame_loop self fps tf h n frames = Some self' ->
    frame_skip self' = frame_skip self.
Proof.
  induction frames as [|frame frames IH]; intros self self' fps tf h n Hloop.
  - cbn [Utils.frame_loop] in Hloop. now injection Hloop as <-.
  - cbn [Utils.frame_loop] in Hloop.
    destruct (process_frame self fps tf h n frame) as [self1|] eqn:E;
      [|discriminate].
    pose proof (process_frame_parameters _ _ _ _ _ _ _ E) as Hp.
    destruct Hp as (_ & _ & _ & _ & _ & _ & _ & Hskip & _).
    rewrite (IH _ _ _ _ _ _ Hloop). exact Hskip.
Qed.

Lemma reaches_report_inv self n frame :
  reaches_report self n frame = true ->
  (n mod frame_skip self = 0)%Z /\ ((n + 1) mod 30 = 0)%Z.
Proof.
  unfold reaches_report. intro H.
  apply andb_true_iff in H. destruct H as [H H30].
  apply andb_true_iff in H. destruct H as [Hs _].
  apply Z.eqb_eq in Hs, H30. now split.
Qed.

(** X8. A run of [analyze_video] fails only by a division by zero: on the
    first frame read when [frame_skip] is 0, or, for a video whose frame
    count reads 0, in the progress report after a frame that was processed
    to the end and brought [frame_number] to a multiple of 30; the series
    segmenter that ends the run never fails.  So a run returns whenever
    [frame_skip] is not 0 and the frame count is not 0, or [frame_skip] is
    even (as the 4 of [__init__]), or the video has fewer than 30 frames. *)
Theorem analyze_video_raises_iff :
  forall (self : BallKickAnalyzer) (video : Video) (t0 t1 : Q),
    (analyze_video self video t0 t1 = None
     <-> (frame_skip self = 0%Z /\ cap_frames video <> [])
         \/ (cap_frame_count video = 0%Z
             /\ exists done frame rest s,
                  cap_frames video = done ++ frame :: rest
                  /\ frame_loop (reset_run self) (video_fps video) 0
                       (cap_frame_height video) 0 done = Some s
                  /\ reaches_report s (Z.of_nat (length done)) frame = true))
    /\ (frame_skip self <> 0%Z ->
        cap_frame_count video <> 0%Z
        \/ Z.even (frame_skip self) = true
        \/ (length (cap_frames video) < 30)%nat ->
        analyze_video self video t0 t1 <> None).
Proof.
  intros self video t0 t1.
  assert (Hiff : analyze_video self video t0 t1 = None
     <-> (frame_skip self = 0%Z /\ cap_frames video <> [])
         \/ (cap_frame_count video = 0%Z
             /\ exists done frame rest s,
                  cap_frames video = done ++ frame :: rest
                  /\ frame_loop (reset_run self) (video_fps video) 0
                       (cap_frame_height video) 0 done = Some s
                  /\ reaches_report s (Z.of_nat (length done)) frame = true)).
  { unfold Utils.analyze_video. fold (video_fps video).
    pose proof (frame_loop_none (cap_frames video) (reset_run self)
                  (video_fps video) (cap_frame_count video)
                  (cap_frame_height video) 0) as Hnone.
    cbn [Z.add] in Hnone.
    destruct (frame_loop (reset_run self) (video_fps video)
                (cap_frame_count video) (cap_frame_height video) 0
                (cap_frames video)) as [self1|] eqn:E.
    - assert (Hc : consistent scan_start) by (unfold consistent; simpl; tauto).
      unfold _analyze_juggling_series.
      destruct (SeriesFacts.scan_kicks_total (kicks self1) scan_start Hc)
        as (st & -> & _).
      cbn [option_map]. split; [discriminate|].
      intro H. exfalso.
      assert (Hn : Some self1 = None); [|discriminate].
      apply Hnone. destruct H as [H|(Ht & done & fr & rest & s & Ef & Hl & Hr)].
      + now left.
      + right. split; [exact Ht|]. exists done, fr, rest, s.
        rewrite Ht. now repeat split.
    - split; [|reflexivity]. intros _.
      destruct (proj1 Hnone eq_refl)
        as [H|(Ht & done & fr & rest & s & Ef & Hl & Hr)].
      + now left.
      + right. split; [exact Ht|]. exists done, fr, rest, s.
        rewrite Ht in Hl. now repeat split. }
  split; [exact Hiff|].
  intros Hskip Hok Hnone. apply Hiff in Hnone.
  destruct Hnone as [[H _]|(Ht & done & fr & rest & s & Ef & Hl & Hr)];
    [contradiction|].
  apply reaches_report_inv in Hr. destruct Hr as [Hmod H30].
  rewrite (frame_loop_frame_skip _ _ _ _ _ _ _ Hl) in Hmod.
  cbn [frame_skip reset_run set_series set_kicks set_histories] in Hmod.
  destruct Hok as [Hc|[He|Hlen]].
  - contradiction.
  - apply Z.even_spec in He. destruct He as [k Hk].
    apply Z.mod_divide in Hmod; [|exact Hskip]. destruct Hmod as [q Hq].
    apply Z.mod_divide in H30; [|discriminate]. destruct H30 as [q' Hq'].
    rewrite Hk in Hq. nia.
  - rewrite Ef, length_app in Hlen. cbn [length] in Hlen.
    rewrite Z.mod_small in H30 by lia. lia.
Qed.

(** X9. The two histories are bounded windows: after a run the analyzer
    holds at most 10 ball positions and at most [velocity_history_size]
    velocities (none when that size is negative), and its parameters are
    those it started with. *)
Theorem histories_bounded :
  forall (self : BallKickAnalyzer) (video : Video) (t0 t1 : Q)
         (analysis : VideoAnalysis) (self' : BallKickAnalyzer),
    analyze_video self video t0 t1 = Some (analysis, self') ->
    (Py.len (ball_history self') <= 10)%Z
    /\ (Py.len (velocity_history self')
        <= Z.max 0 (velocity_history_size self))%Z
    /\ same_parameters self self'.
Proof.
  intros self video t0 t1 analysis self' Hrun.
  destruct (analyze_video_inv _ _ _ _ _ _ Hrun) as (Hloop & _).
  apply (frame_loop_invariant
           (fun _ s => (Py.len (ball_history s) <= 10)%Z
                       /\ (Py.len (velocity_history s)
                           <= Z.max 0 (velocity_history_size self))%Z
                       /\ same_parameters self s)
           _ _ _) with (self := reset_run self) (self' := self') in Hloop.
  - exact Hloop.
  - intros n frame s s' _ Hstep (Hb & Hv & Hp).
    pose proof (process_frame_parameters _ _ _ _ _ _ _ Hstep) as Hp'.
    split; [|split; [|now apply (same_parameters_trans self s s')]].
    + destruct (process_frame_shape _ _ _ _ _ _ _ Hstep) as [_ Hc].
      destruct Hc as [->|(x & y & conf & bh & vh & c & a & Hc)]; [exact Hb|].
      cbv zeta in Hc. destruct Hc as (_ & _ & Hbh & _ & Hc).
      assert (E : ball_history s' = bh).
      { destruct Hc as [(_ & _ & _ & ->)|(_ & r & _ & ->)]; reflexivity. }
      rewrite E, Hbh.
      destruct (10 <? Py.len (ball_history s) + 1)%Z eqn:E10.
      * exact Hb.
      * apply Z.ltb_ge in E10. exact E10.
    + destruct (process_frame_shape _ _ _ _ _ _ _ Hstep) as [_ Hc].
      destruct Hc as [->|(x & y & conf & bh & vh & c & a & Hc)]; [exact Hv|].
      cbv zeta in Hc. destruct Hc as (_ & _ & _ & Hvh & Hc).
      assert (E : velocity_history s' = vh).
      { destruct Hc as [(_ & _ & _ & ->)|(_ & r & _ & ->)]; reflexivity. }
      destruct Hp as (_ & _ & _ & _ & _ & Hsize & _).
      rewrite E, Hvh, Hsize.
      destruct (velocity_history_size self
                <? Py.len (velocity_history s) + 1)%Z eqn:Ev.
      * exact Hv.
      * apply Z.ltb_ge in Ev. lia.
  - split; [change (0 <= 10)%Z; lia|].
    split; [|unfold same_parameters; repeat split].
    change (0 <= Z.max 0 (velocity_history_size self))%Z. lia.
Qed.

(** X11. Every kick of a run was emitted on a processed frame: its frame
    number is a multiple of [frame_skip] and indexes a frame of the video on
    which the ball was detected, its position is that detection and its
    timestamp the frame number divided by the frame rate.  It is either an
    up-kick, of a frame with a visible foot and with a confidence from
    [min_confidence_threshold] to 1, or a ground event of confidence 0.9
    with the ball at or below the ground line. *)
Theorem emitted_kicks_wellformed :
  forall (self : BallKickAnalyzer) (video : Video) (t0 t1 : Q)
         (analysis : VideoAnalysis) (self' : BallKickAnalyzer),
    analyze_video self video t0 t1 = Some (analysis, self') ->
    forall k, In k (analysis_kicks analysis) ->
      (0 <= frame_number k)%Z
      /\ (frame_number k mod frame_skip self = 0)%Z
      /\ timestamp k = inject_Z (frame_number k) / video_fps video
      /\ exists frame x y conf,
           nth_error (cap_frames video) (Z.to_nat (frame_number k)) = Some frame
           /\ ball_detection frame = Some (x, y, conf)
           /\ ball_position k = (x, y)
           /\ ((kick_type k = "up"%string /\ feet frame <> []
                /\ min_confidence_threshold self <= confidence k
                /\ confidence k <= 1)
               \/ (kick_type k = "ground"%string /\ confidence k = 0.9
                   /\ inject_Z (cap_frame_height video) * ground_threshold self
                      <= y)).
Proof.
  intros self video t0 t1 analysis self' Hrun.
  destruct (analyze_video_inv _ _ _ _ _ _ Hrun) as (Hloop & -> & _).
  set (wf := fun k : BallKick =>
      (0 <= frame_number k)%Z
      /\ (frame_number k mod frame_skip self = 0)%Z
      /\ timestamp k = inject_Z (frame_number k) / video_fps video
      /\ exists frame x y conf,
           nth_error (cap_frames video) (Z.to_nat (frame_number k)) = Some frame
           /\ ball_detection frame = Some (x, y, conf)
           /\ ball_position k = (x, y)
           /\ ((kick_type k = "up"%string /\ feet frame <> []
                /\ min_confidence_threshold self <= confidence k
                /\ confidence k <= 1)
               \/ (kick_type k = "ground"%string /\ confidence k = 0.9
                   /\ inject_Z (cap_frame_height video) * ground_threshold self
                      <= y))).
  apply (frame_loop_invariant
           (fun _ s => same_parameters self s /\ forall k, In k (kicks s) -> wf k)
           _ _ _) with (self := reset_run self) (self' := self') in Hloop.
  - exact (proj2 Hloop).
  - intros n frame s s' Hnth Hstep (Hp & Hk).
    pose proof (process_frame_parameters _ _ _ _ _ _ _ Hstep) as Hp'.
    split; [now apply (same_parameters_trans self s s')|].
    destruct (process_frame_shape _ _ _ _ _ _ _ Hstep) as [_ Hc].
    destruct Hc as [->|(x & y & conf & bh & vh & c & a & Hc)]; [exact Hk|].
    cbv zeta in Hc. destruct Hc as (Hball & Hmod & _ & _ & Hc).
    destruct Hc as [(_ & _ & _ & ->)|(_ & r & Hd & ->)]; [exact Hk|].
    cbn [kicks set_kicks]. intros k Hin. apply in_app_or in Hin.
    destruct Hin as [Hin|Hin]; [now apply Hk|].
    destruct r as [k'|]; [|now elim Hin].
    destruct Hin as [<-|[]].
    destruct Hp as (_ & _ & _ & Hg & _ & _ & Hconf & Hskip & _).
    apply detect_kick_some in Hd.
    assert (Hframe : nth_error (cap_frames video)
                       (Z.to_nat (Z.of_nat n)) = Some frame)
      by now rewrite Nat2Z.id.
    destruct Hd as [(Hfeet & _ & _ & _ & -> & Hmin & _)|(-> & Hnear & _)].
    + unfold wf. cbn [frame_number timestamp up_kick]. split; [lia|].
      split; [now rewrite <- Hskip|]. split; [reflexivity|].
      exists frame, x, y, conf. repeat split; trivial. left.
      split; [reflexivity|]. split; [exact Hfeet|].
      cbn [confidence up_kick min_confidence_threshold set_histories
           set_last_ball_position] in *.
      split; [now rewrite <- Hconf | apply kick_confidence_le_one].
    + unfold wf. cbn [frame_number timestamp ground_kick]. split; [lia|].
      split; [now rewrite <- Hskip|]. split; [reflexivity|].
      exists frame, x, y, conf. repeat split; trivial. right.
      split; [reflexivity|]. split; [reflexivity|].
      unfold is_ball_near_ground in Hnear.
      cbn [ground_threshold set_histories set_last_ball_position snd] in Hnear.
      apply Qle_bool_iff in Hnear. now rewrite <- Hg.
  - split; [unfold same_parameters; repeat split | intros k []].
Qed.

Lemma no_kicks_no_series (self : BallKickAnalyzer) :
  kicks self = [] -> _analyze_juggling_series self = Some [].
Proof. unfold _analyze_juggling_series. now intros ->. Qed.

(** X12. Feet are required: in a video on whose frames [detect_feet] finds
    no foot, no up-kick test is run, no series is ever active, and the run
    ends with no kick, no series and [total_kicks = 0], however the ball
    moves. *)
Theorem no_feet_no_kicks :
  forall (self : BallKickAnalyzer) (video : Video) (t0 t1 : Q)
         (analysis : VideoAnalysis) (self' : BallKickAnalyzer),
    (forall frame, In frame (cap_frames video) -> feet frame = []) ->
    analyze_video self video t0 t1 = Some (analysis, self') ->
    analysis_kicks analysis = [] /\ series analysis = []
    /\ total_kicks analysis = 0%Z /\ total_series analysis = 0%Z
    /\ in_juggling_series self' = false.
Proof.
  intros self video t0 t1 analysis self' Hfeet Hrun.
  destruct (analyze_video_inv _ _ _ _ _ _ Hrun)
    as (Hloop & Hk & Hser & Htk & Hts & _).
  apply (frame_loop_invariant
           (fun _ s => kicks s = [] /\ in_juggling_series s = false)
           _ _ _) with (self := reset_run self) (self' := self') in Hloop.
  - destruct Hloop as [Hnil Hin].
    rewrite (no_kicks_no_series _ Hnil) in Hser. injection Hser as Hser.
    rewrite Hk, Htk, Hts, <- Hser, Hnil. repeat split; trivial.
  - intros n frame s s' Hnth Hstep (Hnil & Hin).
    destruct (process_frame_shape _ _ _ _ _ _ _ Hstep) as [_ Hc].
    destruct Hc as [->|(x & y & conf & bh & vh & c & a & Hc)]; [now split|].
    cbv zeta in Hc. destruct Hc as (_ & _ & _ & _ & Hc).
    destruct Hc as [(_ & _ & -> & ->)|(_ & r & Hd & ->)]; [now split|].
    rewrite (Hfeet frame (nth_error_In _ _ Hnth)) in Hd.
    rewrite detect_kick_no_feet in Hd. unfold ground_check in Hd.
    cbn [in_juggling_series set_histories set_last_ball_position] in Hd.
    rewrite Hin, andb_false_r in Hd. injection Hd as <- Hc Ha.
    cbn [kicks set_kicks in_juggling_series set_series]. rewrite Hnil.
    split; [reflexivity | congruence].
  - now split.
Qed.

(** X13. The kick test needs three velocity samples: with a
    [velocity_history_size] below 3 the velocity window never holds three,
    [detect_kick] is never called and the run ends without kicks. *)
Theorem short_window_no_kicks :
  forall (self : BallKickAnalyzer) (video : Video) (t0 t1 : Q)
         (analysis : VideoAnalysis) (self' : BallKickAnalyzer),
    (velocity_history_size self < 3)%Z ->
    analyze_video self video t0 t1 = Some (analysis, self') ->
    analysis_kicks analysis = [] /\ series analysis = []
    /\ total_kicks analysis = 0%Z.
Proof.
  intros self video t0 t1 analysis self' Hsize Hrun.
  destruct (analyze_video_inv _ _ _ _ _ _ Hrun)
    as (Hloop & Hk & Hser & Htk & _).
  apply (frame_loop_invariant
           (fun _ s => kicks s = []
                       /\ (Py.len (velocity_history s) < 3)%Z
                       /\ velocity_history_size s = velocity_history_size self)
           _ _ _) with (self := reset_run self) (self' := self') in Hloop.
  - destruct Hloop as [Hnil _].
    rewrite (no_kicks_no_series _ Hnil) in Hser. injection Hser as Hser.
    rewrite Hk, Htk, <- Hser, Hnil. repeat split; trivial.
  - intros n frame s s' Hnth Hstep (Hnil & Hlen & Hs).
    destruct (process_frame_shape _ _ _ _ _ _ _ Hstep) as [_ Hc].
    destruct Hc as [->|(x & y & conf & bh & vh & c & a & Hc)];
      [now repeat split|].
    cbv zeta in Hc. destruct Hc as (_ & _ & _ & Hvh & Hc).
    assert (Hlt : (Py.len vh < 3)%Z).
    { rewrite Hvh, Hs.
      destruct (velocity_history_size self
                <? Py.len (velocity_history s) + 1)%Z eqn:E; [exact Hlen|].
      apply Z.ltb_ge in E. lia. }
    destruct Hc as [(_ & _ & _ & ->)|(Hge & _)]; [|lia].
    cbn [kicks velocity_history velocity_history_size set_series set_histories
         set_last_ball_position].
    repeat split; trivial.
  - repeat split.
Qed.

(** X14. With a positive [frame_skip] the first two processed frames only
    fill the velocity window: every kick of a run has a frame number of at
    least [2 * frame_skip]. *)
Theorem first_kick_not_before :
  forall (self : BallKickAnalyzer) (video : Video) (t0 t1 : Q)
         (analysis : VideoAnalysis) (self' : BallKickAnalyzer),
    (0 < frame_skip self)%Z ->
    analyze_video self video t0 t1 = Some (analysis, self') ->
    forall k, In k (analysis_kicks analysis) ->
      (2 * frame_skip self <= frame_number k)%Z.
Proof.
  intros self video t0 t1 analysis self' Hpos Hrun.
  destruct (analyze_video_inv _ _ _ _ _ _ Hrun) as (Hloop & -> & _).
  set (fs := frame_skip self) in *.
  apply (frame_loop_invariant
           (fun n s => frame_skip s = fs
                       /\ (Py.len (velocity_history s)
                           <= (Z.of_nat n + fs - 1) / fs)%Z
                       /\ forall k, In k (kicks s) ->
                                    (2 * fs <= frame_number k)%Z)
           _ _ _) with (self := reset_run self) (self' := self') in Hloop.
  - exact (proj2 (proj2 Hloop)).
  - intros n frame s s' Hnth Hstep (Hskip & Hlen & Hk).
    assert (Hmono : ((Z.of_nat n + fs - 1) / fs
                     <= (Z.of_nat (S n) + fs - 1) / fs)%Z).
    { apply Z.div_le_mono; lia. }
    destruct (process_frame_shape _ _ _ _ _ _ _ Hstep) as [_ Hc].
    destruct Hc as [->|(x & y & conf & bh & vh & c & a & Hc)].
    { split; [exact Hskip|]. split; [lia | exact Hk]. }
    cbv zeta in Hc. destruct Hc as (_ & Hmod & _ & Hvh & Hc).
    rewrite Hskip in Hmod.
    assert (Hq : Z.of_nat n = (fs * (Z.of_nat n / fs))%Z).
    { apply Z.div_exact; lia. }
    set (q := (Z.of_nat n / fs)%Z) in *.
    assert (E1 : ((Z.of_nat n + fs - 1) / fs = q)%Z).
    { replace (Z.of_nat n + fs - 1)%Z with (q * fs + (fs - 1))%Z by lia.
      rewrite Z.div_add_l by lia. rewrite Z.div_small; lia. }
    assert (E2 : ((Z.of_nat (S n) + fs - 1) / fs = q + 1)%Z).
    { replace (Z.of_nat (S n) + fs - 1)%Z with (q * fs + fs)%Z by lia.
      rewrite Z.div_add_l by lia. rewrite Z.div_same; lia. }
    assert (Hvh' : (Py.len vh <= q + 1)%Z).
    { rewrite Hvh.
      destruct (velocity_history_size s <? Py.len (velocity_history s) + 1)%Z;
        lia. }
    destruct Hc as [(_ & _ & _ & ->)|(Hge & r & Hd & ->)];
      cbn [frame_skip kicks velocity_history set_kicks set_series set_histories
           set_last_ball_position].
    + split; [exact Hskip|]. split; [lia | exact Hk].
    + split; [exact Hskip|]. split; [lia|].
      intros k Hin. apply in_app_or in Hin.
      destruct Hin as [Hin|Hin]; [now apply Hk|].
      destruct r as [k'|]; [|now elim Hin]. destruct Hin as [<-|[]].
      destruct (detect_kick_inv _ _ _ _ _ _ _ _ _ Hd) as [_ Hn].
      destruct (Hn k' eq_refl) as [-> _].
      assert (2 <= q)%Z by lia. nia.
  - split; [reflexivity|]. split; [|intros k []].
    change (0 <= (0 + fs - 1) / fs)%Z. apply Z.div_pos; lia.
Qed.

End WithAngles.

Lemma analyze_video_raises_iff_witness :
  Utils.analyze_video Samples.atan2_degrees
    (set_histories
       {| kick_distance_threshold := 400; velocity_threshold := 8;
          min_kick_interval := 8; ground_threshold := 0.85;
          trajectory_change_threshold := 25; velocity_history_size := 5;
          min_confidence_threshold := 0.6; ball_history := [];
          velocity_history := []; kicks := []; current_series_kicks := 0;
          in_juggling_series := false; frame_skip := 0;
          last_ball_position := None; ball_movement_threshold := 10 |} [] [])
    Samples.faint_kick_video 0 1 = None
  /\ Utils.analyze_video Samples.atan2_degrees Samples.every_frame_analyzer
       Samples.uncounted_video 0 1 = None
  /\ Utils.analyze_video Samples.atan2_degrees __init__
       Samples.uncounted_video 0 1 <> None
  /\ Utils.analyze_video Samples.atan2_degrees Samples.every_frame_analyzer
       Samples.faint_kick_video 0 1 <> None.
Proof.
  split; [|split; [|split]].
  - apply analyze_video_raises_iff. left. split; [reflexivity | discriminate].
  - apply analyze_video_raises_iff. right. split; [reflexivity|].
    exists (repeat Samples.unread 29),
      {| ball_detection := Some (100, 500, 0.9); feet := [] |}, [],
      (reset_run Samples.every_frame_analyzer).
    split; [reflexivity|]. split; vm_compute; reflexivity.
  - apply analyze_video_raises_iff; [discriminate|].
    right. left. reflexivity.
  - apply analyze_video_raises_iff; [discriminate|].
    left. discriminate.
Defined.

Lemma histories_bounded_witness :
  exists analysis self',
    Utils.analyze_video Samples.atan2_degrees __init__
      Samples.double_kick_video 0 1 = Some (analysis, self')
    /\ (Py.len (ball_history self') <= 10)%Z
    /\ (Py.len (velocity_history self') <= 5)%Z.
Proof.
  destruct (Utils.analyze_video Samples.atan2_degrees __init__
              Samples.double_kick_video 0 1) as [[analysis self']|] eqn:E;
    [|vm_compute in E; discriminate].
  exists analysis, self'. split; [reflexivity|].
  destruct (histories_bounded Samples.atan2_degrees __init__
              Samples.double_kick_video 0 1 analysis self' E) as (Hb & Hv & _).
  split; [exact Hb | exact Hv].
Defined.

Lemma emitted_kicks_wellformed_witness :
  exists analysis self' k,
    Utils.analyze_video Samples.atan2_degrees __init__
      Samples.double_kick_video 0 1 = Some (analysis, self')
    /\ nth_error (analysis_kicks analysis) 1 = Some k
    /\ frame_number k = 16%Z
    /\ timestamp k = inject_Z (frame_number k) / video_fps Samples.double_kick_video
    /\ (frame_number k mod 4 = 0)%Z.
Proof.
  destruct (Utils.analyze_video Samples.atan2_degrees __init__
              Samples.double_kick_video 0 1) as [[analysis self']|] eqn:E;
    [|vm_compute in E; discriminate].
  pose proof (emitted_kicks_wellformed Samples.atan2_degrees __init__
                Samples.double_kick_video 0 1 analysis self' E) as H.
  vm_compute in E. injection E as <- <-.
  eexists. eexists. eexists. split; [reflexivity|]. split; [reflexivity|].
  split; [reflexivity|].
  match goal with
  | |- timestamp ?k = _ /\ _ =>
      destruct (H k ltac:(right; left; reflexivity)) as (_ & Hm & Ht & _)
  end.
  split; [exact Ht | exact Hm].
Defined.

Lemma no_feet_no_kicks_witness :
  exists analysis self',
    Utils.analyze_video Samples.atan2_degrees __init__
      Samples.no_feet_video 0 1 = Some (analysis, self')
    /\ analysis_kicks analysis = [] /\ total_kicks analysis = 0%Z.
Proof.
  destruct (Utils.analyze_video Samples.atan2_degrees __init__
              Samples.no_feet_video 0 1) as [[analysis self']|] eqn:E;
    [|vm_compute in E; discriminate].
  exists analysis, self'. split; [reflexivity|].
  destruct (no_feet_no_kicks Samples.atan2_degrees __init__
              Samples.no_feet_video 0 1 analysis self') as (Hk & _ & Ht & _).
  - intros frame Hin. vm_compute in Hin.
    repeat (destruct Hin as [<-|Hin]; [reflexivity|]). now elim Hin.
  - exact E.
  - split; [exact Hk | exact Ht].
Defined.

Lemma short_window_no_kicks_witness :
  exists analysis self',
    Utils.analyze_video Samples.atan2_degrees Samples.short_window_analyzer
      Samples.double_kick_video 0 1 = Some (analysis, self')
    /\ analysis_kicks analysis = [].
Proof.
  destruct (Utils.analyze_video Samples.atan2_degrees
              Samples.short_window_analyzer Samples.double_kick_video 0 1)
    as [[analysis self']|] eqn:E; [|vm_compute in E; discriminate].
  exists analysis, self'. split; [reflexivity|].
  destruct (short_window_no_kicks Samples.atan2_degrees
              Samples.short_window_analyzer Samples.double_kick_video 0 1
              analysis self' ltac:(vm_compute; reflexivity) E) as (Hk & _).
  exact Hk.
Defined.

Lemma first_kick_not_before_witness :
  exists analysis self',
    Utils.analyze_video Samples.atan2_degrees __init__
      Samples.double_kick_video 0 1 = Some (analysis, self')
    /\ analysis_kicks analysis <> []
    /\ forall k, In k (analysis_kicks analysis) -> (8 <= frame_number k)%Z.
Proof.
  destruct (Utils.analyze_video Samples.atan2_degrees __init__
              Samples.double_kick_video 0 1) as [[analysis self']|] eqn:E;
    [|vm_compute in E; discriminate].
  exists analysis, self'. split; [reflexivity|].
  pose proof (first_kick_not_before Samples.atan2_degrees __init__
                Samples.double_kick_video 0 1 analysis self'
                ltac:(vm_compute; reflexivity) E) as H.
  split; [|exact H].
  vm_compute in E. injection E as <- _. discriminate.
Defined.

End RunExtras.
(** ** Series and kicks *)

Module SeriesExtras.

Import Utils PyFacts SeriesFacts RunExtras.
Open Scope Q_scope.

Lemma sum_int_snoc (l : list Z) (x : Z) :
  Py.sum_int (l ++ [x]) = (Py.sum_int l + x)%Z.
Proof. unfold Py.sum_int. now rewrite fold_left_app. Qed.

Lemma sum_int_lower (l : list Z) :
  Forall (fun x => (1 <= x)%Z) l ->
  (Py.len l <= Py.sum_int l)%Z /\ Forall (fun x => (x <= Py.sum_int l)%Z) l.
Proof.
  induction l as [|x l IH] using rev_ind; intro H.
  - split; [reflexivity | constructor].
  - apply Forall_app in H. destruct H as [Hl Hx]. apply Forall_inv in Hx.
    destruct (IH Hl) as [IH1 IH2].
    rewrite sum_int_snoc. unfold Py.len in *. rewrite length_app. simpl length.
    split; [lia|]. apply Forall_app. split.
    + eapply Forall_impl; [|exact IH2]. simpl. intros. lia.
    + constructor; [|constructor].
      assert (0 <= Py.sum_int l)%Z by lia. lia.
Qed.

Lemma count_up_snoc (ks : list BallKick) (k : BallKick) :
  count_up (ks ++ [k])
  = (count_up ks + if String.eqb (kick_type k) "up" then 1 else 0)%Z.
Proof.
  unfold count_up, Py.len. rewrite filter_app, length_app. simpl.
  destruct (String.eqb (kick_type k) "up"); simpl; lia.
Qed.

Lemma scan_kick_accounted done st k st' :
  accounted done st -> scan_kick st k = Some st' ->
  accounted (done ++ [k]) st'.
Proof.
  unfold accounted. intros (Hsum & Hpos & Hclosed & Hopen) Hstep.
  rewrite count_up_snoc. unfold scan_kick in Hstep.
  destruct (String.eqb (kick_type k) "up") eqn:Eup.
  - injection Hstep as <-.
    cbn [scanned current_kicks current_series_start].
    destruct (current_series_start st) as [f|] eqn:Ef;
      cbn [scanned current_kicks current_series_start]; rewrite ?Ef.
    + specialize (Hopen ltac:(discriminate)).
      repeat split; trivial; try lia; discriminate.
    + specialize (Hclosed eq_refl).
      repeat split; trivial; try lia; discriminate.
  - destruct (String.eqb (kick_type k) "ground").
    + destruct (current_series_start st) as [f|] eqn:Ef.
      * destruct (current_series_start_timestamp st) as [t|]; [|discriminate].
        injection Hstep as <-. specialize (Hopen ltac:(discriminate)).
        cbn [scanned current_kicks current_series_start].
        rewrite map_app. cbn [map]. rewrite sum_int_snoc. cbn [kicks_count].
        split; [lia|]. split.
        -- apply Forall_app. split; [exact Hpos|]. now repeat constructor.
        -- split; [reflexivity | congruence].
      * injection Hstep as <-. rewrite Ef.
        repeat split; trivial; try lia; congruence.
    + injection Hstep as <-. repeat split; trivial; lia.
Qed.

Lemma scan_kicks_accounted ks :
  forall done st st',
    accounted done st -> scan_kicks st ks = Some st' ->
    accounted (done ++ ks) st'.
Proof.
  induction ks as [|k ks IH]; intros done st st' Ha Hscan; simpl in Hscan.
  - injection Hscan as <-. now rewrite app_nil_r.
  - destruct (scan_kick st k) as [st1|] eqn:E; [|discriminate].
    replace (done ++ k :: ks) with ((done ++ [k]) ++ ks)
      by now rewrite <- app_assoc.
    apply (IH _ st1); [|exact Hscan]. now apply (scan_kick_accounted done st).
Qed.

Lemma count_up_app (ks1 ks2 : list BallKick) :
  count_up (ks1 ++ ks2) = (count_up ks1 + count_up ks2)%Z.
Proof.
  unfold count_up, Py.len. rewrite filter_app, length_app. lia.
Qed.

(** X15. No kick is counted twice and none is invented.  Every series
    holds at least one kick; the series together hold exactly the up-kicks
    that come before the last ground event, so the up-kicks after it, the
    trailing unclosed run, are in no series.  Hence there are at most as
    many series as up-kicks, and no series holds more kicks than there are
    up-kicks. *)
Theorem series_account_for_kicks :
  forall (self : BallKickAnalyzer) (found : list JugglingSeries),
    _analyze_juggling_series self = Some found ->
    Forall (fun s => (1 <= kicks_count s <= count_up (kicks self))%Z) found
    /\ (Py.len found <= count_up (kicks self))%Z
    /\ (forall pre post,
          kicks self = pre ++ post ->
          ends_closed pre ->
          Forall (fun k => kick_type k <> "ground"%string) post ->
          Py.sum_int (map kicks_count found) = count_up pre
          /\ (Py.sum_int (map kicks_count found) + count_up post
              = count_up (kicks self))%Z).
Proof.
  intros self found H. unfold _analyze_juggling_series in H.
  destruct (scan_kicks scan_start (kicks self)) as [st|] eqn:E; [|discriminate].
  injection H as <-.
  assert (H0 : accounted [] scan_start).
  { unfold accounted. simpl. repeat split; trivial; try constructor.
    intro H. now elim H. }
  destruct (scan_kicks_accounted (kicks self) [] scan_start st H0 E)
    as (Hsum & Hpos & Hclosed & Hopen).
  simpl app in Hsum.
  assert (Hk : (0 <= current_kicks st)%Z).
  { destruct (current_series_start st) eqn:Ef.
    - specialize (Hopen ltac:(discriminate)). lia.
    - rewrite (Hclosed eq_refl). lia. }
  assert (Hm : Forall (fun x => (1 <= x)%Z) (map kicks_count (scanned st)))
    by now apply Forall_map.
  destruct (sum_int_lower _ Hm) as [Hlen Hup].
  unfold Py.len in Hlen. rewrite length_map in Hlen.
  split; [|split].
  - rewrite Forall_map in Hup.
    rewrite Forall_forall in *. intros s Hs.
    specialize (Hpos s Hs). specialize (Hup s Hs). lia.
  - unfold Py.len. lia.
  - intros pre post Hsplit Hpre Hpost.
    rewrite Hsplit, scan_kicks_app in E.
    destruct (scan_ends_closed pre Hpre) as (st1 & E1 & _ & _ & Hk1).
    rewrite E1 in E.
    rewrite (scan_no_ground post st1 st Hpost E).
    destruct (scan_kicks_accounted pre [] scan_start st1 H0 E1) as (Hsum1 & _).
    simpl app in Hsum1. rewrite Hk1 in Hsum1.
    rewrite Hsplit, count_up_app. lia.
Qed.

Lemma series_account_for_kicks_witness :
  let u8 := up_kick 8 (8 # 32) (120, 490) 0.8 in
  let u20 := up_kick 20 (20 # 32) (130, 480) 0.7 in
  let g32 := ground_kick 32 (32 # 32) (130, 1000) in
  let u40 := up_kick 40 (40 # 32) (130, 470) 0.7 in
  let self := set_kicks __init__ [u8; u20; g32; u40] in
  exists found,
    _analyze_juggling_series self = Some found
    /\ map kicks_count found = [2%Z]
    /\ (Py.len found <= 3)%Z
    /\ Py.sum_int (map kicks_count found) = count_up [u8; u20; g32]
    /\ (Py.sum_int (map kicks_count found) + count_up [u40] = 3)%Z.
Proof.
  intros u8 u20 g32 u40 self.
  destruct (_analyze_juggling_series self) as [found|] eqn:E;
    [|vm_compute in E; discriminate].
  exists found. split; [reflexivity|].
  destruct (series_account_for_kicks self found E) as (_ & Hlen & Hsum).
  destruct (Hsum [u8; u20; g32] [u40] eq_refl) as [Hpre Hall].
  - right. exists [u8; u20], g32. now split.
  - repeat constructor. discriminate.
  - split; [|split; [exact Hlen | split; [exact Hpre | exact Hall]]].
    vm_compute in E. injection E as <-. reflexivity.
Defined.





Section WithAngles.

Variable atan2_degrees : Q -> Q -> Q.



End WithAngles.


End SeriesExtras.

(** ** Ranking an analysed video *)

Module RankingFacts.

Import TopResults Utils Ranking PyFacts TopResultsFacts RunExtras SeriesExtras.
Open Scope Q_scope.

(** *** The order on timestamps *)

Lemma ascii_compare_lt_trans (a b c : Ascii.ascii) :
  Ascii.compare a b = Lt -> Ascii.compare b c = Lt -> Ascii.compare a c = Lt.
Proof.
  unfold Ascii.compare. rewrite !N.compare_lt_iff. apply N.lt_trans.
Qed.

Lemma string_compare_lt_trans (s1 : string) :
  forall s2 s3,
    String.compare s1 s2 = Lt -> String.compare s2 s3 = Lt ->
    String.compare s1 s3 = Lt.
Proof.
  induction s1 as [|a s1 IH]; intros [|b s2] [|c s3]; simpl;
    try discriminate; trivial.
  destruct (Ascii.compare a b) eqn:Eab; try discriminate.
  - apply Ascii.compare_eq_iff in Eab. subst b.
    destruct (Ascii.compare a c); trivial. apply IH.
  - intros _. destruct (Ascii.compare b c) eqn:Ebc; try discriminate.
    + apply Ascii.compare_eq_iff in Ebc. subst c. now rewrite Eab.
    + now rewrite (ascii_compare_lt_trans a b c Eab Ebc).
Qed.

Lemma string_ltb_trans (s1 s2 s3 : string) :
  String.ltb s1 s2 = true -> String.ltb s2 s3 = true -> String.ltb s1 s3 = true.
Proof.
  unfold String.ltb.
  destruct (String.compare s1 s2) eqn:E1; try discriminate.
  destruct (String.compare s2 s3) eqn:E2; try discriminate.
  now rewrite (string_compare_lt_trans s1 s2 s3 E1 E2).
Qed.

Lemma string_ltb_irrefl (s : string) : String.ltb s s = false.
Proof.
  unfold String.ltb.
  destruct (String.compare s s) eqn:E; trivial.
  pose proof (String.compare_antisym s s) as H. rewrite E in H. discriminate.
Qed.

(** If [a] is not before [b] and [a] is before [c], then [c] is not before
    [b]. *)
Lemma string_not_before (a b c : string) :
  String.ltb a b = false -> String.ltb a c = true -> String.ltb c b = false.
Proof.
  intros Hab Hac. destruct (String.ltb c b) eqn:E; trivial.
  rewrite (string_ltb_trans a c b Hac E) in Hab. discriminate.
Qed.

(** *** The search for the current result *)

Lemma find_current_result_latest (name : string) (l : list TopResult) :
  latest_named name l (find_current_result l name).
Proof.
  unfold find_current_result.
  assert (Hgen : forall rest seen acc,
            latest_named name seen acc ->
            latest_named name (seen ++ rest)
              (fold_left
                 (fun current_result result =>
                    if String.eqb (TopResults.video_name result) name then
                      match current_result with
                      | None => Some result
                      | Some current =>
                          if String.ltb (TopResults.timestamp current)
                               (TopResults.timestamp result)
                          then Some result else Some current
                      end
                    else current_result) rest acc)).
  { induction rest as [|r rest IH]; intros seen acc Hacc; simpl.
    - now rewrite app_nil_r.
    - replace (seen ++ r :: rest) with ((seen ++ [r]) ++ rest)
        by now rewrite <- app_assoc.
      apply IH.
      destruct (String.eqb (TopResults.video_name r) name) eqn:En.
      + apply String.eqb_eq in En. destruct acc as [cur|]; simpl in *.
        * destruct Hacc as (Hin & Hname & Hlate).
          destruct (String.ltb (TopResults.timestamp cur)
                      (TopResults.timestamp r)) eqn:Elt; simpl.
          -- split; [apply in_or_app; right; now left|]. split; [exact En|].
             intros e He Hen. apply in_app_or in He.
             destruct He as [He|[<-|[]]].
             ++ apply (string_not_before (TopResults.timestamp cur));
                  [now apply Hlate | exact Elt].
             ++ apply string_ltb_irrefl.
          -- split; [apply in_or_app; now left|]. split; [exact Hname|].
             intros e He Hen. apply in_app_or in He.
             destruct He as [He|[<-|[]]]; [now apply Hlate | exact Elt].
        * split; [apply in_or_app; right; now left|]. split; [exact En|].
          intros e He Hen. apply in_app_or in He.
          destruct He as [He|[<-|[]]].
          -- now elim (Hacc e He).
          -- apply string_ltb_irrefl.
      + apply String.eqb_neq in En. destruct acc as [cur|]; simpl in *.
        * destruct Hacc as (Hin & Hname & Hlate).
          split; [apply in_or_app; now left|]. split; [exact Hname|].
          intros e He Hen. apply in_app_or in He.
          destruct He as [He|[<-|[]]]; [now apply Hlate | contradiction].
        * intros e He. apply in_app_or in He.
          destruct He as [He|[<-|[]]]; [now apply Hacc | exact En]. }
  apply (Hgen l [] None). intros e [].
Qed.

Section WithAngles.

Variable atan2_degrees : Q -> Q -> Q.

(** X17. [analyze_video_file] answers in one of three ways.  When it
    reports an entry, that entry is on the leaderboard under the name of the
    file, no entry of that name carries a later timestamp, and [in_top_30]
    is true: the branch for a result outside the top is never taken.  It
    answers "not added" exactly when no entry on the leaderboard has the
    name of the file, and it fails, leaving the leaderboard untouched, when
    the analysis or [add_result] raises. *)
Theorem analyze_video_file_answers :
  forall (top : TopResultsManager) (video : Video) (t0 t1 : Q) (now : string),
    match analyze_video_file atan2_degrees top video t0 t1 now with
    | (analysis_ok current in_top_30, top') =>
        in_top_30 = true
        /\ In current (get_top_results top' None)
        /\ TopResults.video_name current = file_name video
        /\ forall e, In e (get_top_results top' None) ->
             TopResults.video_name e = file_name video ->
             String.ltb (TopResults.timestamp current) (TopResults.timestamp e)
             = false
    | (analysis_not_added, top') =>
        forall e, In e (get_top_results top' None) ->
          TopResults.video_name e <> file_name video
    | (analysis_failed, top') =>
        top' = top
        /\ Ranking.analyze_video atan2_degrees top video t0 t1 now = None
    end.
Proof.
  intros top video t0 t1 now. unfold analyze_video_file.
  destruct (Ranking.analyze_video atan2_degrees top video t0 t1 now)
    as [[accepted top']|]; [|now split].
  pose proof (find_current_result_latest (file_name video)
                (get_top_results top' None)) as H.
  destruct (find_current_result (get_top_results top' None) (file_name video))
    as [current|]; simpl in H; [|exact H].
  destruct H as (Hin & Hname & Hlate).
  split; [|now repeat split].
  apply existsb_exists. exists current. split; [exact Hin|].
  apply String.eqb_refl.
Qed.

Lemma max_list_in (A : Type) (ltb : A -> A -> bool) (l : list A) :
  forall x, In (Py.max_list ltb x l) (x :: l).
Proof.
  unfold Py.max_list. induction l as [|y l IH]; intro x; simpl.
  - now left.
  - destruct (ltb x y).
    + destruct (IH y) as [H|H]; [right; now left | right; now right].
    + destruct (IH x) as [H|H]; [now left | right; now right].
Qed.

(** X18. What the module-level [analyze_video] puts on a bounded, sorted
    leaderboard is consistent: an accepted result is on the leaderboard
    under the file's name with the given timestamp and processing time, its
    [total_series] and its [best_series_kicks] are at most its
    [total_kicks], and its best series holds no kick exactly when it has no
    series. *)
Theorem ranked_entry_consistent :
  forall (top top' : TopResultsManager) (video : Video) (t0 t1 : Q)
         (now : string),
    bounded_sorted top ->
    Ranking.analyze_video atan2_degrees top video t0 t1 now = Some (true, top') ->
    exists e,
      In e (results top')
      /\ TopResults.video_name e = file_name video
      /\ TopResults.timestamp e = now
      /\ TopResults.processing_time e = t1 - t0
      /\ (0 <= TopResults.total_series e <= TopResults.total_kicks e)%Z
      /\ (0 <= best_series_kicks e <= TopResults.total_kicks e)%Z
      /\ (best_series_kicks e = 0%Z <-> TopResults.total_series e = 0%Z).
Proof.
  intros top top' video t0 t1 now Hb Hrun. unfold Ranking.analyze_video in Hrun.
  destruct (Utils.analyze_video atan2_degrees Utils.__init__ video t0 t1)
    as [[analysis final]|] eqn:Ea; [|discriminate].
  destruct (analyze_video_inv _ _ _ _ _ _ _ Ea)
    as (_ & _ & Hser & Htk & Hts & _ & Hname & Hpt).
  destruct (add_result_step _ _ _ _ _ _ _ _ _ _ Hb Hrun)
    as (_ & _ & Hacc & _).
  destruct (Hacc eq_refl) as (_ & front & back & _ & Hres & _).
  eexists. split; [rewrite Hres; apply in_or_app; right; now left|].
  cbn [TopResults.video_name TopResults.timestamp TopResults.processing_time
       TopResults.total_series TopResults.total_kicks best_series_kicks
       new_result].
  split; [exact Hname|]. split; [reflexivity|]. split; [exact Hpt|].
  (* the counts of the segmenter *)
  unfold _analyze_juggling_series in Hser.
  destruct (scan_kicks scan_start (kicks final)) as [st|] eqn:E; [|discriminate].
  injection Hser as Hser.
  assert (H0 : accounted [] scan_start).
  { unfold accounted. simpl. repeat split; trivial; try constructor.
    intro H. now elim H. }
  destruct (scan_kicks_accounted (kicks final) [] scan_start st H0 E)
    as (Hsum & Hpos & Hclosed & Hopen).
  simpl app in Hsum.
  assert (Hk : (0 <= current_kicks st)%Z).
  { destruct (current_series_start st) eqn:Ef.
    - specialize (Hopen ltac:(discriminate)). lia.
    - rewrite (Hclosed eq_refl). lia. }
  assert (Hm : Forall (fun x => (1 <= x)%Z) (map kicks_count (scanned st)))
    by now apply Forall_map.
  destruct (sum_int_lower _ Hm) as [Hlen Hup].
  unfold Py.len in Hlen. rewrite length_map in Hlen.
  rewrite Hts, Htk, <- Hser. unfold Py.len.
  split; [lia|].
  destruct (scanned st) as [|s1 rest] eqn:Es.
  - cbn [map length]. split; [lia|]. split; reflexivity.
  - cbn [map length] in *.
    pose proof (max_list_in Z Z.ltb (map kicks_count rest) (kicks_count s1))
      as Hin.
    set (best := Py.max_list Z.ltb (kicks_count s1) (map kicks_count rest)) in *.
    rewrite Forall_forall in Hup, Hm.
    specialize (Hup best Hin). specialize (Hm best Hin).
    split; [lia|]. split; intro H; lia.
Qed.

End WithAngles.

Lemma analyze_video_file_answers_witness :
  exists current top',
    analyze_video_file Samples.atan2_degrees (TopResults.__init__ [] 30)
      Samples.early_ground_video 0 1 "2024-05-01T10:00:00"
    = (analysis_ok current true, top')
    /\ TopResults.video_name current = "early.mp4"%string
    /\ In current (get_top_results top' None).
Proof.
  pose proof (analyze_video_file_answers Samples.atan2_degrees
                (TopResults.__init__ [] 30) Samples.early_ground_video 0 1
                "2024-05-01T10:00:00") as H.
  destruct (analyze_video_file Samples.atan2_degrees (TopResults.__init__ [] 30)
              Samples.early_ground_video 0 1 "2024-05-01T10:00:00")
    as [[current flag| |] top'] eqn:E.
  - destruct H as (-> & Hin & Hname & _).
    exists current, top'. split; [reflexivity|]. split; [exact Hname | exact Hin].
  - vm_compute in E. discriminate.
  - vm_compute in E. discriminate.
Defined.

Lemma ranked_entry_consistent_witness :
  exists top' e,
    Ranking.analyze_video Samples.atan2_degrees (TopResults.__init__ [] 30)
      Samples.early_ground_video 0 1 "2024-05-01T10:00:00" = Some (true, top')
    /\ In e (results top')
    /\ TopResults.video_name e = "early.mp4"%string
    /\ (best_series_kicks e <= TopResults.total_kicks e)%Z.
Proof.
  destruct (Ranking.analyze_video Samples.atan2_degrees
              (TopResults.__init__ [] 30) Samples.early_ground_video 0 1
              "2024-05-01T10:00:00") as [[accepted top']|] eqn:E;
    [|vm_compute in E; discriminate].
  assert (Ha : accepted = true).
  { vm_compute in E. now injection E as <- _. }
  subst accepted.
  destruct (ranked_entry_consistent Samples.atan2_degrees
              (TopResults.__init__ [] 30) top' Samples.early_ground_video 0 1
              "2024-05-01T10:00:00")
    as (e & Hin & Hname & _ & _ & _ & Hbest & _).
  - split; [vm_compute; discriminate | constructor].
  - exact E.
  - exists top', e. split; [reflexivity|]. split; [exact Hin|].
    split; [exact Hname | lia].
Defined.

End RankingFacts.

(** ** The trajectory angle *)

Module AngleFacts.

Import Utils PyFacts.
Open Scope Q_scope.

Section WithAngles.

Variable atan2_degrees : Q -> Q -> Q.

(** X19. When the angle function stays within -180 and 180 degrees, as
    [atan2] does, the trajectory change is an angle from 0 to 180 degrees;
    it is 0 while fewer than three velocities are known. *)
Theorem trajectory_change_range :
  forall self : BallKickAnalyzer,
    (forall y x, -180 <= atan2_degrees y x /\ atan2_degrees y x <= 180) ->
    0 <= Utils.calculate_trajectory_change atan2_degrees self
    /\ Utils.calculate_trajectory_change atan2_degrees self <= 180
    /\ ((Py.len (velocity_history self) < 3)%Z ->
        Utils.calculate_trajectory_change atan2_degrees self = 0).
Proof.
  intros self Hrange. unfold Utils.calculate_trajectory_change.
  destruct (Py.len (velocity_history self) <? 3)%Z eqn:E.
  - repeat split; vm_compute; discriminate.
  - apply Z.ltb_ge in E.
    assert (Hthird : (Py.len (velocity_history self) < 3)%Z -> False) by lia.
    destruct (Py.last_two (velocity_history self)) as [[v2 v3]|].
    + destruct (Hrange (snd v2) (fst v2)) as [H1 H2].
      destruct (Hrange (snd v3) (fst v3)) as [H3 H4].
      set (a1 := atan2_degrees (snd v2) (fst v2)) in *.
      set (a2 := atan2_degrees (snd v3) (fst v3)) in *.
      assert (Habs : 0 <= Py.abs (a2 - a1) /\ Py.abs (a2 - a1) <= 360).
      { unfold Py.abs. destruct (Py.Qltb (a2 - a1) 0) eqn:En.
        - apply Qltb_lt in En. split; lra.
        - apply Qltb_ge in En. split; lra. }
      destruct Habs as [Hlo Hhi].
      destruct (Py.Qltb 180 (Py.abs (a2 - a1))) eqn:Ew.
      * apply Qltb_lt in Ew. split; [lra|]. split; [lra|].
        intro H. now elim Hthird.
      * apply Qltb_ge in Ew. split; [exact Hlo|]. split; [exact Ew|].
        intro H. now elim Hthird.
    + split; [vm_compute; discriminate|]. split; [vm_compute; discriminate|].
      reflexivity.
Qed.

End WithAngles.

Lemma sample_angles_in_range (y x : Q) :
  -180 <= Samples.atan2_degrees y x /\ Samples.atan2_degrees y x <= 180.
Proof.
  unfold Samples.atan2_degrees.
  destruct (Qeq_bool x Samples.vx_150 && Qeq_bool y (-10));
    [split; vm_compute; discriminate|].
  destruct (Qcompare y 0); destruct (Qcompare x 0);
    split; vm_compute; discriminate.
Qed.

Lemma trajectory_change_range_witness :
  0 <= Utils.calculate_trajectory_change Samples.atan2_degrees Samples.faint_state
  /\ Utils.calculate_trajectory_change Samples.atan2_degrees Samples.faint_state
     <= 180.
Proof.
  destruct (trajectory_change_range Samples.atan2_degrees Samples.faint_state
              sample_angles_in_range) as (H1 & H2 & _).
  split; [exact H1 | exact H2].
Defined.

End AngleFacts.
